(** * EdgeML recurrent cells and the sequence unroller (edgeml/pytorch/graph/rnn.py)

    A shallow embedding of [gen_nonlinearity], the five cell classes
    ([FastGRNNCell], [FastRNNCell], [LSTMLRCell], [GRULRCell],
    [UGRNNLRCell]), the unroller [BaseRNN] and the wrappers [LSTM], [GRU],
    [UGRNN], [FastRNN] and [FastGRNN].

    Python exceptions are the [Raise] results of an error monad.  Tensor
    entries are the elements of a commutative ring (exact arithmetic in the
    place of floating point); [sigmoid] and [tanh] are operations of that
    ring's interface.  Matrices are the two-dimensional tensors of the
    library, with their shape carried at run time, because shape errors
    and broadcasting are behaviour of the code. *)

From Stdlib Require Import List ZArith String Lia Bool Arith.
From Stdlib Require Reals Lra.
Import ListNotations.

Set Implicit Arguments.

(** ** Exceptions and the error monad *)

Inductive exn : Type :=
| TypeError
| ValueError
| RuntimeError      (* what torch raises on a size mismatch *)
| AttributeError
| IndexError.

Inductive result (A : Type) : Type :=
| Ok (a : A)
| Raise (e : exn).

Arguments Ok {A} a.
Arguments Raise {A} e.

Definition bind {A B} (m : result A) (k : A -> result B) : result B :=
  match m with
  | Ok a => k a
  | Raise e => Raise e
  end.

Definition fmap {A B} (f : A -> B) (m : result A) : result B :=
  bind m (fun a => Ok (f a)).

Declare Scope py_scope.
Delimit Scope py_scope with py.
Notation "x <- m ;; k" := (bind m (fun x => k))
  (at level 61, m at next level, right associativity) : py_scope.
Notation "' pat <- m ;; k" := (bind m (fun x => match x with pat => k end))
  (at level 61, pat pattern, m at next level, right associativity) : py_scope.
Open Scope py_scope.

(** ** Scalars

    The entries of a tensor.  The code computes in floating point; the
    model computes in a commutative ring that also has the operations the
    code takes from torch ([max], [min], division, [sigmoid], [tanh]). *)

Class Scalar : Type := {
  num : Type;
  r0 : num;
  r1 : num;
  radd : num -> num -> num;
  rmul : num -> num -> num;
  ropp : num -> num;
  rdiv : num -> num -> num;
  rmax : num -> num -> num;
  rmin : num -> num -> num;
  sigmoid : num -> num;
  tanh : num -> num;
  is_zero : num -> bool;
  radd_comm : forall a b, radd a b = radd b a;
  radd_assoc : forall a b c, radd a (radd b c) = radd (radd a b) c;
  radd_0_l : forall a, radd r0 a = a;
  rmul_comm : forall a b, rmul a b = rmul b a;
  rmul_assoc : forall a b c, rmul a (rmul b c) = rmul (rmul a b) c;
  rmul_0_l : forall a, rmul r0 a = r0;
  rmul_0_r : forall a, rmul a r0 = r0;
  rmul_add_distr_l : forall a b c, rmul a (radd b c) = radd (rmul a b) (rmul a c);
  rmul_add_distr_r : forall a b c, rmul (radd a b) c = radd (rmul a c) (rmul b c)
}.

Definition rsub `{Scalar} (a b : num) : num := radd a (ropp b).
Definition r2 `{Scalar} : num := radd r1 r1.
Definition r4 `{Scalar} : num := radd r2 r2.

(** The integers, for running the model: [sigmoid] and [tanh] are the
    clipped stand-ins the library itself offers as [quantSigm] and
    [quantTanh], and the division rounds down.  What a run over the
    integers shares with the code is the shapes and whether a call returns
    or raises, not the values of the entries. *)
#[export, refine] Instance ZScalar : Scalar := {|
  num := Z;
  r0 := 0%Z;
  r1 := 1%Z;
  radd := Z.add;
  rmul := Z.mul;
  ropp := Z.opp;
  rdiv := Z.div;
  rmax := Z.max;
  rmin := Z.min;
  sigmoid := fun a => Z.max (Z.min ((a + 1) / 2) 1) 0;
  tanh := fun a => Z.max (Z.min a 1) (-1);
  is_zero := fun a => Z.eqb a 0
|}.
Proof. all: intros; lia. Defined.

(** The real numbers: the exact arithmetic that the floating-point code
    approximates, with the sigmoid and the hyperbolic tangent themselves. *)
Module RealScalar.
Import Reals.

Definition RScalar : Scalar.
Proof.
  refine (@Build_Scalar R 0%R 1%R Rplus Rmult Ropp Rdiv Rmax Rmin
            (fun a => (1 / (1 + exp (- a)))%R)
            Rtrigo_def.tanh
            (fun a => if Req_dec_T a 0 then true else false)
            _ _ _ _ _ _ _ _ _); intros; ring.
Defined.

End RealScalar.

(** ** Two-dimensional tensors *)

Section Tensors.
Context {SC : Scalar}.

Record Tensor : Type := mkTensor {
  rows : nat;
  cols : nat;
  data : list (list num)
}.

(** [t[i][j]] *)
Definition get (t : Tensor) (i j : nat) : num :=
  nth j (nth i (data t) []) r0.

(** The tensor of shape [r, c] whose entry at [i, j] is [f i j]. *)
Definition tabulate (r c : nat) (f : nat -> nat -> num) : Tensor :=
  mkTensor r c (map (fun i => map (fun j => f i j) (seq 0 c)) (seq 0 r)).

Definition shape (t : Tensor) : nat * nat := (rows t, cols t).

(** A tensor whose stored entries agree with its shape. *)
Definition wf (t : Tensor) : Prop :=
  t = tabulate (rows t) (cols t) (get t).

(** torch.zeros([r, c]), torch.ones([r, c]) *)
Definition zeros (r c : nat) : Tensor := tabulate r c (fun _ _ => r0).
Definition ones (r c : nat) : Tensor := tabulate r c (fun _ _ => r1).
Definition ones_like (a : Tensor) : Tensor := ones (rows a) (cols a).
Definition zeros_like (a : Tensor) : Tensor := zeros (rows a) (cols a).

(** An elementwise function of one tensor. *)
Definition tmap (f : num -> num) (a : Tensor) : Tensor :=
  tabulate (rows a) (cols a) (fun i j => f (get a i j)).

(** torch.transpose(a, 0, 1) *)
Definition transpose (a : Tensor) : Tensor :=
  tabulate (cols a) (rows a) (fun i j => get a j i).

(** sum of [f 0 .. f (n-1)] *)
Fixpoint rsum (n : nat) (f : nat -> num) : num :=
  match n with
  | O => r0
  | S k => radd (rsum k f) (f k)
  end.

(** The product of [a] and [b] where the shapes agree. *)
Definition mm (a b : Tensor) : Tensor :=
  tabulate (rows a) (cols b)
    (fun i j => rsum (cols a) (fun k => rmul (get a i k) (get b k j))).

(** torch.matmul on two-dimensional tensors *)
Definition matmul (a b : Tensor) : result Tensor :=
  if cols a =? rows b then Ok (mm a b) else Raise RuntimeError.

(** Broadcasting of one dimension: equal sizes, or one of them is 1. *)
Definition bdim (m n : nat) : option nat :=
  if m =? n then Some m
  else if m =? 1 then Some n
  else if n =? 1 then Some m
  else None.

(** The entry of [t] that position [i, j] of a broadcast result reads. *)
Definition bget (t : Tensor) (i j : nat) : num :=
  get t (if rows t =? 1 then 0 else i) (if cols t =? 1 then 0 else j).

(** An elementwise function of two tensors, with broadcasting. *)
Definition broadcast2 (f : num -> num -> num) (a b : Tensor) : result Tensor :=
  match bdim (rows a) (rows b), bdim (cols a) (cols b) with
  | Some r, Some c => Ok (tabulate r c (fun i j => f (bget a i j) (bget b i j)))
  | _, _ => Raise RuntimeError
  end.

Definition tadd : Tensor -> Tensor -> result Tensor := broadcast2 radd.
Definition tmul : Tensor -> Tensor -> result Tensor := broadcast2 rmul.
Definition tmax : Tensor -> Tensor -> result Tensor := broadcast2 rmax.
Definition tmin : Tensor -> Tensor -> result Tensor := broadcast2 rmin.


End Tensors.

(** ** Python values that reach the functions below *)

Section Values.
Context {SC : Scalar}.

Inductive pyval : Type :=
| PNone
| PBool (b : bool)
| PInt (n : Z)
| PFloat (x : num)
| PStr (s : string)
| PTensor (t : Tensor)
| PCallable (f : Tensor -> result Tensor).

(** callable(v) *)
Definition callable (v : pyval) : bool :=
  match v with
  | PCallable _ => true
  | _ => false
  end.

(** v == "s", for a string literal s *)
Definition eq_str (v : pyval) (s : string) : bool :=
  match v with
  | PStr s' => String.eqb s' s
  | _ => false
  end.

(** Truth value of a number or a flag: [if v:]. *)
Definition truthy (v : pyval) : bool :=
  match v with
  | PNone => false
  | PBool b => b
  | PInt n => negb (Z.eqb n 0)
  | PFloat x => negb (is_zero x)
  | PStr s => negb (String.eqb s "")
  | PTensor _ => true
  | PCallable _ => true
  end.

(** Unary plus on a string: str has no [__pos__]. *)
Definition str_pos (s : string) : result string := Raise TypeError.

(** s + t on strings *)
Definition str_add (s t : string) : result string := Ok (s ++ t)%string.

(** raise ValueError(msg): the message is evaluated first. *)
Definition raise_ValueError {A} (msg : result string) : result A :=
  _ <- msg ;; Raise ValueError.

(** torch.relu takes exactly one argument, the tensor. *)
Definition torch_relu (args : list pyval) : result Tensor :=
  match args with
  | [PTensor a] => Ok (tmap (fun v => rmax v r0) a)
  | _ => Raise TypeError
  end.

(** ** gen_nonlinearity *)

Definition gen_nonlinearity (A : Tensor) (nonlinearity : pyval) : result Tensor :=
  if eq_str nonlinearity "tanh" then
    Ok (tmap tanh A)
  else if eq_str nonlinearity "sigmoid" then
    Ok (tmap sigmoid A)
  else if eq_str nonlinearity "relu" then
    torch_relu [PTensor A; PFloat r0]
  else if eq_str nonlinearity "quantTanh" then
    lo <- tmin A (ones_like A) ;;
    tmax lo (tmap (rmul (ropp r1)) (ones_like A))
  else if eq_str nonlinearity "quantSigm" then
    let A := tmap (fun v => rdiv (radd v r1) r2) A in
    lo <- tmin A (ones_like A) ;;
    tmax lo (zeros_like A)
  else if eq_str nonlinearity "quantSigm4" then
    let A := tmap (fun v => rdiv (radd v r2) r4) A in
    lo <- tmin A (ones_like A) ;;
    tmax lo (zeros_like A)
  else
    if negb (callable nonlinearity) then
      raise_ValueError
        (m <- str_pos "['tanh', 'sigmoid', 'relu', 'quantTanh', " ;;
         s <- str_add "nonlinearity is either a callable or a value " m ;;
         str_add s "'quantSigm'")
    else
      match nonlinearity with
      | PCallable f => f A
      | _ => Raise TypeError
      end.

(** The six names the docstring lists. *)
Definition recognized : list string :=
  ["tanh"; "sigmoid"; "relu"; "quantTanh"; "quantSigm"; "quantSigm4"]%string.

Definition is_recognized (v : pyval) : bool :=
  existsb (eq_str v) recognized.

(** The scalar function behind each name that the code computes. *)
Definition quantTanh (v : num) : num := rmax (rmin v r1) (rmul (ropp r1) r1).
Definition quantSigm (v : num) : num := rmax (rmin (rdiv (radd v r1) r2) r1) r0.
Definition quantSigm4 (v : num) : num := rmax (rmin (rdiv (radd v r2) r4) r1) r0.

(** [nl] acts as the scalar function [f] on every entry. *)
Definition elementwise (nl : pyval) (f : num -> num) : Prop :=
  forall A, gen_nonlinearity A nl = Ok (tmap f A).

End Values.

(** ** Helpers shared by the cell classes *)

Section Cells.
Context {SC : Scalar}.

(** A weight of FastGRNN and FastRNN: [self.W] when the rank is [None],
    [self.W1] and [self.W2] when a rank is given. *)
Inductive weight : Type :=
| Full (W : Tensor)
| LowRank (W1 W2 : Tensor).

(** [self._wRank is None] *)
Definition rank_is_None (w : weight) : bool :=
  match w with
  | Full _ => true
  | LowRank _ _ => false
  end.

(** [1.0 - z] *)
Definition one_minus (z : Tensor) : Tensor := tmap (fun v => rsub r1 v) z.

(** What a cell is called with and returns: a tensor, or the tuple
    [(h, c)] of the dual-state cell. *)
Inductive state : Type :=
| Hidden (h : Tensor)
| HiddenCell (h c : Tensor).

(** for x in l: s = body(x, s) *)
Fixpoint for_each {A St} (l : list A) (body : A -> St -> result St) (s : St)
  : result St :=
  match l with
  | [] => Ok s
  | x :: l' => s' <- body x s ;; for_each l' body s'
  end.

(** range(lo, hi) *)
Definition range (lo hi : nat) : list nat := seq lo (hi - lo).

(** l[i] *)
Definition index {A} (l : list A) (i : nat) : result A :=
  match nth_error l i with
  | Some x => Ok x
  | None => Raise IndexError
  end.

(** The attributes of a Python list. *)
Definition list_attributes : list string :=
  ["append"; "clear"; "copy"; "count"; "extend"; "index"; "insert"; "pop";
   "remove"; "reverse"; "sort"]%string.

(** [l.name]: a list has the attributes above and no other. *)
Definition list_getattr (name : string) : result string :=
  if existsb (String.eqb name) list_attributes
  then Ok name
  else Raise AttributeError.

(** [l.name()] where a number is needed: the attribute is looked up first;
    no method of a list gives a number when called without arguments. *)
Definition list_call0 {A} (l : list A) (name : string) : result nat :=
  _ <- list_getattr name ;; Raise TypeError.

(** A.numel() *)
Definition numel (A : Tensor) : nat := rows A * cols A.

(** The number of entries of [A] that are not zero. *)
Definition count_nonzero (A : Tensor) : nat :=
  list_sum (map (fun i =>
    list_sum (map (fun j => if is_zero (get A i j) then 0 else 1)
                  (seq 0 (cols A))))
    (seq 0 (rows A))).

(** Modelled from the spec: [utils.countNNZ] is not among the sources; by
    section 4.2, where the flag is false the count is the number of
    entries, otherwise the number of entries that are not zero. *)
Definition countNNZ (A : Tensor) (sparsityFlag : pyval) : nat :=
  if truthy sparsityFlag then count_nonzero A else numel A.

End Cells.

(** ** FastGRNNCell *)

Module FastGRNNCell.
Section Defs.
Context {SC : Scalar}.

Record t : Type := mk {
  input_size : nat;
  hidden_size : nat;
  gate_nonlinearity : pyval;
  update_nonlinearity : pyval;
  W : weight;
  U : weight;
  wSparsity : pyval;
  uSparsity : pyval;
  bias_gate : Tensor;
  bias_update : Tensor;
  zeta : Tensor;
  nu : Tensor
}.

Definition cellType (self : t) : string := "FastGRNN".
Definition output_size (self : t) : nat := hidden_size self.
Definition state_size (self : t) : nat := hidden_size self.

(** [self._num_weight_matrices], as __init__ leaves it *)
Definition num_weight_matrices (self : t) : nat * nat :=
  ((if rank_is_None (W self) then 1 else 2),
   (if rank_is_None (U self) then 1 else 2)).

Definition forward (self : t) (input state : Tensor) : result Tensor :=
  wComp <- match W self with
           | Full W => matmul input (transpose W)
           | LowRank W1 W2 =>
               y <- matmul input (transpose W1) ;; matmul y (transpose W2)
           end ;;
  uComp <- match U self with
           | Full U => matmul state (transpose U)
           | LowRank U1 U2 =>
               y <- matmul state (transpose U1) ;; matmul y (transpose U2)
           end ;;
  pre_comp <- tadd wComp uComp ;;
  zin <- tadd pre_comp (bias_gate self) ;;
  z <- gen_nonlinearity zin (gate_nonlinearity self) ;;
  cin <- tadd pre_comp (bias_update self) ;;
  c <- gen_nonlinearity cin (update_nonlinearity self) ;;
  zh <- tmul z state ;;
  sz <- tmul (tmap sigmoid (zeta self)) (one_minus z) ;;
  g <- tadd sz (tmap sigmoid (nu self)) ;;
  gc <- tmul g c ;;
  tadd zh gc.

(** [_num_weight_matrices[0] == 1] holds exactly when the rank is None,
    which is when [self.W] exists. *)
Definition getVars (self : t) : list Tensor :=
  match W self with Full W => [W] | LowRank W1 W2 => [W1; W2] end
  ++ match U self with Full U => [U] | LowRank U1 U2 => [U1; U2] end
  ++ [bias_gate self; bias_update self]
  ++ [zeta self; nu self].

Definition getModelSize (self : t) : result nat :=
  let totalnnz := 2 in
  let mats := getVars self in
  let endW := fst (num_weight_matrices self) in
  totalnnz <- for_each (range 0 endW)
                (fun i totalnnz =>
                   m <- index mats i ;;
                   Ok (totalnnz + countNNZ m (wSparsity self)))
                totalnnz ;;
  let endU := endW + snd (num_weight_matrices self) in
  totalnnz <- for_each (range endW endU)
                (fun i totalnnz =>
                   m <- index mats i ;;
                   Ok (totalnnz + countNNZ m (uSparsity self)))
                totalnnz ;;
  len <- list_call0 mats "len" ;;
  totalnnz <- for_each (range endU len)
                (fun i totalnnz =>
                   m <- index mats i ;;
                   Ok (totalnnz + countNNZ m (PBool false)))
                totalnnz ;;
  Ok totalnnz.

(** The shapes __init__ gives the parameters. *)
Definition weight_shaped (w : weight) (out inp : nat) : Prop :=
  match w with
  | Full W => shape W = (out, inp)
  | LowRank W1 W2 => exists r, shape W1 = (r, inp) /\ shape W2 = (out, r)
  end.

Definition well_shaped (self : t) : Prop :=
  weight_shaped (W self) (hidden_size self) (input_size self) /\
  weight_shaped (U self) (hidden_size self) (hidden_size self) /\
  shape (bias_gate self) = (1, hidden_size self) /\
  shape (bias_update self) = (1, hidden_size self) /\
  shape (zeta self) = (1, 1) /\
  shape (nu self) = (1, 1).

(** The full-rank weight that stands for a weight: the product
    [W2 . W1] of the factors, of shape [out, in]. *)
Definition dense (w : weight) : Tensor :=
  match w with
  | Full W => W
  | LowRank W1 W2 => mm W2 W1
  end.

(** The cell with every factor pair replaced by its product. *)
Definition full_rank (self : t) : t :=
  mk (input_size self) (hidden_size self)
     (gate_nonlinearity self) (update_nonlinearity self)
     (Full (dense (W self))) (Full (dense (U self)))
     (wSparsity self) (uSparsity self)
     (bias_gate self) (bias_update self) (zeta self) (nu self).

(** The factors of a weight compose. *)
Definition composable_weight (w : weight) : Prop :=
  match w with
  | Full _ => True
  | LowRank W1 W2 => cols W2 = rows W1
  end.

Definition composable (self : t) : Prop :=
  composable_weight (W self) /\ composable_weight (U self).

End Defs.
End FastGRNNCell.

(** ** FastRNNCell *)

Module FastRNNCell.
Section Defs.
Context {SC : Scalar}.

Record t : Type := mk {
  input_size : nat;
  hidden_size : nat;
  update_nonlinearity : pyval;
  W : weight;
  U : weight;
  wSparsity : pyval;
  uSparsity : pyval;
  bias_update : Tensor;
  alpha : Tensor;
  beta : Tensor
}.

Definition cellType (self : t) : string := "FastRNN".
Definition output_size (self : t) : nat := hidden_size self.
Definition state_size (self : t) : nat := hidden_size self.

Definition forward (self : t) (input state : Tensor) : result Tensor :=
  wComp <- match W self with
           | Full W => matmul input W
           | LowRank W1 W2 => y <- matmul input W1 ;; matmul y W2
           end ;;
  uComp <- match U self with
           | Full U => matmul state U
           | LowRank U1 U2 => y <- matmul state U1 ;; matmul y U2
           end ;;
  pre_comp <- tadd wComp uComp ;;
  cin <- tadd pre_comp (bias_update self) ;;
  c <- gen_nonlinearity cin (update_nonlinearity self) ;;
  bh <- tmul (tmap sigmoid (beta self)) state ;;
  ac <- tmul (tmap sigmoid (alpha self)) c ;;
  tadd bh ac.

Definition getVars (self : t) : list Tensor :=
  match W self with Full W => [W] | LowRank W1 W2 => [W1; W2] end
  ++ match U self with Full U => [U] | LowRank U1 U2 => [U1; U2] end
  ++ [bias_update self]
  ++ [alpha self; beta self].

(** The shapes __init__ gives the parameters: here the weights are stored
    as [in, out]. *)
Definition weight_shaped (w : weight) (inp out : nat) : Prop :=
  match w with
  | Full W => shape W = (inp, out)
  | LowRank W1 W2 => exists r, shape W1 = (inp, r) /\ shape W2 = (r, out)
  end.

Definition well_shaped (self : t) : Prop :=
  weight_shaped (W self) (input_size self) (hidden_size self) /\
  weight_shaped (U self) (hidden_size self) (hidden_size self) /\
  shape (bias_update self) = (1, hidden_size self) /\
  shape (alpha self) = (1, 1) /\
  shape (beta self) = (1, 1).

(** The full-rank weight that stands for a weight: the product
    [W1 . W2] of the factors. *)
Definition dense (w : weight) : Tensor :=
  match w with
  | Full W => W
  | LowRank W1 W2 => mm W1 W2
  end.

Definition full_rank (self : t) : t :=
  mk (input_size self) (hidden_size self) (update_nonlinearity self)
     (Full (dense (W self))) (Full (dense (U self)))
     (wSparsity self) (uSparsity self)
     (bias_update self) (alpha self) (beta self).

Definition composable_weight (w : weight) : Prop :=
  match w with
  | Full _ => True
  | LowRank W1 W2 => cols W1 = rows W2
  end.

Definition composable (self : t) : Prop :=
  composable_weight (W self) /\ composable_weight (U self).

End Defs.
End FastRNNCell.

(** ** The cells with a shared low-rank factor

    In [LSTMLRCell], [GRULRCell] and [UGRNNLRCell] a rank adds one factor
    [self.W] (or [self.U]) in front of every [self.Wi] (or [self.Ui]). *)

Section Shared.
Context {SC : Scalar}.

(** [matmul(x, Wi)] when the rank is None, [matmul(matmul(x, W), Wi)]
    when [W] is the shared factor. *)
Definition project (W : option Tensor) (Wi : Tensor) (x : Tensor)
  : result Tensor :=
  match W with
  | None => matmul x Wi
  | Some W => y <- matmul x W ;; matmul y Wi
  end.

(** The full-rank weight that stands for [Wi]: the product [W . Wi]. *)
Definition dense_shared (W : option Tensor) (Wi : Tensor) : Tensor :=
  match W with
  | None => Wi
  | Some W => mm W Wi
  end.

Definition composable_shared (W : option Tensor) (Wi : Tensor) : Prop :=
  match W with
  | None => True
  | Some W => cols W = rows Wi
  end.

(** The shapes __init__ gives a shared factor and one of its weights. *)
Definition shared_shaped (W : option Tensor) (Wi : Tensor) (inp out : nat)
  : Prop :=
  match W with
  | None => shape Wi = (inp, out)
  | Some W => exists r, shape W = (inp, r) /\ shape Wi = (r, out)
  end.

End Shared.

(** ** LSTMLRCell *)

Module LSTMLRCell.
Section Defs.
Context {SC : Scalar}.

Record t : Type := mk {
  input_size : nat;
  hidden_size : nat;
  gate_nonlinearity : pyval;
  update_nonlinearity : pyval;
  W : option Tensor;
  W1 : Tensor; W2 : Tensor; W3 : Tensor; W4 : Tensor;
  U : option Tensor;
  U1 : Tensor; U2 : Tensor; U3 : Tensor; U4 : Tensor;
  bias_f : Tensor; bias_i : Tensor; bias_c : Tensor; bias_o : Tensor
}.

Definition cellType (self : t) : string := "LSTMLR".
Definition output_size (self : t) : nat := hidden_size self.
Definition state_size (self : t) : nat := 2 * hidden_size self.

Definition forward (self : t) (input : Tensor) (hiddenStates : Tensor * Tensor)
  : result (Tensor * Tensor) :=
  let '(h, c) := hiddenStates in
  wComp1 <- project (W self) (W1 self) input ;;
  wComp2 <- project (W self) (W2 self) input ;;
  wComp3 <- project (W self) (W3 self) input ;;
  wComp4 <- project (W self) (W4 self) input ;;
  uComp1 <- project (U self) (U1 self) h ;;
  uComp2 <- project (U self) (U2 self) h ;;
  uComp3 <- project (U self) (U3 self) h ;;
  uComp4 <- project (U self) (U4 self) h ;;
  pre_comp1 <- tadd wComp1 uComp1 ;;
  pre_comp2 <- tadd wComp2 uComp2 ;;
  pre_comp3 <- tadd wComp3 uComp3 ;;
  pre_comp4 <- tadd wComp4 uComp4 ;;
  iin <- tadd pre_comp1 (bias_i self) ;;
  i <- gen_nonlinearity iin (gate_nonlinearity self) ;;
  fin <- tadd pre_comp2 (bias_f self) ;;
  f <- gen_nonlinearity fin (gate_nonlinearity self) ;;
  oin <- tadd pre_comp4 (bias_o self) ;;
  o <- gen_nonlinearity oin (gate_nonlinearity self) ;;
  cin <- tadd pre_comp3 (bias_c self) ;;
  c_ <- gen_nonlinearity cin (update_nonlinearity self) ;;
  fc <- tmul f c ;;
  ic <- tmul i c_ ;;
  new_c <- tadd fc ic ;;
  nc <- gen_nonlinearity new_c (update_nonlinearity self) ;;
  new_h <- tmul o nc ;;
  Ok (new_h, new_c).

Definition getVars (self : t) : list Tensor :=
  match W self with
  | None => [W1 self; W2 self; W3 self; W4 self]
  | Some W => [W; W1 self; W2 self; W3 self; W4 self]
  end
  ++ match U self with
     | None => [U1 self; U2 self; U3 self; U4 self]
     | Some U => [U; U1 self; U2 self; U3 self; U4 self]
     end
  ++ [bias_f self; bias_i self; bias_c self; bias_o self].

Definition well_shaped (self : t) : Prop :=
  shared_shaped (W self) (W1 self) (input_size self) (hidden_size self) /\
  shared_shaped (W self) (W2 self) (input_size self) (hidden_size self) /\
  shared_shaped (W self) (W3 self) (input_size self) (hidden_size self) /\
  shared_shaped (W self) (W4 self) (input_size self) (hidden_size self) /\
  shared_shaped (U self) (U1 self) (hidden_size self) (hidden_size self) /\
  shared_shaped (U self) (U2 self) (hidden_size self) (hidden_size self) /\
  shared_shaped (U self) (U3 self) (hidden_size self) (hidden_size self) /\
  shared_shaped (U self) (U4 self) (hidden_size self) (hidden_size self) /\
  shape (bias_f self) = (1, hidden_size self) /\
  shape (bias_i self) = (1, hidden_size self) /\
  shape (bias_c self) = (1, hidden_size self) /\
  shape (bias_o self) = (1, hidden_size self).

Definition full_rank (self : t) : t :=
  mk (input_size self) (hidden_size self)
     (gate_nonlinearity self) (update_nonlinearity self)
     None
     (dense_shared (W self) (W1 self)) (dense_shared (W self) (W2 self))
     (dense_shared (W self) (W3 self)) (dense_shared (W self) (W4 self))
     None
     (dense_shared (U self) (U1 self)) (dense_shared (U self) (U2 self))
     (dense_shared (U self) (U3 self)) (dense_shared (U self) (U4 self))
     (bias_f self) (bias_i self) (bias_c self) (bias_o self).

Definition composable (self : t) : Prop :=
  composable_shared (W self) (W1 self) /\ composable_shared (W self) (W2 self) /\
  composable_shared (W self) (W3 self) /\ composable_shared (W self) (W4 self) /\
  composable_shared (U self) (U1 self) /\ composable_shared (U self) (U2 self) /\
  composable_shared (U self) (U3 self) /\ composable_shared (U self) (U4 self).

End Defs.
End LSTMLRCell.

(** ** GRULRCell *)

Module GRULRCell.
Section Defs.
Context {SC : Scalar}.

Record t : Type := mk {
  input_size : nat;
  hidden_size : nat;
  gate_nonlinearity : pyval;
  update_nonlinearity : pyval;
  W : option Tensor;
  W1 : Tensor; W2 : Tensor; W3 : Tensor;
  U : option Tensor;
  U1 : Tensor; U2 : Tensor; U3 : Tensor;
  bias_r : Tensor; bias_gate : Tensor; bias_update : Tensor
}.

Definition cellType (self : t) : string := "GRULR".
Definition output_size (self : t) : nat := hidden_size self.
Definition state_size (self : t) : nat := hidden_size self.

Definition forward (self : t) (input state : Tensor) : result Tensor :=
  wComp1 <- project (W self) (W1 self) input ;;
  wComp2 <- project (W self) (W2 self) input ;;
  wComp3 <- project (W self) (W3 self) input ;;
  uComp1 <- project (U self) (U1 self) state ;;
  uComp2 <- project (U self) (U2 self) state ;;
  pre_comp1 <- tadd wComp1 uComp1 ;;
  pre_comp2 <- tadd wComp2 uComp2 ;;
  rin <- tadd pre_comp1 (bias_r self) ;;
  r <- gen_nonlinearity rin (gate_nonlinearity self) ;;
  zin <- tadd pre_comp2 (bias_gate self) ;;
  z <- gen_nonlinearity zin (gate_nonlinearity self) ;;
  rs <- tmul r state ;;
  uComp3 <- project (U self) (U3 self) rs ;;
  pre_comp3 <- tadd wComp3 uComp3 ;;
  cin <- tadd pre_comp3 (bias_update self) ;;
  c <- gen_nonlinearity cin (update_nonlinearity self) ;;
  zs <- tmul z state ;;
  zc <- tmul (one_minus z) c ;;
  tadd zs zc.

Definition getVars (self : t) : list Tensor :=
  match W self with
  | None => [W1 self; W2 self; W3 self]
  | Some W => [W; W1 self; W2 self; W3 self]
  end
  ++ match U self with
     | None => [U1 self; U2 self; U3 self]
     | Some U => [U; U1 self; U2 self; U3 self]
     end
  ++ [bias_r self; bias_gate self; bias_update self].

Definition well_shaped (self : t) : Prop :=
  shared_shaped (W self) (W1 self) (input_size self) (hidden_size self) /\
  shared_shaped (W self) (W2 self) (input_size self) (hidden_size self) /\
  shared_shaped (W self) (W3 self) (input_size self) (hidden_size self) /\
  shared_shaped (U self) (U1 self) (hidden_size self) (hidden_size self) /\
  shared_shaped (U self) (U2 self) (hidden_size self) (hidden_size self) /\
  shared_shaped (U self) (U3 self) (hidden_size self) (hidden_size self) /\
  shape (bias_r self) = (1, hidden_size self) /\
  shape (bias_gate self) = (1, hidden_size self) /\
  shape (bias_update self) = (1, hidden_size self).

Definition full_rank (self : t) : t :=
  mk (input_size self) (hidden_size self)
     (gate_nonlinearity self) (update_nonlinearity self)
     None
     (dense_shared (W self) (W1 self)) (dense_shared (W self) (W2 self))
     (dense_shared (W self) (W3 self))
     None
     (dense_shared (U self) (U1 self)) (dense_shared (U self) (U2 self))
     (dense_shared (U self) (U3 self))
     (bias_r self) (bias_gate self) (bias_update self).

Definition composable (self : t) : Prop :=
  composable_shared (W self) (W1 self) /\ composable_shared (W self) (W2 self) /\
  composable_shared (W self) (W3 self) /\
  composable_shared (U self) (U1 self) /\ composable_shared (U self) (U2 self) /\
  composable_shared (U self) (U3 self).

End Defs.
End GRULRCell.

(** ** UGRNNLRCell *)

Module UGRNNLRCell.
Section Defs.
Context {SC : Scalar}.

Record t : Type := mk {
  input_size : nat;
  hidden_size : nat;
  gate_nonlinearity : pyval;
  update_nonlinearity : pyval;
  W : option Tensor;
  W1 : Tensor; W2 : Tensor;
  U : option Tensor;
  U1 : Tensor; U2 : Tensor;
  bias_gate : Tensor; bias_update : Tensor
}.

Definition cellType (self : t) : string := "UGRNNLR".
Definition output_size (self : t) : nat := hidden_size self.
Definition state_size (self : t) : nat := hidden_size self.

Definition forward (self : t) (input state : Tensor) : result Tensor :=
  wComp1 <- project (W self) (W1 self) input ;;
  wComp2 <- project (W self) (W2 self) input ;;
  uComp1 <- project (U self) (U1 self) state ;;
  uComp2 <- project (U self) (U2 self) state ;;
  pre_comp1 <- tadd wComp1 uComp1 ;;
  pre_comp2 <- tadd wComp2 uComp2 ;;
  zin <- tadd pre_comp1 (bias_gate self) ;;
  z <- gen_nonlinearity zin (gate_nonlinearity self) ;;
  cin <- tadd pre_comp2 (bias_update self) ;;
  c <- gen_nonlinearity cin (update_nonlinearity self) ;;
  zs <- tmul z state ;;
  zc <- tmul (one_minus z) c ;;
  tadd zs zc.

Definition getVars (self : t) : list Tensor :=
  match W self with
  | None => [W1 self; W2 self]
  | Some W => [W; W1 self; W2 self]
  end
  ++ match U self with
     | None => [U1 self; U2 self]
     | Some U => [U; U1 self; U2 self]
     end
  ++ [bias_gate self; bias_update self].

Definition well_shaped (self : t) : Prop :=
  shared_shaped (W self) (W1 self) (input_size self) (hidden_size self) /\
  shared_shaped (W self) (W2 self) (input_size self) (hidden_size self) /\
  shared_shaped (U self) (U1 self) (hidden_size self) (hidden_size self) /\
  shared_shaped (U self) (U2 self) (hidden_size self) (hidden_size self) /\
  shape (bias_gate self) = (1, hidden_size self) /\
  shape (bias_update self) = (1, hidden_size self).

Definition full_rank (self : t) : t :=
  mk (input_size self) (hidden_size self)
     (gate_nonlinearity self) (update_nonlinearity self)
     None
     (dense_shared (W self) (W1 self)) (dense_shared (W self) (W2 self))
     None
     (dense_shared (U self) (U1 self)) (dense_shared (U self) (U2 self))
     (bias_gate self) (bias_update self).

Definition composable (self : t) : Prop :=
  composable_shared (W self) (W1 self) /\ composable_shared (W self) (W2 self) /\
  composable_shared (U self) (U1 self) /\ composable_shared (U self) (U2 self).

End Defs.
End UGRNNLRCell.

(** ** Three-dimensional tensors: the input and output sequences *)

Section Sequences.
Context {SC : Scalar}.

Record Tensor3 : Type := mkTensor3 {
  dim0 : nat;
  dim1 : nat;
  dim2 : nat;
  data3 : list (list (list num))
}.

Definition get3 (t : Tensor3) (i j k : nat) : num :=
  nth k (nth j (nth i (data3 t) []) []) r0.

Definition tabulate3 (a b c : nat) (f : nat -> nat -> nat -> num) : Tensor3 :=
  mkTensor3 a b c
    (map (fun i => map (fun j => map (fun k => f i j k) (seq 0 c)) (seq 0 b))
         (seq 0 a)).

Definition shape3 (t : Tensor3) : nat * nat * nat := (dim0 t, dim1 t, dim2 t).

(** torch.zeros([a, b, c]) *)
Definition zeros3 (a b c : nat) : Tensor3 := tabulate3 a b c (fun _ _ _ => r0).

(** torch.transpose(t, 0, 1) *)
Definition transpose01 (t : Tensor3) : Tensor3 :=
  tabulate3 (dim1 t) (dim0 t) (dim2 t) (fun i j k => get3 t j i k).

(** [t[:, i, :]] and [t[i, :, :]]; the loops below keep [i] in range. *)
Definition select1 (t : Tensor3) (i : nat) : Tensor :=
  tabulate (dim0 t) (dim2 t) (fun b k => get3 t b i k).

Definition select0 (t : Tensor3) (i : nat) : Tensor :=
  tabulate (dim1 t) (dim2 t) (fun b k => get3 t i b k).

(** A value can be written into a slice of shape [r, c] when each of its
    dimensions is that of the slice or 1. *)
Definition expandable (v : Tensor) (r c : nat) : bool :=
  ((rows v =? r) || (rows v =? 1)) && ((cols v =? c) || (cols v =? 1)).

(** [t[:, i, :] = v] *)
Definition setitem1 (t : Tensor3) (i : nat) (v : Tensor) : result Tensor3 :=
  if expandable v (dim0 t) (dim2 t)
  then Ok (tabulate3 (dim0 t) (dim1 t) (dim2 t)
             (fun b j k => if j =? i then bget v b k else get3 t b j k))
  else Raise RuntimeError.

(** [t[i, :, :] = v] *)
Definition setitem0 (t : Tensor3) (i : nat) (v : Tensor) : result Tensor3 :=
  if expandable v (dim1 t) (dim2 t)
  then Ok (tabulate3 (dim0 t) (dim1 t) (dim2 t)
             (fun j b k => if j =? i then bget v b k else get3 t j b k))
  else Raise RuntimeError.

(** What the unroller returns: [hiddenStates], or the tuple
    [(hiddenStates, cellStates)]. *)
Inductive output : Type :=
| Out (hiddenStates : Tensor3)
| OutPair (hiddenStates cellStates : Tensor3).

Definition transpose_output (o : output) : output :=
  match o with
  | Out hs => Out (transpose01 hs)
  | OutPair hs cs => OutPair (transpose01 hs) (transpose01 cs)
  end.

(** ** The interface the unroller uses of a cell *)

Class RNNCell (C : Type) : Type := {
  cellType : C -> string;
  output_size : C -> nat;
  input_size : C -> nat;
  (** [cell(input, state)] *)
  call : C -> Tensor -> state -> result state
}.

(** A single-state cell is called with a tensor, as the unroller does.
    With a tuple in its place the product with the state raises TypeError;
    the products with the input, which the code computes before it, are
    left out of that case. *)
Definition call_single (forward : Tensor -> Tensor -> result Tensor)
  (input : Tensor) (s : state) : result state :=
  match s with
  | Hidden h => fmap Hidden (forward input h)
  | HiddenCell _ _ => Raise TypeError
  end.

(** The dual-state cell unpacks its state into [(h, c)], as the unroller
    passes it.  A single tensor in its place raises ValueError here; the
    code would unpack a tensor of exactly two rows into its rows. *)
Definition call_dual
  (forward : Tensor -> Tensor * Tensor -> result (Tensor * Tensor))
  (input : Tensor) (s : state) : result state :=
  match s with
  | HiddenCell h c => fmap (fun hc => HiddenCell (fst hc) (snd hc))
                           (forward input (h, c))
  | Hidden _ => Raise ValueError
  end.

#[export] Instance FastGRNNCell_RNNCell : RNNCell FastGRNNCell.t := {|
  cellType := FastGRNNCell.cellType;
  output_size := FastGRNNCell.output_size;
  input_size := FastGRNNCell.input_size;
  call := fun self => call_single (FastGRNNCell.forward self)
|}.

#[export] Instance FastRNNCell_RNNCell : RNNCell FastRNNCell.t := {|
  cellType := FastRNNCell.cellType;
  output_size := FastRNNCell.output_size;
  input_size := FastRNNCell.input_size;
  call := fun self => call_single (FastRNNCell.forward self)
|}.

#[export] Instance LSTMLRCell_RNNCell : RNNCell LSTMLRCell.t := {|
  cellType := LSTMLRCell.cellType;
  output_size := LSTMLRCell.output_size;
  input_size := LSTMLRCell.input_size;
  call := fun self => call_dual (LSTMLRCell.forward self)
|}.

#[export] Instance GRULRCell_RNNCell : RNNCell GRULRCell.t := {|
  cellType := GRULRCell.cellType;
  output_size := GRULRCell.output_size;
  input_size := GRULRCell.input_size;
  call := fun self => call_single (GRULRCell.forward self)
|}.

#[export] Instance UGRNNLRCell_RNNCell : RNNCell UGRNNLRCell.t := {|
  cellType := UGRNNLRCell.cellType;
  output_size := UGRNNLRCell.output_size;
  input_size := UGRNNLRCell.input_size;
  call := fun self => call_single (UGRNNLRCell.forward self)
|}.

End Sequences.

(** ** BaseRNN: the unroller *)

Module BaseRNN.
Section Defs.
Context {SC : Scalar} {C : Type} {cell_ops : RNNCell C}.

Record t : Type := mk {
  _RNNCell : C;
  _batch_first : bool
}.

(** One turn of the loop of a single-state cell: [sel] reads the input of
    step [i] and [set] writes the output of step [i]. *)
Definition step (cell : C) (sel : nat -> Tensor)
  (set : Tensor3 -> nat -> Tensor -> result Tensor3)
  (i : nat) (st : Tensor * Tensor3) : result (Tensor * Tensor3) :=
  let '(hiddenState, hiddenStates) := st in
  r <- call cell (sel i) (Hidden hiddenState) ;;
  match r with
  | Hidden hiddenState =>
      hiddenStates <- set hiddenStates i hiddenState ;;
      Ok (hiddenState, hiddenStates)
  | HiddenCell _ _ => Raise TypeError
  end.

(** One turn of the loop of the dual-state cell. *)
Definition step2 (cell : C) (sel : nat -> Tensor)
  (set : Tensor3 -> nat -> Tensor -> result Tensor3)
  (i : nat) (st : Tensor * Tensor * Tensor3 * Tensor3)
  : result (Tensor * Tensor * Tensor3 * Tensor3) :=
  let '(hiddenState, cellState, hiddenStates, cellStates) := st in
  r <- call cell (sel i) (HiddenCell hiddenState cellState) ;;
  match r with
  | HiddenCell hiddenState cellState =>
      hiddenStates <- set hiddenStates i hiddenState ;;
      cellStates <- set cellStates i cellState ;;
      Ok (hiddenState, cellState, hiddenStates, cellStates)
  | Hidden _ => Raise ValueError
  end.

Definition or_zeros (s : option Tensor) (r c : nat) : Tensor :=
  match s with
  | None => zeros r c
  | Some s => s
  end.

Definition forward (self : t) (input : Tensor3)
  (hiddenState cellState : option Tensor) : result output :=
  let cell := _RNNCell self in
  if _batch_first self then
    let hiddenStates := zeros3 (dim0 input) (dim1 input) (output_size cell) in
    let hiddenState := or_zeros hiddenState (dim0 input) (output_size cell) in
    if String.eqb (cellType cell) "LSTMLR" then
      let cellStates := zeros3 (dim0 input) (dim1 input) (output_size cell) in
      let cellState := or_zeros cellState (dim0 input) (output_size cell) in
      st <- for_each (range 0 (dim1 input))
              (step2 cell (select1 input) setitem1)
              (hiddenState, cellState, hiddenStates, cellStates) ;;
      let '(_, _, hiddenStates, cellStates) := st in
      Ok (OutPair hiddenStates cellStates)
    else
      st <- for_each (range 0 (dim1 input))
              (step cell (select1 input) setitem1)
              (hiddenState, hiddenStates) ;;
      Ok (Out (snd st))
  else
    let hiddenStates := zeros3 (dim0 input) (dim1 input) (output_size cell) in
    let hiddenState := or_zeros hiddenState (dim1 input) (output_size cell) in
    if String.eqb (cellType cell) "LSTMLR" then
      let cellStates := zeros3 (dim0 input) (dim1 input) (output_size cell) in
      let cellState := or_zeros cellState (dim1 input) (output_size cell) in
      st <- for_each (range 0 (dim0 input))
              (step2 cell (select0 input) setitem0)
              (hiddenState, cellState, hiddenStates, cellStates) ;;
      let '(_, _, hiddenStates, cellStates) := st in
      Ok (OutPair hiddenStates cellStates)
    else
      st <- for_each (range 0 (dim0 input))
              (step cell (select0 input) setitem0)
              (hiddenState, hiddenStates) ;;
      Ok (Out (snd st)).

End Defs.
Arguments t : clear implicits.
End BaseRNN.


(** ** Calling a Python function: binding arguments to parameters *)

Section Calls.
Context {SC : Scalar}.

(** A parameter after [self]: its name and its default value, if any. *)
Definition param : Type := string * option pyval.

(** The parameters bound so far. *)
Definition env : Type := list (string * pyval).

Definition has_name {A} (name : string) (l : list (string * A)) : bool :=
  existsb (fun p => String.eqb (fst p) name) l.

Fixpoint lookup (name : string) (e : env) : option pyval :=
  match e with
  | [] => None
  | (n, v) :: e' => if String.eqb n name then Some v else lookup name e'
  end.

(** The value of a bound parameter. *)
Definition getv (e : env) (name : string) : pyval :=
  match lookup name e with
  | Some v => v
  | None => PNone
  end.

(** Positional arguments fill the parameters in order; one too many is a
    TypeError. *)
Fixpoint bind_positional (params : list param) (args : list pyval)
  {struct args} : result (env * list param) :=
  match args, params with
  | [], _ => Ok ([], params)
  | a :: args', (n, _) :: params' =>
      r <- bind_positional params' args' ;;
      Ok ((n, a) :: fst r, snd r)
  | _ :: _, [] => Raise TypeError
  end.

(** A keyword argument must name a parameter that has no value yet. *)
Fixpoint bind_keywords (e : env) (rest : list param)
  (kwargs : list (string * pyval)) : result env :=
  match kwargs with
  | [] => Ok e
  | (k, v) :: kwargs' =>
      if has_name k rest && negb (has_name k e)
      then bind_keywords ((k, v) :: e) rest kwargs'
      else Raise TypeError
  end.

(** A parameter left without a value takes its default; without a
    default the call is a TypeError. *)
Fixpoint bind_defaults (e : env) (rest : list param) : result env :=
  match rest with
  | [] => Ok e
  | (n, d) :: rest' =>
      if has_name n e then bind_defaults e rest'
      else match d with
           | Some v => bind_defaults ((n, v) :: e) rest'
           | None => Raise TypeError
           end
  end.

Definition bind_call (params : list param) (args : list pyval)
  (kwargs : list (string * pyval)) : result env :=
  r <- bind_positional params args ;;
  e <- bind_keywords (fst r) (snd r) kwargs ;;
  bind_defaults e (snd r).

(** *** What __init__ takes from torch *)

(** The integer [n] as a scalar. *)
Definition of_Z (n : Z) : num :=
  match n with
  | Z0 => r0
  | Zpos p => Pos.iter (radd r1) r0 p
  | Zneg p => ropp (Pos.iter (radd r1) r0 p)
  end.

Definition r3 : num := radd r2 r1.

(** 0.1 *)
Definition r_tenth : num := rdiv r1 (radd (radd r4 r4) r2).

(** A size given to torch.randn or torch.ones: an integer that is not
    negative, or a bool, which counts as 0 or 1. *)
Definition as_size (v : pyval) : result nat :=
  match v with
  | PInt n => if (n <? 0)%Z then Raise RuntimeError else Ok (Z.to_nat n)
  | PBool b => Ok (if b then 1 else 0)
  | _ => Raise TypeError
  end.

(** [torch.randn([r, c])]: the [k]-th draw of the construction, taken from
    the source of noise [noise]. *)
Definition torch_randn (noise : nat -> nat -> nat -> num) (k : nat)
  (r c : pyval) : result Tensor :=
  r <- as_size r ;;
  c <- as_size c ;;
  Ok (tabulate r c (noise k)).

(** [torch.ones([r, c])] *)
Definition torch_ones (r c : pyval) : result Tensor :=
  r <- as_size r ;;
  c <- as_size c ;;
  Ok (ones r c).

(** [v * t] for a Python value [v] and a tensor [t]. *)
Definition scale (v : pyval) (t : Tensor) : result Tensor :=
  match v with
  | PFloat x => Ok (tmap (rmul x) t)
  | PInt n => Ok (tmap (rmul (of_Z n)) t)
  | PBool b => Ok (tmap (rmul (if b then r1 else r0)) t)
  | PTensor a => tmul a t
  | _ => Raise TypeError
  end.

(** [v is None] *)
Definition is_None (v : pyval) : bool :=
  match v with
  | PNone => true
  | _ => false
  end.

End Calls.

(** ** FastRNNCell.__init__ and the wrapper FastRNN *)

Module FastRNNCellInit.
Section Defs.
Context {SC : Scalar}.

(** def __init__(self, input_size, hidden_size, update_nonlinearity="tanh",
    wRank=None, uRank=None, wSparsity=1.0, uSparsity=1.0, alphaInit=-3.0,
    betaInit=3.0, name="FastRNN") *)
Definition params : list param :=
  [("input_size", None); ("hidden_size", None);
   ("update_nonlinearity", Some (PStr "tanh"));
   ("wRank", Some PNone); ("uRank", Some PNone);
   ("wSparsity", Some (PFloat r1)); ("uSparsity", Some (PFloat r1));
   ("alphaInit", Some (PFloat (ropp r3))); ("betaInit", Some (PFloat r3));
   ("name", Some (PStr "FastRNN"))]%string.

(** [0.1 * torch.randn([r, c])] *)
Definition init_weight (noise : nat -> nat -> nat -> num) (k : nat)
  (r c : pyval) : result Tensor :=
  w <- torch_randn noise k r c ;;
  Ok (tmap (rmul r_tenth) w).

Definition __init__ (noise : nat -> nat -> nat -> num)
  (args : list pyval) (kwargs : list (string * pyval))
  : result FastRNNCell.t :=
  e <- bind_call params args kwargs ;;
  let input_size := getv e "input_size" in
  let hidden_size := getv e "hidden_size" in
  let wRank := getv e "wRank" in
  let uRank := getv e "uRank" in
  W <- (if is_None wRank then
          W <- init_weight noise 0 input_size hidden_size ;; Ok (Full W)
        else
          W1 <- init_weight noise 0 input_size wRank ;;
          W2 <- init_weight noise 1 wRank hidden_size ;;
          Ok (LowRank W1 W2)) ;;
  U <- (if is_None uRank then
          U <- init_weight noise 2 hidden_size hidden_size ;; Ok (Full U)
        else
          U1 <- init_weight noise 2 hidden_size uRank ;;
          U2 <- init_weight noise 3 uRank hidden_size ;;
          Ok (LowRank U1 U2)) ;;
  bias_update <- torch_ones (PInt 1) hidden_size ;;
  a1 <- torch_ones (PInt 1) (PInt 1) ;;
  alpha <- scale (getv e "alphaInit") a1 ;;
  b1 <- torch_ones (PInt 1) (PInt 1) ;;
  beta <- scale (getv e "betaInit") b1 ;;
  isz <- as_size input_size ;;
  hsz <- as_size hidden_size ;;
  Ok (FastRNNCell.mk isz hsz (getv e "update_nonlinearity") W U
        (getv e "wSparsity") (getv e "uSparsity") bias_update alpha beta).

End Defs.
End FastRNNCellInit.

Module FastRNN.
Section Defs.
Context {SC : Scalar}.

Record t : Type := mk {
  cell : FastRNNCell.t;
  unrollRNN : BaseRNN.t FastRNNCell.t
}.

(** def __init__(self, input_size, hidden_size, gate_nonlinearity="sigmoid",
    update_nonlinearity="tanh", wRank=None, uRank=None, alphaInit=-3.0,
    betaInit=3.0, batch_first=True) *)
Definition params : list param :=
  [("input_size", None); ("hidden_size", None);
   ("gate_nonlinearity", Some (PStr "sigmoid"));
   ("update_nonlinearity", Some (PStr "tanh"));
   ("wRank", Some PNone); ("uRank", Some PNone);
   ("alphaInit", Some (PFloat (ropp r3))); ("betaInit", Some (PFloat r3));
   ("batch_first", Some (PBool true))]%string.

(** [batch_first is True] *)
Definition is_True (v : pyval) : bool :=
  match v with
  | PBool true => true
  | _ => false
  end.

Definition __init__ (noise : nat -> nat -> nat -> num)
  (args : list pyval) (kwargs : list (string * pyval)) : result t :=
  e <- bind_call params args kwargs ;;
  cell <- FastRNNCellInit.__init__ noise
            [getv e "input_size"; getv e "hidden_size"]
            [("gate_nonlinearity", getv e "gate_nonlinearity");
             ("update_nonlinearity", getv e "update_nonlinearity");
             ("wRank", getv e "wRank"); ("uRank", getv e "uRank");
             ("alphaInit", getv e "alphaInit");
             ("betaInit", getv e "betaInit")]%string ;;
  Ok (mk cell (BaseRNN.mk cell (is_True (getv e "batch_first")))).

Definition forward (self : t) (input : Tensor3)
  (hiddenState cellState : option Tensor) : result output :=
  BaseRNN.forward (unrollRNN self) input hiddenState cellState.

End Defs.
End FastRNN.

(** ** The family of cells *)

Section Family.
Context {SC : Scalar}.

Inductive cell : Type :=
| CFastGRNN (c : FastGRNNCell.t)
| CFastRNN (c : FastRNNCell.t)
| CLSTMLR (c : LSTMLRCell.t)
| CGRULR (c : GRULRCell.t)
| CUGRNNLR (c : UGRNNLRCell.t).

#[export] Instance cell_RNNCell : RNNCell cell := {|
  cellType := fun c =>
    match c with
    | CFastGRNN c => cellType c
    | CFastRNN c => cellType c
    | CLSTMLR c => cellType c
    | CGRULR c => cellType c
    | CUGRNNLR c => cellType c
    end;
  output_size := fun c =>
    match c with
    | CFastGRNN c => output_size c
    | CFastRNN c => output_size c
    | CLSTMLR c => output_size c
    | CGRULR c => output_size c
    | CUGRNNLR c => output_size c
    end;
  input_size := fun c =>
    match c with
    | CFastGRNN c => input_size c
    | CFastRNN c => input_size c
    | CLSTMLR c => input_size c
    | CGRULR c => input_size c
    | CUGRNNLR c => input_size c
    end;
  call := fun c =>
    match c with
    | CFastGRNN c => call c
    | CFastRNN c => call c
    | CLSTMLR c => call c
    | CGRULR c => call c
    | CUGRNNLR c => call c
    end
|}.

(** The cell with every low-rank factorization replaced by the product of
    its factors. *)
Definition full_rank (c : cell) : cell :=
  match c with
  | CFastGRNN c => CFastGRNN (FastGRNNCell.full_rank c)
  | CFastRNN c => CFastRNN (FastRNNCell.full_rank c)
  | CLSTMLR c => CLSTMLR (LSTMLRCell.full_rank c)
  | CGRULR c => CGRULR (GRULRCell.full_rank c)
  | CUGRNNLR c => CUGRNNLR (UGRNNLRCell.full_rank c)
  end.

(** The factors of every low-rank weight compose. *)
Definition composable (c : cell) : Prop :=
  match c with
  | CFastGRNN c => FastGRNNCell.composable c
  | CFastRNN c => FastRNNCell.composable c
  | CLSTMLR c => LSTMLRCell.composable c
  | CGRULR c => GRULRCell.composable c
  | CUGRNNLR c => UGRNNLRCell.composable c
  end.

(** The parameters have the shapes __init__ gives them. *)
Definition well_shaped (c : cell) : Prop :=
  match c with
  | CFastGRNN c => FastGRNNCell.well_shaped c
  | CFastRNN c => FastRNNCell.well_shaped c
  | CLSTMLR c => LSTMLRCell.well_shaped c
  | CGRULR c => GRULRCell.well_shaped c
  | CUGRNNLR c => UGRNNLRCell.well_shaped c
  end.

(** No weight of the full-rank cell is factored. *)
Definition is_full_rank (c : cell) : bool :=
  match c with
  | CFastGRNN c => rank_is_None (FastGRNNCell.W c) && rank_is_None (FastGRNNCell.U c)
  | CFastRNN c => rank_is_None (FastRNNCell.W c) && rank_is_None (FastRNNCell.U c)
  | CLSTMLR c =>
      match LSTMLRCell.W c, LSTMLRCell.U c with None, None => true | _, _ => false end
  | CGRULR c =>
      match GRULRCell.W c, GRULRCell.U c with None, None => true | _, _ => false end
  | CUGRNNLR c =>
      match UGRNNLRCell.W c, UGRNNLRCell.U c with None, None => true | _, _ => false end
  end.

End Family.

(** ** The update equations, as the specification writes them *)

Section Equations.
Context {SC : Scalar}.

(** [W.x + U.h] for row [b] of the batch, at hidden unit [j]; FastGRNN
    stores [W] as [out, in]. *)
Definition affine (W U x h : Tensor) (b j : nat) : num :=
  radd (rsum (cols W) (fun k => rmul (get W j k) (get x b k)))
       (rsum (cols U) (fun k => rmul (get U j k) (get h b k))).

Definition FastGRNN_update (self : FastGRNNCell.t) (gateNL updateNL : num -> num)
  (x h : Tensor) : Tensor :=
  tabulate (rows x) (FastGRNNCell.hidden_size self) (fun b j =>
    let pre := affine (FastGRNNCell.dense (FastGRNNCell.W self))
                      (FastGRNNCell.dense (FastGRNNCell.U self)) x h b j in
    let z := gateNL (radd pre (get (FastGRNNCell.bias_gate self) 0 j)) in
    let c := updateNL (radd pre (get (FastGRNNCell.bias_update self) 0 j)) in
    radd (rmul z (get h b j))
         (rmul (radd (rmul (sigmoid (get (FastGRNNCell.zeta self) 0 0)) (rsub r1 z))
                     (sigmoid (get (FastGRNNCell.nu self) 0 0)))
               c)).

(** [v . M] for row [b] of the batch, at hidden unit [j]; the other cells
    store a weight as [in, out]. *)
Definition lin (M v : Tensor) (b j : nat) : num :=
  rsum (rows M) (fun k => rmul (get v b k) (get M k j)).

(** [v] projected by a weight of the shared-factor cells: by [Wi], or in
    the low-rank case first by [W] and then by [Wi]. *)
Definition lin_shared (W : option Tensor) (Wi v : Tensor) (b j : nat) : num :=
  match W with
  | None => lin Wi v b j
  | Some W => lin Wi (tabulate (rows v) (cols W) (lin W v)) b j
  end.

Section GRUSpec.
Variable self : GRULRCell.t.
Variables gateNL updateNL : num -> num.
Variables x h : Tensor.

(** r = gateNL(W1.x + U1.h + b_r) *)
Definition GRULR_r (b j : nat) : num :=
  gateNL (radd (radd (lin_shared (GRULRCell.W self) (GRULRCell.W1 self) x b j)
                     (lin_shared (GRULRCell.U self) (GRULRCell.U1 self) h b j))
               (get (GRULRCell.bias_r self) 0 j)).

(** z = gateNL(W2.x + U2.h + b_g) *)
Definition GRULR_z (b j : nat) : num :=
  gateNL (radd (radd (lin_shared (GRULRCell.W self) (GRULRCell.W2 self) x b j)
                     (lin_shared (GRULRCell.U self) (GRULRCell.U2 self) h b j))
               (get (GRULRCell.bias_gate self) 0 j)).

(** r * h: the reset gate on the hidden state itself *)
Definition GRULR_rh : Tensor :=
  tabulate (rows x) (GRULRCell.hidden_size self)
    (fun b k => rmul (GRULR_r b k) (get h b k)).

(** c = updateNL(W3.x + U3.(r * h) + b_c) *)
Definition GRULR_c (b j : nat) : num :=
  updateNL
    (radd (radd (lin_shared (GRULRCell.W self) (GRULRCell.W3 self) x b j)
                (lin_shared (GRULRCell.U self) (GRULRCell.U3 self) GRULR_rh b j))
          (get (GRULRCell.bias_update self) 0 j)).

(** h' = z * h + (1 - z) * c *)
Definition GRULR_update : Tensor :=
  tabulate (rows x) (GRULRCell.hidden_size self) (fun b j =>
    radd (rmul (GRULR_z b j) (get h b j))
         (rmul (rsub r1 (GRULR_z b j)) (GRULR_c b j))).

(** For contrast, the candidate with the reset gate on the projected
    state, [updateNL(W3.x + r * (U3.h) + b_c)], and the state it would
    give. *)
Definition GRULR_c_post (b j : nat) : num :=
  updateNL
    (radd (radd (lin_shared (GRULRCell.W self) (GRULRCell.W3 self) x b j)
                (rmul (GRULR_r b j)
                      (lin_shared (GRULRCell.U self) (GRULRCell.U3 self) h b j)))
          (get (GRULRCell.bias_update self) 0 j)).

Definition GRULR_update_post : Tensor :=
  tabulate (rows x) (GRULRCell.hidden_size self) (fun b j =>
    radd (rmul (GRULR_z b j) (get h b j))
         (rmul (rsub r1 (GRULR_z b j)) (GRULR_c_post b j))).

End GRUSpec.

End Equations.

(** ** States of an unrolling *)

Section Unrolling.
Context {SC : Scalar}.

(** The state that enters step [t] of an unrolling from [h0] with outputs
    [buf]. *)
Definition entering (h0 : Tensor) (buf : Tensor3) (t : nat) : Tensor :=
  match t with
  | 0 => h0
  | S t' => select1 buf t'
  end.





End Unrolling.

(** ** Concrete cells and tensors over the integers *)

Module Samples.

Definition T2 (r c : nat) (d : list (list Z)) : @Tensor ZScalar :=
  mkTensor r c d.

(** A FastGRNN cell with 2 inputs and 2 hidden units, [W] of rank 1. *)
Definition fastgrnn : FastGRNNCell.t :=
  FastGRNNCell.mk 2 2 (PStr "sigmoid") (PStr "tanh")
    (LowRank (T2 1 2 [[1; 2]]) (T2 2 1 [[3]; [-1]]))%Z
    (Full (T2 2 2 [[1; 0]; [2; 1]]))%Z
    (PFloat 1%Z) (PFloat 1%Z)
    (T2 1 2 [[1; 1]])%Z (T2 1 2 [[1; 1]])%Z
    (T2 1 1 [[1]])%Z (T2 1 1 [[-4]])%Z.

(** A GRU-LR cell with 2 inputs and 2 hidden units, [U] of rank 1. *)
Definition grulr : GRULRCell.t :=
  GRULRCell.mk 2 2 (PStr "quantSigm") (PStr "quantTanh")
    None (T2 2 2 [[1; 0]; [0; 1]])%Z (T2 2 2 [[1; 1]; [0; 1]])%Z
         (T2 2 2 [[2; 0]; [1; -1]])%Z
    (Some (T2 2 1 [[1]; [2]]))%Z
         (T2 1 2 [[1; -1]])%Z (T2 1 2 [[0; 1]])%Z (T2 1 2 [[3; 1]])%Z
    (T2 1 2 [[1; 1]])%Z (T2 1 2 [[1; 1]])%Z (T2 1 2 [[1; 1]])%Z.

(** A full-rank GRU-LR cell whose [U3] swaps the two hidden units, with
    one input row and one state row for it. *)
Definition grulr_swap : GRULRCell.t :=
  GRULRCell.mk 2 2 (PStr "quantSigm") (PStr "quantTanh")
    None (T2 2 2 [[0; 0]; [0; 0]])%Z (T2 2 2 [[-4; -4]; [-4; -4]])%Z
         (T2 2 2 [[0; 0]; [0; 0]])%Z
    None (T2 2 2 [[2; 0]; [0; 0]])%Z (T2 2 2 [[0; 0]; [0; 0]])%Z
         (T2 2 2 [[0; 1]; [1; 0]])%Z
    (T2 1 2 [[-1; -1]])%Z (T2 1 2 [[-1; -1]])%Z (T2 1 2 [[0; 0]])%Z.
Definition x12 : Tensor := (T2 1 2 [[1; 1]])%Z.
Definition h12_unit : Tensor := (T2 1 2 [[1; 0]])%Z.

(** A batch of 3 inputs and 3 states. *)
Definition x32 : Tensor := (T2 3 2 [[1; 0]; [0; 1]; [2; -1]])%Z.
Definition h32 : Tensor := (T2 3 2 [[0; 0]; [1; 1]; [-1; 2]])%Z.

(** A FastGRNN cell with 3 inputs and 4 hidden units, and the zero
    sequence of batch 2 and 5 steps. *)
Definition fastgrnn34 : FastGRNNCell.t :=
  FastGRNNCell.mk 3 4 (PStr "sigmoid") (PStr "tanh")
    (Full (tabulate 4 3 (fun i j => Z.of_nat i - Z.of_nat j)%Z))
    (Full (tabulate 4 4 (fun i j => if Nat.eqb i j then 1%Z else 0%Z)))
    (PFloat 1%Z) (PFloat 1%Z)
    (ones 1 4) (ones 1 4)
    (T2 1 1 [[1]])%Z (T2 1 1 [[-4]])%Z.
Definition input253 : @Tensor3 ZScalar := zeros3 2 5 3.

End Samples.

(** ** Cells and states over any scalars, for what the unroller accepts *)

Module ShapeSamples.
Section Defs.
Context {SC : Scalar}.




End Defs.
End ShapeSamples.

(** * The rest of the module

    The constructors of the other cells, the wrappers [LSTM], [GRU],
    [UGRNN] and [FastGRNN], the snapshots and the sparsification of
    FastGRNN, and the sparsification of FastRNN. *)

(** ** LSTMLRCell.__init__ *)

Module LSTMLRCellInit.
Section Defs.
Context {SC : Scalar}.

(** def __init__(self, input_size, hidden_size, gate_nonlinearity="sigmoid",
    update_nonlinearity="tanh", wRank=None, uRank=None, name="LSTMLR") *)
Definition params : list param :=
  [("input_size", None); ("hidden_size", None);
   ("gate_nonlinearity", Some (PStr "sigmoid"));
   ("update_nonlinearity", Some (PStr "tanh"));
   ("wRank", Some PNone); ("uRank", Some PNone);
   ("name", Some (PStr "LSTMLR"))]%string.

Definition __init__ (noise : nat -> nat -> nat -> num)
  (args : list pyval) (kwargs : list (string * pyval))
  : result LSTMLRCell.t :=
  e <- bind_call params args kwargs ;;
  let input_size := getv e "input_size" in
  let hidden_size := getv e "hidden_size" in
  let wRank := getv e "wRank" in
  let uRank := getv e "uRank" in
  Ws <- (if is_None wRank then
           W1 <- FastRNNCellInit.init_weight noise 0 input_size hidden_size ;;
           W2 <- FastRNNCellInit.init_weight noise 1 input_size hidden_size ;;
           W3 <- FastRNNCellInit.init_weight noise 2 input_size hidden_size ;;
           W4 <- FastRNNCellInit.init_weight noise 3 input_size hidden_size ;;
           Ok (None, W1, W2, W3, W4)
         else
           W <- FastRNNCellInit.init_weight noise 0 input_size wRank ;;
           W1 <- FastRNNCellInit.init_weight noise 1 wRank hidden_size ;;
           W2 <- FastRNNCellInit.init_weight noise 2 wRank hidden_size ;;
           W3 <- FastRNNCellInit.init_weight noise 3 wRank hidden_size ;;
           W4 <- FastRNNCellInit.init_weight noise 4 wRank hidden_size ;;
           Ok (Some W, W1, W2, W3, W4)) ;;
  Us <- (if is_None uRank then
           U1 <- FastRNNCellInit.init_weight noise 5 hidden_size hidden_size ;;
           U2 <- FastRNNCellInit.init_weight noise 6 hidden_size hidden_size ;;
           U3 <- FastRNNCellInit.init_weight noise 7 hidden_size hidden_size ;;
           U4 <- FastRNNCellInit.init_weight noise 8 hidden_size hidden_size ;;
           Ok (None, U1, U2, U3, U4)
         else
           U <- FastRNNCellInit.init_weight noise 5 hidden_size uRank ;;
           U1 <- FastRNNCellInit.init_weight noise 6 uRank hidden_size ;;
           U2 <- FastRNNCellInit.init_weight noise 7 uRank hidden_size ;;
           U3 <- FastRNNCellInit.init_weight noise 8 uRank hidden_size ;;
           U4 <- FastRNNCellInit.init_weight noise 9 uRank hidden_size ;;
           Ok (Some U, U1, U2, U3, U4)) ;;
  let '(W, W1, W2, W3, W4) := Ws in
  let '(U, U1, U2, U3, U4) := Us in
  bias_f <- torch_ones (PInt 1) hidden_size ;;
  bias_i <- torch_ones (PInt 1) hidden_size ;;
  bias_c <- torch_ones (PInt 1) hidden_size ;;
  bias_o <- torch_ones (PInt 1) hidden_size ;;
  isz <- as_size input_size ;;
  hsz <- as_size hidden_size ;;
  Ok (LSTMLRCell.mk isz hsz
        (getv e "gate_nonlinearity") (getv e "update_nonlinearity")
        W W1 W2 W3 W4 U U1 U2 U3 U4 bias_f bias_i bias_c bias_o).

End Defs.
End LSTMLRCellInit.

(** ** GRULRCell.__init__ *)

Module GRULRCellInit.
Section Defs.
Context {SC : Scalar}.

(** def __init__(self, input_size, hidden_size, gate_nonlinearity="sigmoid",
    update_nonlinearity="tanh", wRank=None, uRank=None, name="GRULR") *)
Definition params : list param :=
  [("input_size", None); ("hidden_size", None);
   ("gate_nonlinearity", Some (PStr "sigmoid"));
   ("update_nonlinearity", Some (PStr "tanh"));
   ("wRank", Some PNone); ("uRank", Some PNone);
   ("name", Some (PStr "GRULR"))]%string.

Definition __init__ (noise : nat -> nat -> nat -> num)
  (args : list pyval) (kwargs : list (string * pyval))
  : result GRULRCell.t :=
  e <- bind_call params args kwargs ;;
  let input_size := getv e "input_size" in
  let hidden_size := getv e "hidden_size" in
  let wRank := getv e "wRank" in
  let uRank := getv e "uRank" in
  Ws <- (if is_None wRank then
           W1 <- FastRNNCellInit.init_weight noise 0 input_size hidden_size ;;
           W2 <- FastRNNCellInit.init_weight noise 1 input_size hidden_size ;;
           W3 <- FastRNNCellInit.init_weight noise 2 input_size hidden_size ;;
           Ok (None, W1, W2, W3)
         else
           W <- FastRNNCellInit.init_weight noise 0 input_size wRank ;;
           W1 <- FastRNNCellInit.init_weight noise 1 wRank hidden_size ;;
           W2 <- FastRNNCellInit.init_weight noise 2 wRank hidden_size ;;
           W3 <- FastRNNCellInit.init_weight noise 3 wRank hidden_size ;;
           Ok (Some W, W1, W2, W3)) ;;
  Us <- (if is_None uRank then
           U1 <- FastRNNCellInit.init_weight noise 4 hidden_size hidden_size ;;
           U2 <- FastRNNCellInit.init_weight noise 5 hidden_size hidden_size ;;
           U3 <- FastRNNCellInit.init_weight noise 6 hidden_size hidden_size ;;
           Ok (None, U1, U2, U3)
         else
           U <- FastRNNCellInit.init_weight noise 4 hidden_size uRank ;;
           U1 <- FastRNNCellInit.init_weight noise 5 uRank hidden_size ;;
           U2 <- FastRNNCellInit.init_weight noise 6 uRank hidden_size ;;
           U3 <- FastRNNCellInit.init_weight noise 7 uRank hidden_size ;;
           Ok (Some U, U1, U2, U3)) ;;
  let '(W, W1, W2, W3) := Ws in
  let '(U, U1, U2, U3) := Us in
  bias_r <- torch_ones (PInt 1) hidden_size ;;
  bias_gate <- torch_ones (PInt 1) hidden_size ;;
  bias_update <- torch_ones (PInt 1) hidden_size ;;
  isz <- as_size input_size ;;
  hsz <- as_size hidden_size ;;
  Ok (GRULRCell.mk isz hsz
        (getv e "gate_nonlinearity") (getv e "update_nonlinearity")
        W W1 W2 W3 U U1 U2 U3 bias_r bias_gate bias_update).

End Defs.
End GRULRCellInit.

(** ** UGRNNLRCell.__init__ *)

Module UGRNNLRCellInit.
Section Defs.
Context {SC : Scalar}.

(** def __init__(self, input_size, hidden_size, gate_nonlinearity="sigmoid",
    update_nonlinearity="tanh", wRank=None, uRank=None, name="UGRNNLR") *)
Definition params : list param :=
  [("input_size", None); ("hidden_size", None);
   ("gate_nonlinearity", Some (PStr "sigmoid"));
   ("update_nonlinearity", Some (PStr "tanh"));
   ("wRank", Some PNone); ("uRank", Some PNone);
   ("name", Some (PStr "UGRNNLR"))]%string.

Definition __init__ (noise : nat -> nat -> nat -> num)
  (args : list pyval) (kwargs : list (string * pyval))
  : result UGRNNLRCell.t :=
  e <- bind_call params args kwargs ;;
  let input_size := getv e "input_size" in
  let hidden_size := getv e "hidden_size" in
  let wRank := getv e "wRank" in
  let uRank := getv e "uRank" in
  Ws <- (if is_None wRank then
           W1 <- FastRNNCellInit.init_weight noise 0 input_size hidden_size ;;
           W2 <- FastRNNCellInit.init_weight noise 1 input_size hidden_size ;;
           Ok (None, W1, W2)
         else
           W <- FastRNNCellInit.init_weight noise 0 input_size wRank ;;
           W1 <- FastRNNCellInit.init_weight noise 1 wRank hidden_size ;;
           W2 <- FastRNNCellInit.init_weight noise 2 wRank hidden_size ;;
           Ok (Some W, W1, W2)) ;;
  Us <- (if is_None uRank then
           U1 <- FastRNNCellInit.init_weight noise 3 hidden_size hidden_size ;;
           U2 <- FastRNNCellInit.init_weight noise 4 hidden_size hidden_size ;;
           Ok (None, U1, U2)
         else
           U <- FastRNNCellInit.init_weight noise 3 hidden_size uRank ;;
           U1 <- FastRNNCellInit.init_weight noise 4 uRank hidden_size ;;
           U2 <- FastRNNCellInit.init_weight noise 5 uRank hidden_size ;;
           Ok (Some U, U1, U2)) ;;
  let '(W, W1, W2) := Ws in
  let '(U, U1, U2) := Us in
  bias_gate <- torch_ones (PInt 1) hidden_size ;;
  bias_update <- torch_ones (PInt 1) hidden_size ;;
  isz <- as_size input_size ;;
  hsz <- as_size hidden_size ;;
  Ok (UGRNNLRCell.mk isz hsz
        (getv e "gate_nonlinearity") (getv e "update_nonlinearity")
        W W1 W2 U U1 U2 bias_gate bias_update).

End Defs.
End UGRNNLRCellInit.

(** ** FastGRNNCell: construction, snapshots and sparsification *)

Section Comparison.
Context {SC : Scalar}.

(** [a < b], read off the maximum: [max(a, b)] is not [a]. *)
Definition rlt (a b : num) : bool := negb (is_zero (rsub (rmax a b) a)).

(** What [if v < x:] tests, for a float literal [x]: numbers compare; a
    tensor of one entry compares by that entry, any other tensor has no
    truth value; nothing else compares with a float. *)
Definition lt_float (v : pyval) (x : num) : result bool :=
  match v with
  | PFloat a => Ok (rlt a x)
  | PInt n => Ok (rlt (of_Z n) x)
  | PBool b => Ok (rlt (if b then r1 else r0) x)
  | PTensor t =>
      if numel t =? 1 then Ok (rlt (get t 0 0) x) else Raise RuntimeError
  | _ => Raise TypeError
  end.

(** [self.name], for an attribute that exists only once it was assigned. *)
Definition attr {A} (a : option A) : result A :=
  match a with
  | Some x => Ok x
  | None => Raise AttributeError
  end.

End Comparison.

Module FastGRNNCellSnap.
Section Defs.
Context {SC : Scalar}.

(** A FastGRNNCell object: the parameters, and the attributes [W_old],
    [W1_old], ... that exist once copy_previous_state has assigned them. *)
Record t : Type := mk {
  cell : FastGRNNCell.t;
  W_old : option Tensor;
  W1_old : option Tensor;
  W2_old : option Tensor;
  U_old : option Tensor;
  U1_old : option Tensor;
  U2_old : option Tensor
}.

(** The snapshots copy_previous_state leaves for one weight, given the
    ones that exist: a copy of the weight where the sparsity is below 1.0,
    the old attributes otherwise. *)
Definition snapshot (w : weight) (sparsity : pyval)
  (old old1 old2 : option Tensor)
  : result (option Tensor * option Tensor * option Tensor) :=
  match w with
  | Full W =>
      b <- lt_float sparsity r1 ;;
      if b then Ok (Some W, old1, old2) else Ok (old, old1, old2)
  | LowRank W1 W2 =>
      b <- lt_float sparsity r1 ;;
      if b then Ok (old, Some W1, Some W2) else Ok (old, old1, old2)
  end.

Definition copy_previous_state (self : t) : result t :=
  let c := cell self in
  w <- snapshot (FastGRNNCell.W c) (FastGRNNCell.wSparsity c)
         (W_old self) (W1_old self) (W2_old self) ;;
  u <- snapshot (FastGRNNCell.U c) (FastGRNNCell.uSparsity c)
         (U_old self) (U1_old self) (U2_old self) ;;
  let '(W_old, W1_old, W2_old) := w in
  let '(U_old, U1_old, U2_old) := u in
  Ok (mk c W_old W1_old W2_old U_old U1_old U2_old).

(** The cell with its weights replaced. *)
Definition with_weights (c : FastGRNNCell.t) (W U : weight) : FastGRNNCell.t :=
  FastGRNNCell.mk (FastGRNNCell.input_size c) (FastGRNNCell.hidden_size c)
    (FastGRNNCell.gate_nonlinearity c) (FastGRNNCell.update_nonlinearity c)
    W U (FastGRNNCell.wSparsity c) (FastGRNNCell.uSparsity c)
    (FastGRNNCell.bias_gate c) (FastGRNNCell.bias_update c)
    (FastGRNNCell.zeta c) (FastGRNNCell.nu c).

Section Utils.
(** [utils.hardThreshold] and [utils.supportBasedThreshold] are not among
    the sources: they are parameters here. *)
Variable hardThreshold : Tensor -> pyval -> result Tensor.
Variable supportBasedThreshold : Tensor -> Tensor -> result Tensor.

Definition threshold_weight (w : weight) (sparsity : pyval) : result weight :=
  match w with
  | Full W => W <- hardThreshold W sparsity ;; Ok (Full W)
  | LowRank W1 W2 =>
      W1 <- hardThreshold W1 sparsity ;;
      W2 <- hardThreshold W2 sparsity ;;
      Ok (LowRank W1 W2)
  end.

Definition sparsify (self : t) : result t :=
  let c := cell self in
  W <- threshold_weight (FastGRNNCell.W c) (FastGRNNCell.wSparsity c) ;;
  U <- threshold_weight (FastGRNNCell.U c) (FastGRNNCell.uSparsity c) ;;
  copy_previous_state
    (mk (with_weights c W U) (W_old self) (W1_old self) (W2_old self)
        (U_old self) (U1_old self) (U2_old self)).

Definition support_weight (w : weight) (old old1 old2 : option Tensor)
  : result weight :=
  match w with
  | Full W =>
      o <- attr old ;;
      W <- supportBasedThreshold W o ;;
      Ok (Full W)
  | LowRank W1 W2 =>
      o1 <- attr old1 ;;
      W1 <- supportBasedThreshold W1 o1 ;;
      o2 <- attr old2 ;;
      W2 <- supportBasedThreshold W2 o2 ;;
      Ok (LowRank W1 W2)
  end.

Definition sparsifyWithSupport (self : t) : result t :=
  let c := cell self in
  W <- support_weight (FastGRNNCell.W c)
         (W_old self) (W1_old self) (W2_old self) ;;
  U <- support_weight (FastGRNNCell.U c)
         (U_old self) (U1_old self) (U2_old self) ;;
  Ok (mk (with_weights c W U) (W_old self) (W1_old self) (W2_old self)
         (U_old self) (U1_old self) (U2_old self)).

End Utils.

(** def __init__(self, input_size, hidden_size, gate_nonlinearity="sigmoid",
    update_nonlinearity="tanh", wRank=None, uRank=None, wSparsity=1.0,
    uSparsity=1.0, zetaInit=1.0, nuInit=-4.0, name="FastGRNN") *)
Definition params : list param :=
  [("input_size", None); ("hidden_size", None);
   ("gate_nonlinearity", Some (PStr "sigmoid"));
   ("update_nonlinearity", Some (PStr "tanh"));
   ("wRank", Some PNone); ("uRank", Some PNone);
   ("wSparsity", Some (PFloat r1)); ("uSparsity", Some (PFloat r1));
   ("zetaInit", Some (PFloat r1)); ("nuInit", Some (PFloat (ropp r4)));
   ("name", Some (PStr "FastGRNN"))]%string.

Definition __init__ (noise : nat -> nat -> nat -> num)
  (args : list pyval) (kwargs : list (string * pyval)) : result t :=
  e <- bind_call params args kwargs ;;
  let input_size := getv e "input_size" in
  let hidden_size := getv e "hidden_size" in
  let wRank := getv e "wRank" in
  let uRank := getv e "uRank" in
  W <- (if is_None wRank then
          W <- FastRNNCellInit.init_weight noise 0 hidden_size input_size ;;
          Ok (Full W)
        else
          W1 <- FastRNNCellInit.init_weight noise 0 wRank input_size ;;
          W2 <- FastRNNCellInit.init_weight noise 1 hidden_size wRank ;;
          Ok (LowRank W1 W2)) ;;
  U <- (if is_None uRank then
          U <- FastRNNCellInit.init_weight noise 2 hidden_size hidden_size ;;
          Ok (Full U)
        else
          U1 <- FastRNNCellInit.init_weight noise 2 uRank hidden_size ;;
          U2 <- FastRNNCellInit.init_weight noise 3 hidden_size uRank ;;
          Ok (LowRank U1 U2)) ;;
  w <- snapshot W (getv e "wSparsity") None None None ;;
  u <- snapshot U (getv e "uSparsity") None None None ;;
  let '(W_old, W1_old, W2_old) := w in
  let '(U_old, U1_old, U2_old) := u in
  bias_gate <- torch_ones (PInt 1) hidden_size ;;
  bias_update <- torch_ones (PInt 1) hidden_size ;;
  z1 <- torch_ones (PInt 1) (PInt 1) ;;
  zeta <- scale (getv e "zetaInit") z1 ;;
  n1 <- torch_ones (PInt 1) (PInt 1) ;;
  nu <- scale (getv e "nuInit") n1 ;;
  isz <- as_size input_size ;;
  hsz <- as_size hidden_size ;;
  Ok (mk (FastGRNNCell.mk isz hsz
            (getv e "gate_nonlinearity") (getv e "update_nonlinearity")
            W U (getv e "wSparsity") (getv e "uSparsity")
            bias_gate bias_update zeta nu)
         W_old W1_old W2_old U_old U1_old U2_old).

End Defs.
End FastGRNNCellSnap.

(** ** The wrappers LSTM, GRU, UGRNN and FastGRNN *)

Module LSTM.
Section Defs.
Context {SC : Scalar}.

Record t : Type := mk {
  cell : LSTMLRCell.t;
  unrollRNN : BaseRNN.t LSTMLRCell.t
}.

(** def __init__(self, input_size, hidden_size, gate_nonlinearity="sigmoid",
    update_nonlinearity="tanh", wRank=None, uRank=None, batch_first=True) *)
Definition params : list param :=
  [("input_size", None); ("hidden_size", None);
   ("gate_nonlinearity", Some (PStr "sigmoid"));
   ("update_nonlinearity", Some (PStr "tanh"));
   ("wRank", Some PNone); ("uRank", Some PNone);
   ("batch_first", Some (PBool true))]%string.

Definition __init__ (noise : nat -> nat -> nat -> num)
  (args : list pyval) (kwargs : list (string * pyval)) : result t :=
  e <- bind_call params args kwargs ;;
  cell <- LSTMLRCellInit.__init__ noise
            [getv e "input_size"; getv e "hidden_size"]
            [("gate_nonlinearity", getv e "gate_nonlinearity");
             ("update_nonlinearity", getv e "update_nonlinearity");
             ("wRank", getv e "wRank"); ("uRank", getv e "uRank")]%string ;;
  Ok (mk cell (BaseRNN.mk cell (FastRNN.is_True (getv e "batch_first")))).

Definition forward (self : t) (input : Tensor3)
  (hiddenState cellState : option Tensor) : result output :=
  BaseRNN.forward (unrollRNN self) input hiddenState cellState.

End Defs.
End LSTM.

Module GRU.
Section Defs.
Context {SC : Scalar}.

Record t : Type := mk {
  cell : GRULRCell.t;
  unrollRNN : BaseRNN.t GRULRCell.t
}.

(** def __init__(self, input_size, hidden_size, gate_nonlinearity="sigmoid",
    update_nonlinearity="tanh", wRank=None, uRank=None, batch_first=True) *)
Definition params : list param := LSTM.params.

Definition __init__ (noise : nat -> nat -> nat -> num)
  (args : list pyval) (kwargs : list (string * pyval)) : result t :=
  e <- bind_call params args kwargs ;;
  cell <- GRULRCellInit.__init__ noise
            [getv e "input_size"; getv e "hidden_size"]
            [("gate_nonlinearity", getv e "gate_nonlinearity");
             ("update_nonlinearity", getv e "update_nonlinearity");
             ("wRank", getv e "wRank"); ("uRank", getv e "uRank")]%string ;;
  Ok (mk cell (BaseRNN.mk cell (FastRNN.is_True (getv e "batch_first")))).

Definition forward (self : t) (input : Tensor3)
  (hiddenState cellState : option Tensor) : result output :=
  BaseRNN.forward (unrollRNN self) input hiddenState cellState.

End Defs.
End GRU.

Module UGRNN.
Section Defs.
Context {SC : Scalar}.

Record t : Type := mk {
  cell : UGRNNLRCell.t;
  unrollRNN : BaseRNN.t UGRNNLRCell.t
}.

(** def __init__(self, input_size, hidden_size, gate_nonlinearity="sigmoid",
    update_nonlinearity="tanh", wRank=None, uRank=None, batch_first=True) *)
Definition params : list param := LSTM.params.

Definition __init__ (noise : nat -> nat -> nat -> num)
  (args : list pyval) (kwargs : list (string * pyval)) : result t :=
  e <- bind_call params args kwargs ;;
  cell <- UGRNNLRCellInit.__init__ noise
            [getv e "input_size"; getv e "hidden_size"]
            [("gate_nonlinearity", getv e "gate_nonlinearity");
             ("update_nonlinearity", getv e "update_nonlinearity");
             ("wRank", getv e "wRank"); ("uRank", getv e "uRank")]%string ;;
  Ok (mk cell (BaseRNN.mk cell (FastRNN.is_True (getv e "batch_first")))).

Definition forward (self : t) (input : Tensor3)
  (hiddenState cellState : option Tensor) : result output :=
  BaseRNN.forward (unrollRNN self) input hiddenState cellState.

End Defs.
End UGRNN.

Module FastGRNN.
Section Defs.
Context {SC : Scalar}.

Record t : Type := mk {
  cell : FastGRNNCellSnap.t;
  unrollRNN : BaseRNN.t FastGRNNCell.t
}.

(** def __init__(self, input_size, hidden_size, gate_nonlinearity="sigmoid",
    update_nonlinearity="tanh", wRank=None, uRank=None, wSparsity=1.0,
    uSparsity=1.0, zetaInit=1.0, nuInit=-4.0, batch_first=True) *)
Definition params : list param :=
  [("input_size", None); ("hidden_size", None);
   ("gate_nonlinearity", Some (PStr "sigmoid"));
   ("update_nonlinearity", Some (PStr "tanh"));
   ("wRank", Some PNone); ("uRank", Some PNone);
   ("wSparsity", Some (PFloat r1)); ("uSparsity", Some (PFloat r1));
   ("zetaInit", Some (PFloat r1)); ("nuInit", Some (PFloat (ropp r4)));
   ("batch_first", Some (PBool true))]%string.

Definition __init__ (noise : nat -> nat -> nat -> num)
  (args : list pyval) (kwargs : list (string * pyval)) : result t :=
  e <- bind_call params args kwargs ;;
  cell <- FastGRNNCellSnap.__init__ noise
            [getv e "input_size"; getv e "hidden_size"]
            [("gate_nonlinearity", getv e "gate_nonlinearity");
             ("update_nonlinearity", getv e "update_nonlinearity");
             ("wRank", getv e "wRank"); ("uRank", getv e "uRank");
             ("wSparsity", getv e "wSparsity");
             ("uSparsity", getv e "uSparsity");
             ("zetaInit", getv e "zetaInit");
             ("nuInit", getv e "nuInit")]%string ;;
  Ok (mk cell (BaseRNN.mk (FastGRNNCellSnap.cell cell)
                 (FastRNN.is_True (getv e "batch_first")))).

Definition forward (self : t) (input : Tensor3)
  (hiddenState cellState : option Tensor) : result output :=
  BaseRNN.forward (unrollRNN self) input hiddenState cellState.

End Defs.
End FastGRNN.

(** ** FastRNNCell.sparsify *)

Module FastRNNCellMethods.
Section Defs.
Context {SC : Scalar}.

(** The cell with its weights replaced. *)
Definition with_weights (c : FastRNNCell.t) (W U : weight) : FastRNNCell.t :=
  FastRNNCell.mk (FastRNNCell.input_size c) (FastRNNCell.hidden_size c)
    (FastRNNCell.update_nonlinearity c) W U
    (FastRNNCell.wSparsity c) (FastRNNCell.uSparsity c)
    (FastRNNCell.bias_update c) (FastRNNCell.alpha c) (FastRNNCell.beta c).

(** [utils.hardThreshold] is a parameter, as for FastGRNN. *)
Definition sparsify (hardThreshold : Tensor -> pyval -> result Tensor)
  (self : FastRNNCell.t) : result FastRNNCell.t :=
  W <- FastGRNNCellSnap.threshold_weight hardThreshold
         (FastRNNCell.W self) (FastRNNCell.wSparsity self) ;;
  U <- FastGRNNCellSnap.threshold_weight hardThreshold
         (FastRNNCell.U self) (FastRNNCell.uSparsity self) ;;
  Ok (with_weights self W U).

End Defs.
End FastRNNCellMethods.

(** ** More update equations *)

Section MoreEquations.
Context {SC : Scalar}.

(** [v] projected by a weight of FastRNN, stored as [in, out]: by [W], or
    in the low-rank case first by [W1] and then by [W2]. *)
Definition lin_weight (w : weight) (v : Tensor) (b j : nat) : num :=
  match w with
  | Full W => lin W v b j
  | LowRank W1 W2 => lin W2 (tabulate (rows v) (cols W1) (lin W1 v)) b j
  end.

(** FastRNN: c = updateNL(W.x + U.h + b_c), h' = sigmoid(beta)*h +
    sigmoid(alpha)*c *)
Definition FastRNN_update (self : FastRNNCell.t) (updateNL : num -> num)
  (x h : Tensor) : Tensor :=
  tabulate (rows x) (FastRNNCell.hidden_size self) (fun b j =>
    let c := updateNL
               (radd (radd (lin_weight (FastRNNCell.W self) x b j)
                           (lin_weight (FastRNNCell.U self) h b j))
                     (get (FastRNNCell.bias_update self) 0 j)) in
    radd (rmul (sigmoid (get (FastRNNCell.beta self) 0 0)) (get h b j))
         (rmul (sigmoid (get (FastRNNCell.alpha self) 0 0)) c)).

(** UGRNN-LR: z = gateNL(W1.x + U1.h + b_g), c = updateNL(W2.x + U2.h + b_c),
    h' = z*h + (1-z)*c *)
Definition UGRNNLR_update (self : UGRNNLRCell.t) (gateNL updateNL : num -> num)
  (x h : Tensor) : Tensor :=
  tabulate (rows x) (UGRNNLRCell.hidden_size self) (fun b j =>
    let z := gateNL
               (radd (radd (lin_shared (UGRNNLRCell.W self) (UGRNNLRCell.W1 self) x b j)
                           (lin_shared (UGRNNLRCell.U self) (UGRNNLRCell.U1 self) h b j))
                     (get (UGRNNLRCell.bias_gate self) 0 j)) in
    let c := updateNL
               (radd (radd (lin_shared (UGRNNLRCell.W self) (UGRNNLRCell.W2 self) x b j)
                           (lin_shared (UGRNNLRCell.U self) (UGRNNLRCell.U2 self) h b j))
                     (get (UGRNNLRCell.bias_update self) 0 j)) in
    radd (rmul z (get h b j)) (rmul (rsub r1 z) c)).

Section LSTMSpec.
Variable self : LSTMLRCell.t.
Variables gateNL updateNL : num -> num.
Variables x h c : Tensor.

(** One gate or candidate: NL(Wk.x + Uk.h + b). *)
Definition LSTMLR_pre (Wk Uk bias : Tensor) (b j : nat) : num :=
  radd (radd (lin_shared (LSTMLRCell.W self) Wk x b j)
             (lin_shared (LSTMLRCell.U self) Uk h b j))
       (get bias 0 j).

(** The new cell state: C' = f*C + i*c~, with i from W1, U1 and bias_i, f
    from W2, U2 and bias_f, c~ from W3, U3 and bias_c. *)
Definition LSTMLR_new_c : Tensor :=
  tabulate (rows x) (LSTMLRCell.hidden_size self) (fun b j =>
    let i := gateNL (LSTMLR_pre (LSTMLRCell.W1 self) (LSTMLRCell.U1 self)
                       (LSTMLRCell.bias_i self) b j) in
    let f := gateNL (LSTMLR_pre (LSTMLRCell.W2 self) (LSTMLRCell.U2 self)
                       (LSTMLRCell.bias_f self) b j) in
    let c_ := updateNL (LSTMLR_pre (LSTMLRCell.W3 self) (LSTMLRCell.U3 self)
                          (LSTMLRCell.bias_c self) b j) in
    radd (rmul f (get c b j)) (rmul i c_)).

(** The new hidden state: h' = o * updateNL(C'), with o from W4, U4 and
    bias_o. *)
Definition LSTMLR_new_h : Tensor :=
  tabulate (rows x) (LSTMLRCell.hidden_size self) (fun b j =>
    let o := gateNL (LSTMLR_pre (LSTMLRCell.W4 self) (LSTMLRCell.U4 self)
                       (LSTMLRCell.bias_o self) b j) in
    rmul o (updateNL (get LSTMLR_new_c b j))).

End LSTMSpec.

(** Row [b] of a batch, as a batch of one: [t[b:b+1]]. *)
Definition row (t : Tensor) (b : nat) : Tensor :=
  tabulate 1 (cols t) (fun _ j => get t b j).

(** The first [n] time steps of a batch-first sequence, and the steps from
    [n] on: [t[:, :n, :]] and [t[:, n:, :]]. *)
Definition take_steps (n : nat) (t : Tensor3) : Tensor3 :=
  tabulate3 (dim0 t) (Nat.min n (dim1 t)) (dim2 t) (get3 t).

Definition drop_steps (n : nat) (t : Tensor3) : Tensor3 :=
  tabulate3 (dim0 t) (dim1 t - n) (dim2 t) (fun b s k => get3 t b (n + s) k).

End MoreEquations.

(** ** Cells as the unrolling theorems take them *)

Section StepSpecs.
Context {SC : Scalar} {C : Type} {cell_ops : RNNCell C}.

(** A single-state cell that returns a state of shape [B, H] for every
    input of shape [B, I] and state of shape [B, H]. *)
Definition steps_well (cell : C) (B I : nat) : Prop :=
  forall x h,
    shape x = (B, I) -> wf x -> shape h = (B, output_size cell) -> wf h ->
    exists h', call cell x (Hidden h) = Ok (Hidden h') /\
               shape h' = (B, output_size cell) /\ wf h'.

(** A dual-state cell that returns states of shape [B, H] for every input
    of shape [B, I] and states of shape [B, H]. *)
Definition steps_well2 (cell : C) (B I : nat) : Prop :=
  forall x h c,
    shape x = (B, I) -> wf x ->
    shape h = (B, output_size cell) -> wf h ->
    shape c = (B, output_size cell) -> wf c ->
    exists h' c',
      call cell x (HiddenCell h c) = Ok (HiddenCell h' c') /\
      shape h' = (B, output_size cell) /\ wf h' /\
      shape c' = (B, output_size cell) /\ wf c'.

End StepSpecs.

(** ** More sample values *)

Module MoreSamples.
Import Samples.

(** A FastRNN cell with 2 inputs and 2 hidden units, [W] of rank 1. *)
Definition fastrnn : FastRNNCell.t :=
  FastRNNCell.mk 2 2 (PStr "tanh")
    (LowRank (T2 2 1 [[1]; [2]]) (T2 1 2 [[3; -1]]))%Z
    (Full (T2 2 2 [[1; 0]; [2; 1]]))%Z
    (PFloat 1%Z) (PFloat 1%Z)
    (T2 1 2 [[1; 1]])%Z
    (T2 1 1 [[-3]])%Z (T2 1 1 [[3]])%Z.

(** A UGRNN-LR cell with 2 inputs and 2 hidden units, [U] of rank 1. *)
Definition ugrnnlr : UGRNNLRCell.t :=
  UGRNNLRCell.mk 2 2 (PStr "sigmoid") (PStr "tanh")
    None (T2 2 2 [[1; 0]; [0; 1]])%Z (T2 2 2 [[1; 1]; [0; 1]])%Z
    (Some (T2 2 1 [[1]; [2]]))%Z (T2 1 2 [[1; -1]])%Z (T2 1 2 [[0; 1]])%Z
    (T2 1 2 [[1; 1]])%Z (T2 1 2 [[1; 1]])%Z.

(** An LSTM-LR cell with 2 inputs and 2 hidden units, [W] of rank 1, and a
    batch of 3 cell states. *)
Definition lstmlr : LSTMLRCell.t :=
  LSTMLRCell.mk 2 2 (PStr "sigmoid") (PStr "tanh")
    (Some (T2 2 1 [[1]; [-1]]))%Z
      (T2 1 2 [[1; 0]])%Z (T2 1 2 [[0; 1]])%Z (T2 1 2 [[2; 1]])%Z
      (T2 1 2 [[1; 1]])%Z
    None
      (T2 2 2 [[1; 0]; [0; 1]])%Z (T2 2 2 [[0; 1]; [1; 0]])%Z
      (T2 2 2 [[1; 1]; [0; 1]])%Z (T2 2 2 [[2; 0]; [1; -1]])%Z
    (T2 1 2 [[1; 1]])%Z (T2 1 2 [[1; 1]])%Z (T2 1 2 [[1; 1]])%Z
    (T2 1 2 [[1; 1]])%Z.
Definition c32 : Tensor := (T2 3 2 [[1; -1]; [0; 2]; [3; 0]])%Z.

(** A sequence of batch 2, 4 steps and 3 features, and a state for
    [fastgrnn34]. *)
Definition input243 : @Tensor3 ZScalar :=
  tabulate3 2 4 3 (fun b t k => Z.of_nat b + Z.of_nat t - Z.of_nat k)%Z.
Definition h24 : Tensor := (T2 2 4 [[1; 0; -1; 2]; [0; 3; 1; -2]])%Z.

(** A sequence of batch 2, 3 steps and 2 features. *)
Definition input232 : @Tensor3 ZScalar :=
  tabulate3 2 3 2 (fun b t k => Z.of_nat b - Z.of_nat t + Z.of_nat k)%Z.

(** A FastGRNN cell of one input and one hidden unit whose update
    nonlinearity is a callable that refuses entries above 1, and a sequence
    of two steps, 0 and then 5: the second step is refused. *)
Definition refuse_above_1 (A : @Tensor ZScalar) : result Tensor :=
  if (1 <? get A 0 0)%Z then Raise ValueError else Ok A.
Definition fastgrnn_guard : FastGRNNCell.t :=
  FastGRNNCell.mk 1 1 (PStr "sigmoid") (PCallable refuse_above_1)
    (Full (T2 1 1 [[1]]))%Z (Full (T2 1 1 [[0]]))%Z
    (PFloat 1%Z) (PFloat 1%Z)
    (T2 1 1 [[1]])%Z (T2 1 1 [[1]])%Z
    (T2 1 1 [[1]])%Z (T2 1 1 [[-4]])%Z.
Definition input121 : @Tensor3 ZScalar := mkTensor3 1 2 1 [[[0]; [5]]]%Z.
Definition guard_states (s : nat) : @Tensor ZScalar :=
  match s with
  | 0 => zeros 1 1
  | _ => match FastGRNNCell.forward fastgrnn_guard (select1 input121 0)
                 (zeros 1 1) with
         | Ok h => h
         | Raise _ => zeros 1 1
         end
  end.

(** The source of noise that always draws 1. *)
Definition noise1 (k i j : nat) : Z := 1%Z.

(** Thresholding functions that keep every entry. *)
Definition keep (W : @Tensor ZScalar) (s : pyval) : result Tensor := Ok W.
Definition keep_support (W old : @Tensor ZScalar) : result Tensor := Ok W.

(** The FastGRNN cell that [FastGRNNCell(2, 3)] constructs from [noise1],
    and the one that [FastGRNNCell(2, 3, wSparsity=0, uSparsity=0)]
    constructs, after sparsify with [keep]. *)
Definition fresh_weight (k r c : nat) : @Tensor ZScalar :=
  tmap (rmul r_tenth) (tabulate r c (noise1 k)).
Definition fastgrnn_fresh : FastGRNNCellSnap.t :=
  FastGRNNCellSnap.mk
    (FastGRNNCell.mk 2 3 (PStr "sigmoid") (PStr "tanh")
       (Full (fresh_weight 0 3 2)) (Full (fresh_weight 2 3 3))
       (PFloat 1%Z) (PFloat 1%Z)
       (ones 1 3) (ones 1 3)
       (tmap (rmul 1%Z) (ones 1 1)) (tmap (rmul (- (4))%Z) (ones 1 1)))
    None None None None None None.
Definition fastgrnn_sparse : FastGRNNCellSnap.t :=
  FastGRNNCellSnap.mk
    (FastGRNNCell.mk 2 3 (PStr "sigmoid") (PStr "tanh")
       (Full (fresh_weight 0 3 2)) (Full (fresh_weight 2 3 3))
       (PInt 0) (PInt 0)
       (ones 1 3) (ones 1 3)
       (tmap (rmul 1%Z) (ones 1 1)) (tmap (rmul (- (4))%Z) (ones 1 1)))
    (Some (fresh_weight 0 3 2)) None None
    (Some (fresh_weight 2 3 3)) None None.

End MoreSamples.

Section Ranks.
Context {SC : Scalar}.

(** The argument [wRank] or [uRank]: None, or a rank. *)
Definition rank_arg (r : option nat) : pyval :=
  match r with
  | None => PNone
  | Some r => PInt (Z.of_nat r)
  end.

End Ranks.

(** * Facts about the tensor operations *)

Section TensorFacts.
Context {SC : Scalar}.

Lemma map_seq_ext {A} (f g : nat -> A) (n : nat) :
  (forall i, i < n -> f i = g i) -> map f (seq 0 n) = map g (seq 0 n).
Proof.
  intros H. apply map_ext_in. intros i Hi. apply in_seq in Hi. apply H. lia.
Qed.

Lemma nth_map_seq {A} (f : nat -> A) (n i : nat) (d : A) :
  i < n -> nth i (map f (seq 0 n)) d = f i.
Proof.
  intros Hi.
  rewrite (nth_indep _ d (f 0)) by (rewrite length_map, length_seq; exact Hi).
  rewrite (map_nth f (seq 0 n) 0 i). now rewrite seq_nth.
Qed.

Lemma get_tabulate r c f i j :
  i < r -> j < c -> get (tabulate r c f) i j = f i j.
Proof.
  intros Hi Hj. unfold get, tabulate. simpl.
  rewrite (nth_map_seq (fun i => map (fun j => f i j) (seq 0 c)) [] Hi).
  now apply nth_map_seq.
Qed.

Lemma tabulate_ext r c f g :
  (forall i j, i < r -> j < c -> f i j = g i j) ->
  tabulate r c f = tabulate r c g.
Proof.
  intros H. unfold tabulate. f_equal.
  apply map_seq_ext. intros i Hi. apply map_seq_ext. intros j Hj. now apply H.
Qed.

Lemma wf_tabulate r c f : wf (tabulate r c f).
Proof.
  unfold wf. simpl. apply tabulate_ext. intros i j Hi Hj.
  symmetry. now apply get_tabulate.
Qed.

Lemma rsum_ext n f g :
  (forall k, k < n -> f k = g k) -> rsum n f = rsum n g.
Proof.
  induction n as [|n IH]; intros H; simpl; [reflexivity|].
  rewrite IH by (intros; apply H; lia). now rewrite H by lia.
Qed.

Lemma rsum_zero n : rsum n (fun _ => r0) = r0.
Proof.
  induction n as [|n IH]; simpl; [reflexivity|].
  now rewrite IH, radd_0_l.
Qed.

Lemma rsum_add n f g :
  rsum n (fun k => radd (f k) (g k)) = radd (rsum n f) (rsum n g).
Proof.
  induction n as [|n IH]; simpl.
  - now rewrite radd_0_l.
  - rewrite IH. rewrite <- !radd_assoc. f_equal.
    rewrite !radd_assoc. f_equal. apply radd_comm.
Qed.

Lemma rsum_mul_l n a f :
  rmul a (rsum n f) = rsum n (fun k => rmul a (f k)).
Proof.
  induction n as [|n IH]; simpl.
  - apply rmul_0_r.
  - now rewrite rmul_add_distr_l, IH.
Qed.

Lemma rsum_mul_r n a f :
  rmul (rsum n f) a = rsum n (fun k => rmul (f k) a).
Proof.
  induction n as [|n IH]; simpl.
  - apply rmul_0_l.
  - now rewrite rmul_add_distr_r, IH.
Qed.

Lemma rsum_swap m n f :
  rsum m (fun i => rsum n (fun j => f i j)) =
  rsum n (fun j => rsum m (fun i => f i j)).
Proof.
  induction m as [|m IH]; simpl.
  - now rewrite rsum_zero.
  - now rewrite IH, rsum_add.
Qed.

(** The product is associative where the inner shapes agree. *)
Lemma mm_assoc a b c :
  cols a = rows b -> mm (mm a b) c = mm a (mm b c).
Proof.
  intros Hab. unfold mm at 1 3. simpl.
  apply tabulate_ext. intros i j Hi Hj.
  transitivity (rsum (cols b) (fun k =>
                  rsum (cols a) (fun l =>
                    rmul (rmul (get a i l) (get b l k)) (get c k j)))).
  - apply rsum_ext. intros k Hk. unfold mm.
    rewrite get_tabulate by assumption. apply rsum_mul_r.
  - rewrite rsum_swap. apply rsum_ext. intros l Hl. unfold mm.
    rewrite get_tabulate by (try assumption; lia).
    rewrite rsum_mul_l. apply rsum_ext. intros k Hk. now rewrite rmul_assoc.
Qed.

Lemma mm_transpose a b :
  cols a = rows b ->
  mm (transpose b) (transpose a) = transpose (mm a b).
Proof.
  intros Hab. unfold mm at 1, transpose at 3. simpl.
  apply tabulate_ext. intros i j Hi Hj. unfold mm.
  rewrite get_tabulate by assumption. rewrite Hab.
  apply rsum_ext. intros k Hk. unfold transpose.
  rewrite !get_tabulate by (try assumption; lia). apply rmul_comm.
Qed.

(** Two products in a row are one product with the product of the factors. *)
Lemma matmul_matmul a b c :
  cols b = rows c ->
  (y <- matmul a b ;; matmul y c) = matmul a (mm b c).
Proof.
  intros Hbc. unfold matmul. simpl.
  destruct (cols a =? rows b) eqn:E; simpl; [|reflexivity].
  apply Nat.eqb_eq in E. rewrite Hbc, Nat.eqb_refl. now rewrite mm_assoc.
Qed.

Lemma bdim_refl n : bdim n n = Some n.
Proof. unfold bdim. now rewrite Nat.eqb_refl. Qed.

Lemma bget_tabulate r c f i j :
  i < r -> j < c -> bget (tabulate r c f) i j = f i j.
Proof.
  intros Hi Hj. unfold bget. simpl.
  destruct (r =? 1) eqn:Er; destruct (c =? 1) eqn:Ec;
    try apply Nat.eqb_eq in Er; try apply Nat.eqb_eq in Ec;
    rewrite get_tabulate by lia; f_equal; lia.
Qed.

Lemma bget_get (t : Tensor) i j :
  i < rows t -> j < cols t -> bget t i j = get t i j.
Proof.
  intros Hi Hj. unfold bget.
  destruct (rows t =? 1) eqn:Er; destruct (cols t =? 1) eqn:Ec;
    try apply Nat.eqb_eq in Er; try apply Nat.eqb_eq in Ec;
    f_equal; lia.
Qed.

(** Two tensors of one shape combine entry by entry. *)
Lemma broadcast2_same f r c g h :
  broadcast2 f (tabulate r c g) (tabulate r c h) =
  Ok (tabulate r c (fun i j => f (g i j) (h i j))).
Proof.
  unfold broadcast2. simpl. rewrite !bdim_refl. f_equal.
  apply tabulate_ext. intros i j Hi Hj. now rewrite !bget_tabulate.
Qed.

Lemma elementwise_tanh : elementwise (PStr "tanh") tanh.
Proof. intros A. reflexivity. Qed.

Lemma elementwise_sigmoid : elementwise (PStr "sigmoid") sigmoid.
Proof. intros A. reflexivity. Qed.

Lemma elementwise_quantTanh : elementwise (PStr "quantTanh") quantTanh.
Proof.
  intros A. unfold gen_nonlinearity. simpl.
  unfold tmin, tmax, ones_like, ones, tmap.
  assert (E : broadcast2 rmin A (tabulate (rows A) (cols A) (fun _ _ => r1)) =
              Ok (tabulate (rows A) (cols A) (fun i j => rmin (get A i j) r1))).
  { unfold broadcast2. simpl. rewrite !bdim_refl. f_equal.
    apply tabulate_ext. intros i j Hi Hj.
    now rewrite bget_get, bget_tabulate. }
  rewrite E. simpl. rewrite broadcast2_same. f_equal.
  apply tabulate_ext. intros i j Hi Hj. unfold quantTanh.
  now rewrite get_tabulate.
Qed.

Lemma elementwise_quantSigm : elementwise (PStr "quantSigm") quantSigm.
Proof.
  intros A. unfold gen_nonlinearity. simpl.
  unfold tmin, tmax, ones_like, zeros_like, ones, zeros, tmap. simpl.
  rewrite broadcast2_same. simpl. rewrite broadcast2_same. reflexivity.
Qed.

Lemma elementwise_quantSigm4 : elementwise (PStr "quantSigm4") quantSigm4.
Proof.
  intros A. unfold gen_nonlinearity. simpl.
  unfold tmin, tmax, ones_like, zeros_like, ones, zeros, tmap. simpl.
  rewrite broadcast2_same. simpl. rewrite broadcast2_same. reflexivity.
Qed.

Lemma project_dense W Wi x :
  composable_shared W Wi ->
  matmul x (dense_shared W Wi) = project W Wi x.
Proof.
  destruct W as [W|]; simpl; intros H; [|reflexivity].
  symmetry. now apply matmul_matmul.
Qed.

Lemma bind_ext {A B} (m m' : result A) (k k' : A -> result B) :
  m = m' -> (forall a, k a = k' a) -> bind m k = bind m' k'.
Proof.
  intros -> H. destruct m'; simpl; [apply H | reflexivity].
Qed.

Lemma shape_inv (t : Tensor) r c : shape t = (r, c) -> rows t = r /\ cols t = c.
Proof. unfold shape. intros H. now inversion H. Qed.

Lemma bdim_1_r n : bdim n 1 = Some n.
Proof.
  unfold bdim. destruct (n =? 1) eqn:E; [reflexivity|].
  now rewrite Nat.eqb_refl.
Qed.

Lemma bdim_1_l n : bdim 1 n = Some n.
Proof.
  unfold bdim. destruct (1 =? n) eqn:E.
  - apply Nat.eqb_eq in E. now subst.
  - reflexivity.
Qed.

Lemma broadcast2_shape f (a b : Tensor) r c :
  bdim (rows a) (rows b) = Some r -> bdim (cols a) (cols b) = Some c ->
  broadcast2 f a b = Ok (tabulate r c (fun i j => f (bget a i j) (bget b i j))).
Proof. intros Hr Hc. unfold broadcast2. now rewrite Hr, Hc. Qed.

Lemma bget_row (t : Tensor) i j :
  rows t = 1 -> j < cols t -> bget t i j = get t 0 j.
Proof.
  intros Hr Hj. unfold bget. rewrite Hr. simpl.
  destruct (cols t =? 1) eqn:E; [|reflexivity].
  apply Nat.eqb_eq in E. f_equal. lia.
Qed.

Lemma bget_scalar (t : Tensor) i j :
  rows t = 1 -> cols t = 1 -> bget t i j = get t 0 0.
Proof. intros Hr Hc. unfold bget. now rewrite Hr, Hc. Qed.

Lemma matmul_tab (a b : Tensor) r n c :
  rows a = r -> cols a = n -> rows b = n -> cols b = c ->
  matmul a b =
  Ok (tabulate r c (fun i j => rsum n (fun k => rmul (get a i k) (get b k j)))).
Proof.
  intros <- <- Hb <-. unfold matmul. now rewrite Hb, Nat.eqb_refl.
Qed.

Lemma expandable_bdim (t : Tensor) r c :
  expandable t r c = true ->
  bdim r (rows t) = Some r /\ bdim (rows t) r = Some r /\
  bdim c (cols t) = Some c /\ bdim (cols t) c = Some c.
Proof.
  unfold expandable. rewrite andb_true_iff, !orb_true_iff, !Nat.eqb_eq.
  intros [[->| ->] [->| ->]];
    rewrite ?bdim_refl, ?bdim_1_l, ?bdim_1_r; auto.
Qed.

Lemma broadcast2_tab_l f r c g (t : Tensor) :
  expandable t r c = true ->
  broadcast2 f (tabulate r c g) t =
  Ok (tabulate r c (fun i j => f (g i j) (bget t i j))).
Proof.
  intros H. apply expandable_bdim in H. destruct H as (H1 & _ & H2 & _).
  rewrite (broadcast2_shape f (tabulate r c g) t H1 H2). f_equal.
  apply tabulate_ext. intros i j Hi Hj. now rewrite bget_tabulate.
Qed.

Lemma broadcast2_tab_r f r c g (t : Tensor) :
  expandable t r c = true ->
  broadcast2 f t (tabulate r c g) =
  Ok (tabulate r c (fun i j => f (bget t i j) (g i j))).
Proof.
  intros H. apply expandable_bdim in H. destruct H as (_ & H1 & _ & H2).
  rewrite (broadcast2_shape f t (tabulate r c g) H1 H2). f_equal.
  apply tabulate_ext. intros i j Hi Hj. now rewrite bget_tabulate.
Qed.

Lemma tmap_tab f r c g :
  tmap f (tabulate r c g) = tabulate r c (fun i j => f (g i j)).
Proof.
  unfold tmap. simpl. apply tabulate_ext. intros i j Hi Hj.
  now rewrite get_tabulate.
Qed.

Lemma expandable_shape (t : Tensor) r c : shape t = (r, c) -> expandable t r c = true.
Proof.
  intros H. apply shape_inv in H. destruct H as [<- <-].
  unfold expandable. now rewrite !Nat.eqb_refl.
Qed.

Lemma expandable_row (t : Tensor) r c : shape t = (1, c) -> expandable t r c = true.
Proof.
  intros H. apply shape_inv in H. destruct H as [H <-].
  unfold expandable. rewrite H, !Nat.eqb_refl.
  now rewrite orb_true_r.
Qed.

Lemma expandable_scalar (t : Tensor) r c : shape t = (1, 1) -> expandable t r c = true.
Proof.
  intros H. apply shape_inv in H. destruct H as [H1 H2].
  unfold expandable. rewrite H1, H2, !Nat.eqb_refl.
  now rewrite !orb_true_r.
Qed.

Lemma transpose_shape (t : Tensor) r c : shape t = (r, c) -> shape (transpose t) = (c, r).
Proof. intros H. apply shape_inv in H. destruct H as [<- <-]. reflexivity. Qed.

Lemma get_transpose (t : Tensor) i j :
  i < cols t -> j < rows t -> get (transpose t) i j = get t j i.
Proof. intros Hi Hj. unfold transpose. now rewrite get_tabulate. Qed.

Lemma get3_tabulate3 a b c f i j k :
  i < a -> j < b -> k < c -> get3 (tabulate3 a b c f) i j k = f i j k.
Proof.
  intros Hi Hj Hk. unfold get3, tabulate3. simpl.
  rewrite (nth_map_seq
    (fun i => map (fun j => map (fun k => f i j k) (seq 0 c)) (seq 0 b)) [] Hi).
  rewrite (nth_map_seq (fun j => map (fun k => f i j k) (seq 0 c)) [] Hj).
  now apply nth_map_seq.
Qed.

Lemma tabulate3_ext a b c f g :
  (forall i j k, i < a -> j < b -> k < c -> f i j k = g i j k) ->
  tabulate3 a b c f = tabulate3 a b c g.
Proof.
  intros H. unfold tabulate3. f_equal.
  apply map_seq_ext. intros i Hi. apply map_seq_ext. intros j Hj.
  apply map_seq_ext. intros k Hk. now apply H.
Qed.

Lemma select0_transpose01 input i :
  i < dim1 input -> select0 (transpose01 input) i = select1 input i.
Proof.
  intros Hi. unfold select0, select1, transpose01. simpl.
  apply tabulate_ext. intros b k Hb Hk. now rewrite get3_tabulate3.
Qed.

Lemma setitem0_transpose01 buf i v :
  setitem0 (transpose01 buf) i v = fmap transpose01 (setitem1 buf i v).
Proof.
  unfold setitem0, setitem1. simpl.
  destruct (expandable v (dim0 buf) (dim2 buf)); [|reflexivity].
  simpl. f_equal. unfold transpose01. simpl.
  apply tabulate3_ext. intros j b k Hj Hb Hk.
  rewrite !get3_tabulate3 by assumption. reflexivity.
Qed.

Lemma zeros3_transpose01 a b c : zeros3 b a c = transpose01 (zeros3 a b c).
Proof.
  unfold zeros3, transpose01. simpl. apply tabulate3_ext.
  intros i j k Hi Hj Hk. now rewrite get3_tabulate3.
Qed.

Lemma for_each_app {A St} (l1 l2 : list A) (body : A -> St -> result St) s :
  for_each (l1 ++ l2) body s = (s' <- for_each l1 body s ;; for_each l2 body s').
Proof.
  revert s. induction l1 as [|a l1 IH]; intros s; simpl; [reflexivity|].
  destruct (body a s); simpl; [apply IH | reflexivity].
Qed.

Lemma range_S n : range 0 (S n) = range 0 n ++ [n].
Proof. unfold range. rewrite !Nat.sub_0_r. now rewrite seq_S. Qed.

Lemma shape3_inv (t : Tensor3) a b c :
  shape3 t = (a, b, c) -> dim0 t = a /\ dim1 t = b /\ dim2 t = c.
Proof. unfold shape3. intros H. now inversion H. Qed.

Lemma in_range i lo hi : In i (range lo hi) -> lo <= i < hi.
Proof. unfold range. intros H. apply in_seq in H. lia. Qed.









Lemma project_tab W Wi (v : Tensor) B inp out :
  shared_shaped W Wi inp out -> rows v = B -> cols v = inp ->
  project W Wi v = Ok (tabulate B out (lin_shared W Wi v)).
Proof.
  intros HW Hr Hc. destruct W as [W|]; cbn [project shared_shaped] in *.
  - destruct HW as (r & H1 & H2). apply shape_inv in H1, H2.
    destruct H1 as [H1r H1c], H2 as [H2r H2c].
    rewrite (matmul_tab v W Hr Hc H1r H1c). cbn [bind].
    erewrite matmul_tab; [|reflexivity|reflexivity|exact H2r|exact H2c].
    f_equal. unfold lin_shared, lin. cbn [rows cols tabulate].
    now rewrite Hr, H1r, H1c, H2r.
  - apply shape_inv in HW. destruct HW as [H1 H2].
    rewrite (matmul_tab v Wi Hr Hc H1 H2). unfold lin_shared, lin.
    now rewrite H1.
Qed.

End TensorFacts.

(** * Low-rank and full-rank cells *)

Section LowRank.
Context {SC : Scalar}.

Lemma FastGRNN_dense w x :
  FastGRNNCell.composable_weight w ->
  matmul x (transpose (FastGRNNCell.dense w)) =
  match w with
  | Full W => matmul x (transpose W)
  | LowRank W1 W2 =>
      y <- matmul x (transpose W1) ;; matmul y (transpose W2)
  end.
Proof.
  destruct w as [W|W1 W2]; simpl; intros H; [reflexivity|].
  rewrite <- (mm_transpose W2 W1 H).
  symmetry. apply matmul_matmul. simpl. now symmetry.
Qed.

Lemma FastRNN_dense w x :
  FastRNNCell.composable_weight w ->
  matmul x (FastRNNCell.dense w) =
  match w with
  | Full W => matmul x W
  | LowRank W1 W2 => y <- matmul x W1 ;; matmul y W2
  end.
Proof.
  destruct w as [W|W1 W2]; simpl; intros H; [reflexivity|].
  symmetry. now apply matmul_matmul.
Qed.

Lemma FastGRNN_full_rank c x h :
  FastGRNNCell.composable c ->
  FastGRNNCell.forward (FastGRNNCell.full_rank c) x h =
  FastGRNNCell.forward c x h.
Proof.
  intros [HW HU]. unfold FastGRNNCell.forward. simpl.
  now rewrite (FastGRNN_dense _ x HW), (FastGRNN_dense _ h HU).
Qed.

Lemma FastRNN_full_rank c x h :
  FastRNNCell.composable c ->
  FastRNNCell.forward (FastRNNCell.full_rank c) x h =
  FastRNNCell.forward c x h.
Proof.
  intros [HW HU]. unfold FastRNNCell.forward. simpl.
  now rewrite (FastRNN_dense _ x HW), (FastRNN_dense _ h HU).
Qed.

(** Two runs of binds agree when they agree step by step. *)
Ltac bind_steps tac :=
  repeat (apply bind_ext; [solve [reflexivity | tac] | intros ?]);
  try reflexivity.

Lemma LSTMLR_full_rank c x s :
  LSTMLRCell.composable c ->
  LSTMLRCell.forward (LSTMLRCell.full_rank c) x s =
  LSTMLRCell.forward c x s.
Proof.
  intros (H1 & H2 & H3 & H4 & H5 & H6 & H7 & H8).
  destruct s as [h c0]. unfold LSTMLRCell.forward. simpl.
  bind_steps ltac:(now apply project_dense).
Qed.

Lemma GRULR_full_rank c x h :
  GRULRCell.composable c ->
  GRULRCell.forward (GRULRCell.full_rank c) x h = GRULRCell.forward c x h.
Proof.
  intros (H1 & H2 & H3 & H4 & H5 & H6).
  unfold GRULRCell.forward. simpl.
  bind_steps ltac:(now apply project_dense).
Qed.

Lemma UGRNNLR_full_rank c x h :
  UGRNNLRCell.composable c ->
  UGRNNLRCell.forward (UGRNNLRCell.full_rank c) x h =
  UGRNNLRCell.forward c x h.
Proof.
  intros (H1 & H2 & H3 & H4).
  unfold UGRNNLRCell.forward. simpl.
  bind_steps ltac:(now apply project_dense).
Qed.

Lemma shared_shaped_composable W Wi inp out :
  shared_shaped W Wi inp out -> composable_shared W Wi.
Proof.
  destruct W as [W|]; simpl; [|trivial].
  intros (r & H1 & H2). apply shape_inv in H1, H2.
  destruct H1 as [_ H1], H2 as [H2 _]. congruence.
Qed.

(** The factors __init__ creates compose. *)
Lemma well_shaped_composable (c : cell) : well_shaped c -> composable c.
Proof.
  destruct c as [c|c|c|c|c]; simpl.
  - intros (HW & HU & _). split.
    + destruct (FastGRNNCell.W c); simpl in *; [trivial|].
      destruct HW as (r & H1 & H2). apply shape_inv in H1, H2.
      destruct H1 as [H1 _], H2 as [_ H2]. congruence.
    + destruct (FastGRNNCell.U c); simpl in *; [trivial|].
      destruct HU as (r & H1 & H2). apply shape_inv in H1, H2.
      destruct H1 as [H1 _], H2 as [_ H2]. congruence.
  - intros (HW & HU & _). split.
    + destruct (FastRNNCell.W c); simpl in *; [trivial|].
      destruct HW as (r & H1 & H2). apply shape_inv in H1, H2.
      destruct H1 as [_ H1], H2 as [H2 _]. congruence.
    + destruct (FastRNNCell.U c); simpl in *; [trivial|].
      destruct HU as (r & H1 & H2). apply shape_inv in H1, H2.
      destruct H1 as [_ H1], H2 as [H2 _]. congruence.
  - intros (H1 & H2 & H3 & H4 & H5 & H6 & H7 & H8 & _).
    repeat split; eapply shared_shaped_composable; eassumption.
  - intros (H1 & H2 & H3 & H4 & H5 & H6 & _).
    repeat split; eapply shared_shaped_composable; eassumption.
  - intros (H1 & H2 & H3 & H4 & _).
    repeat split; eapply shared_shaped_composable; eassumption.
Qed.

(** C1. For every cell variant whose low-rank factors compose (as the
    factors __init__ creates do), and for every input and state, the call
    of the cell and the call of the full-rank cell whose weights are the
    explicit products of the factor pairs give the same result: the same
    tensors over exact arithmetic, or the same exception. *)
Theorem lowrank_forward_eq_fullrank (c : cell) (x : Tensor) (s : state) :
  composable c ->
  is_full_rank (full_rank c) = true /\
  call (full_rank c) x s = call c x s.
Proof.
  intros H. split; [now destruct c|].
  destruct c as [c|c|c|c|c]; destruct s as [h|h c0];
    cbn [call cell_RNNCell full_rank composable] in *;
    unfold call, FastGRNNCell_RNNCell, FastRNNCell_RNNCell,
      LSTMLRCell_RNNCell, GRULRCell_RNNCell, UGRNNLRCell_RNNCell,
      call_single, call_dual;
    try reflexivity.
  - now rewrite FastGRNN_full_rank.
  - now rewrite FastRNN_full_rank.
  - now rewrite LSTMLR_full_rank.
  - now rewrite GRULR_full_rank.
  - now rewrite UGRNNLR_full_rank.
Qed.

End LowRank.

Lemma lowrank_forward_eq_fullrank_witness :
  composable (CFastGRNN Samples.fastgrnn) /\
  is_full_rank (full_rank (CFastGRNN Samples.fastgrnn)) = true /\
  call (full_rank (CFastGRNN Samples.fastgrnn)) Samples.x32 (Hidden Samples.h32) =
  call (CFastGRNN Samples.fastgrnn) Samples.x32 (Hidden Samples.h32).
Proof.
  assert (H : composable (CFastGRNN Samples.fastgrnn))
    by (split; [reflexivity | exact I]).
  split; [exact H|].
  exact (lowrank_forward_eq_fullrank (CFastGRNN Samples.fastgrnn)
           Samples.x32 (Hidden Samples.h32) H).
Defined.

(** * The update equations of FastGRNN and GRU-LR *)

Section UpdateEquations.
Context {SC : Scalar}.

Lemma dense_shape w out inp :
  FastGRNNCell.weight_shaped w out inp ->
  shape (FastGRNNCell.dense w) = (out, inp) /\ FastGRNNCell.composable_weight w.
Proof.
  destruct w as [W|W1 W2]; simpl.
  - auto.
  - intros (r & H1 & H2). apply shape_inv in H1, H2. unfold shape. simpl.
    destruct H1 as [-> ->], H2 as [-> ->]. auto.
Qed.


Ltac row_shape :=
  first [now apply expandable_row
        | apply expandable_row; unfold shape; congruence].

Lemma FastGRNN_forward_update (self : FastGRNNCell.t) (x h : Tensor)
    (B : nat) (gateNL updateNL : num -> num) :
  FastGRNNCell.well_shaped self ->
  shape x = (B, FastGRNNCell.input_size self) ->
  shape h = (B, FastGRNNCell.hidden_size self) ->
  elementwise (FastGRNNCell.gate_nonlinearity self) gateNL ->
  elementwise (FastGRNNCell.update_nonlinearity self) updateNL ->
  FastGRNNCell.forward self x h = Ok (FastGRNN_update self gateNL updateNL x h).
Proof.
  intros (HW & HU & Hbg & Hbu & Hz & Hn) Hx Hh Hg Hu.
  apply dense_shape in HW, HU. destruct HW as [HW HWc], HU as [HU HUc].
  rewrite <- FastGRNN_full_rank by (split; assumption).
  unfold FastGRNN_update, affine.
  set (Wd := FastGRNNCell.dense (FastGRNNCell.W self)) in *.
  set (Ud := FastGRNNCell.dense (FastGRNNCell.U self)) in *.
  set (H := FastGRNNCell.hidden_size self) in *.
  set (I := FastGRNNCell.input_size self) in *.
  unfold FastGRNNCell.forward.
  cbn [FastGRNNCell.W FastGRNNCell.U FastGRNNCell.full_rank FastGRNNCell.bias_gate
       FastGRNNCell.bias_update FastGRNNCell.zeta FastGRNNCell.nu
       FastGRNNCell.gate_nonlinearity FastGRNNCell.update_nonlinearity].
  pose proof (transpose_shape HW) as HWt. pose proof (transpose_shape HU) as HUt.
  assert (Hhe := expandable_shape Hh).
  apply shape_inv in HW, HU, Hx, Hh, HWt, HUt.
  destruct HW as [HW1 HW2], HU as [HU1 HU2], Hx as [Hx1 Hx2], Hh as [Hh1 Hh2],
    HWt as [HWt1 HWt2], HUt as [HUt1 HUt2].
  fold Wd Ud. rewrite (matmul_tab x (transpose Wd) Hx1 Hx2 HWt1 HWt2). cbn [bind].
  rewrite (matmul_tab h (transpose Ud) Hh1 Hh2 HUt1 HUt2). cbn [bind].
  unfold tadd, tmul, one_minus.
  rewrite broadcast2_same. cbn [bind].
  rewrite broadcast2_tab_l by row_shape. cbn [bind].
  rewrite Hg, tmap_tab. cbn [bind].
  rewrite broadcast2_tab_l by row_shape. cbn [bind].
  rewrite Hu, tmap_tab. cbn [bind].
  rewrite broadcast2_tab_l by exact Hhe. cbn [bind].
  rewrite tmap_tab.
  assert (Hze : expandable (tmap sigmoid (FastGRNNCell.zeta self)) B H = true)
    by (apply expandable_scalar; apply shape_inv in Hz; destruct Hz as [Hz1 Hz2];
        unfold shape; simpl; congruence).
  rewrite broadcast2_tab_r by exact Hze. cbn [bind].
  assert (Hne : expandable (tmap sigmoid (FastGRNNCell.nu self)) B H = true)
    by (apply expandable_scalar; apply shape_inv in Hn; destruct Hn as [Hn1 Hn2];
        unfold shape; simpl; congruence).
  rewrite broadcast2_tab_l by exact Hne. cbn [bind].
  rewrite broadcast2_same. cbn [bind].
  rewrite broadcast2_same. f_equal. rewrite Hx1, HW2, HU2.
  apply tabulate_ext. intros b j Hb Hj.
  apply shape_inv in Hbg, Hbu, Hz, Hn.
  destruct Hbg as [Hbg1 Hbg2], Hbu as [Hbu1 Hbu2], Hz as [Hz1 Hz2], Hn as [Hn1 Hn2].
  rewrite !(bget_row (FastGRNNCell.bias_gate self)) by (try assumption; lia).
  rewrite !(bget_row (FastGRNNCell.bias_update self)) by (try assumption; lia).
  rewrite !(bget_scalar (tmap sigmoid (FastGRNNCell.zeta self))) by assumption.
  rewrite !(bget_scalar (tmap sigmoid (FastGRNNCell.nu self))) by assumption.
  rewrite (bget_get h) by lia.
  unfold tmap. rewrite Hz1, Hz2, Hn1, Hn2, !get_tabulate by lia.
  assert (Ew : rsum I (fun k => rmul (get x b k) (get (transpose Wd) k j)) =
               rsum I (fun k => rmul (get Wd j k) (get x b k))).
  { apply rsum_ext. intros k Hk. rewrite get_transpose by lia. apply rmul_comm. }
  assert (Eu : rsum H (fun k => rmul (get h b k) (get (transpose Ud) k j)) =
               rsum H (fun k => rmul (get Ud j k) (get h b k))).
  { apply rsum_ext. intros k Hk. rewrite get_transpose by lia. apply rmul_comm. }
  rewrite Ew, Eu. reflexivity.
Qed.

(** C2. For every FastGRNN cell with the parameter shapes __init__ gives,
    every input [x] of shape [batch, input_size] and every state [h] of
    shape [batch, hidden_size], with gate and update nonlinearities that
    act entry by entry: forward returns, of shape [batch, hidden_size],
    [z*h + (sigmoid(zeta)*(1-z) + sigmoid(nu))*c], where
    [z = gateNL(W.x + U.h + b_g)] and [c = updateNL(W.x + U.h + b_c)] share
    the pre-activation [W.x + U.h] of the (possibly factored) weights. *)
Theorem FastGRNN_forward_equation (self : FastGRNNCell.t) (x h : Tensor)
    (B : nat) (gateNL updateNL : num -> num) :
  FastGRNNCell.well_shaped self ->
  shape x = (B, FastGRNNCell.input_size self) ->
  shape h = (B, FastGRNNCell.hidden_size self) ->
  elementwise (FastGRNNCell.gate_nonlinearity self) gateNL ->
  elementwise (FastGRNNCell.update_nonlinearity self) updateNL ->
  FastGRNNCell.forward self x h = Ok (FastGRNN_update self gateNL updateNL x h) /\
  shape (FastGRNN_update self gateNL updateNL x h) =
    (B, FastGRNNCell.hidden_size self).
Proof.
  intros Hc Hx Hh Hg Hu. split.
  - now apply FastGRNN_forward_update with (B := B).
  - apply shape_inv in Hx. destruct Hx as [Hx _].
    unfold FastGRNN_update, shape. simpl. now rewrite Hx.
Qed.

(** C3. In the forward of a GRU-LR cell (parameter shapes as __init__ gives
    them, nonlinearities acting entry by entry) the reset gate [r]
    multiplies the hidden state itself, and the product [r*h] is what the
    third projection is applied to (by [U3], or in the low-rank case first
    by [U] and then by [U3]): [c = updateNL(W3.x + U3.(r*h) + b_c)], and the
    new state is [z*h + (1-z)*c]. *)
Theorem GRULR_forward_equation (self : GRULRCell.t) (x h : Tensor)
    (B : nat) (gateNL updateNL : num -> num) :
  GRULRCell.well_shaped self ->
  shape x = (B, GRULRCell.input_size self) ->
  shape h = (B, GRULRCell.hidden_size self) ->
  elementwise (GRULRCell.gate_nonlinearity self) gateNL ->
  elementwise (GRULRCell.update_nonlinearity self) updateNL ->
  GRULRCell.forward self x h = Ok (GRULR_update self gateNL updateNL x h).
Proof.
  intros (HW1 & HW2 & HW3 & HU1 & HU2 & HU3 & Hbr & Hbg & Hbu) Hx Hh Hg Hu.
  set (H := GRULRCell.hidden_size self) in *.
  set (I := GRULRCell.input_size self) in *.
  unfold GRULRCell.forward.
  assert (Hhe := expandable_shape Hh).
  apply shape_inv in Hx, Hh, Hbr, Hbg, Hbu.
  destruct Hbr as [Hbr1 Hbr2], Hbg as [Hbg1 Hbg2], Hbu as [Hbu1 Hbu2],
    Hx as [Hx1 Hx2], Hh as [Hh1 Hh2].
  rewrite (project_tab _ _ x _ HW1 Hx1 Hx2). cbn [bind].
  rewrite (project_tab _ _ x _ HW2 Hx1 Hx2). cbn [bind].
  rewrite (project_tab _ _ x _ HW3 Hx1 Hx2). cbn [bind].
  rewrite (project_tab _ _ h _ HU1 Hh1 Hh2). cbn [bind].
  rewrite (project_tab _ _ h _ HU2 Hh1 Hh2). cbn [bind].
  unfold tadd, tmul, one_minus.
  rewrite !broadcast2_same. cbn [bind].
  rewrite broadcast2_tab_l by row_shape. cbn [bind].
  rewrite Hg, tmap_tab. cbn [bind].
  rewrite broadcast2_tab_l by row_shape. cbn [bind].
  rewrite Hg, tmap_tab. cbn [bind].
  rewrite broadcast2_tab_l by exact Hhe. cbn [bind].
  match goal with
  | |- context [project _ _ ?t] =>
      assert (Erh : t = GRULR_rh self gateNL x h); [|rewrite Erh; clear Erh]
  end.
  { unfold GRULR_rh, GRULR_r. fold H. rewrite Hx1.
    apply tabulate_ext. intros b k Hb Hk.
    rewrite (bget_row (GRULRCell.bias_r self)) by (try assumption; lia).
    now rewrite (bget_get h) by lia. }
  rewrite (project_tab _ _ (GRULR_rh self gateNL x h) _ (B := B) HU3)
    by (first [exact Hx1 | reflexivity]).
  cbn [bind].
  rewrite broadcast2_same. cbn [bind].
  rewrite broadcast2_tab_l by row_shape. cbn [bind].
  rewrite Hu, tmap_tab. cbn [bind].
  rewrite broadcast2_tab_l by exact Hhe. cbn [bind].
  rewrite tmap_tab, broadcast2_same. cbn [bind].
  rewrite broadcast2_same. f_equal.
  unfold GRULR_update, GRULR_z, GRULR_c. fold H. rewrite Hx1.
  apply tabulate_ext. intros b j Hb Hj.
  rewrite !(bget_row (GRULRCell.bias_gate self)) by (try assumption; lia).
  rewrite !(bget_row (GRULRCell.bias_update self)) by (try assumption; lia).
  rewrite !(bget_get h) by lia.
  reflexivity.
Qed.
End UpdateEquations.

Lemma fastgrnn_well_shaped : FastGRNNCell.well_shaped Samples.fastgrnn.
Proof.
  repeat split. exists 1. split; reflexivity.
Qed.

Lemma FastGRNN_forward_equation_witness :
  FastGRNNCell.forward Samples.fastgrnn Samples.x32 Samples.h32 =
    Ok (FastGRNN_update Samples.fastgrnn sigmoid tanh Samples.x32 Samples.h32) /\
  shape (FastGRNN_update Samples.fastgrnn sigmoid tanh Samples.x32 Samples.h32) =
    (3, 2).
Proof.
  apply FastGRNN_forward_equation with (B := 3).
  - exact fastgrnn_well_shaped.
  - reflexivity.
  - reflexivity.
  - apply elementwise_sigmoid.
  - apply elementwise_tanh.
Defined.

(** The order matters: on this cell the code returns [[0, 1]], and the
    reset gate applied after the projection would give [[0, 0]]. *)
Lemma GRULR_reset_before_projection :
  GRULRCell.forward Samples.grulr_swap Samples.x12 Samples.h12_unit =
    Ok (Samples.T2 1 2 [[0; 1]])%Z /\
  GRULR_update_post Samples.grulr_swap quantSigm quantTanh
    Samples.x12 Samples.h12_unit = (Samples.T2 1 2 [[0; 0]])%Z.
Proof. split; reflexivity. Qed.

Lemma GRULR_forward_equation_witness :
  GRULRCell.forward Samples.grulr Samples.x32 Samples.h32 =
  Ok (GRULR_update Samples.grulr quantSigm quantTanh Samples.x32 Samples.h32).
Proof.
  apply GRULR_forward_equation with (B := 3).
  - repeat split; exists 1; split; reflexivity.
  - reflexivity.
  - reflexivity.
  - apply elementwise_quantSigm.
  - apply elementwise_quantTanh.
Defined.

(** * The unroller *)

Section Unroller.
Context {SC : Scalar}.

Section AnyCell.
Context {C : Type} {cell_ops : RNNCell C}.

Lemma step_transpose01 (cell : C) input i h buf :
  i < dim1 input ->
  BaseRNN.step cell (select0 (transpose01 input)) setitem0 i (h, transpose01 buf) =
  fmap (fun st => (fst st, transpose01 (snd st)))
       (BaseRNN.step cell (select1 input) setitem1 i (h, buf)).
Proof.
  intros Hi. unfold BaseRNN.step. rewrite select0_transpose01 by assumption.
  destruct (call cell (select1 input i) (Hidden h)) as [[h'|h' c']|e]; simpl;
    try reflexivity.
  rewrite setitem0_transpose01. now destruct (setitem1 buf i h').
Qed.

Lemma loop_transpose01 (cell : C) input idx h buf :
  (forall i, In i idx -> i < dim1 input) ->
  for_each idx (BaseRNN.step cell (select0 (transpose01 input)) setitem0)
    (h, transpose01 buf) =
  fmap (fun st => (fst st, transpose01 (snd st)))
       (for_each idx (BaseRNN.step cell (select1 input) setitem1) (h, buf)).
Proof.
  revert h buf. induction idx as [|i idx IH]; intros h buf Hidx; cbn [for_each].
  - reflexivity.
  - rewrite step_transpose01 by (apply Hidx; now left).
    destruct (BaseRNN.step cell (select1 input) setitem1 i (h, buf))
      as [[h' buf']|e]; cbn [bind fmap fst snd]; [|reflexivity].
    apply IH. intros j Hj. apply Hidx. now right.
Qed.

Lemma step2_transpose01 (cell : C) input i h c hs cs :
  i < dim1 input ->
  BaseRNN.step2 cell (select0 (transpose01 input)) setitem0 i
    (h, c, transpose01 hs, transpose01 cs) =
  fmap (fun st => match st with
                  | (h, c, hs, cs) => (h, c, transpose01 hs, transpose01 cs)
                  end)
       (BaseRNN.step2 cell (select1 input) setitem1 i (h, c, hs, cs)).
Proof.
  intros Hi. unfold BaseRNN.step2. rewrite select0_transpose01 by assumption.
  destruct (call cell (select1 input i) (HiddenCell h c)) as [[h'|h' c']|e];
    simpl; try reflexivity.
  rewrite !setitem0_transpose01.
  destruct (setitem1 hs i h'); simpl; [|reflexivity].
  now destruct (setitem1 cs i c').
Qed.

Lemma loop2_transpose01 (cell : C) input idx h c hs cs :
  (forall i, In i idx -> i < dim1 input) ->
  for_each idx (BaseRNN.step2 cell (select0 (transpose01 input)) setitem0)
    (h, c, transpose01 hs, transpose01 cs) =
  fmap (fun st => match st with
                  | (h, c, hs, cs) => (h, c, transpose01 hs, transpose01 cs)
                  end)
       (for_each idx (BaseRNN.step2 cell (select1 input) setitem1) (h, c, hs, cs)).
Proof.
  revert h c hs cs. induction idx as [|i idx IH]; intros h c hs cs Hidx;
    cbn [for_each].
  - reflexivity.
  - rewrite step2_transpose01 by (apply Hidx; now left).
    destruct (BaseRNN.step2 cell (select1 input) setitem1 i (h, c, hs, cs))
      as [[[[h' c'] hs'] cs']|e]; cbn [bind fmap]; [|reflexivity].
    apply IH. intros j Hj. apply Hidx. now right.
Qed.

(** C5. For every cell and every sequence, the time-first unroller on the
    transposed input [T, B, input_size] returns the transposition of what
    the batch-first unroller returns on [B, T, input_size], for the same
    omitted or supplied initial states: the same output values in the
    transposed layout, or the same exception. *)
Theorem time_first_is_transposed_batch_first (cell : C) (input : Tensor3)
    (hiddenState cellState : option Tensor) :
  BaseRNN.forward (BaseRNN.mk cell false) (transpose01 input)
    hiddenState cellState =
  fmap transpose_output
    (BaseRNN.forward (BaseRNN.mk cell true) input hiddenState cellState).
Proof.
  unfold BaseRNN.forward. cbn [BaseRNN._RNNCell BaseRNN._batch_first].
  cbn [dim0 dim1 dim2 transpose01 tabulate3].
  rewrite (zeros3_transpose01 (dim0 input) (dim1 input) (output_size cell)).
  destruct (String.eqb (cellType cell) "LSTMLR").
  - rewrite loop2_transpose01 by (intros i Hi; apply in_range in Hi; lia).
    destruct (for_each _ _ _) as [[[[h' c'] hs'] cs']|e]; reflexivity.
  - rewrite loop_transpose01 by (intros i Hi; apply in_range in Hi; lia).
    destruct (for_each _ _ _) as [[h' hs']|e]; reflexivity.
Qed.

Lemma select1_setitem1_same buf i v B T H :
  shape3 buf = (B, T, H) -> shape v = (B, H) -> wf v -> i < T ->
  exists buf', setitem1 buf i v = Ok buf' /\ shape3 buf' = (B, T, H) /\
    select1 buf' i = v /\
    (forall t, t <> i -> t < T -> select1 buf' t = select1 buf t).
Proof.
  intros Hb Hv Hwf Hi. apply shape3_inv in Hb. destruct Hb as (H0 & H1 & H2).
  unfold setitem1. rewrite H0, H1, H2, (expandable_shape Hv).
  eexists. split; [reflexivity|]. split; [reflexivity|].
  apply shape_inv in Hv. destruct Hv as [Hv1 Hv2]. split.
  - transitivity (tabulate (rows v) (cols v) (get v)); [|symmetry; exact Hwf].
    unfold select1. simpl. rewrite Hv1, Hv2.
    apply tabulate_ext. intros b k Hb Hk.
    rewrite get3_tabulate3 by assumption. rewrite Nat.eqb_refl.
    apply bget_get; lia.
  - intros t Ht HtT. unfold select1. simpl. rewrite H0, H2.
    apply tabulate_ext. intros b k Hb Hk.
    rewrite get3_tabulate3 by assumption.
    destruct (t =? i) eqn:E; [apply Nat.eqb_eq in E; contradiction|reflexivity].
Qed.

Section Unroll.
Variable cell : C.
Variable input : Tensor3.
Variables B T I : nat.
Hypothesis Hinput : shape3 input = (B, T, I).
Let H := output_size cell.
Hypothesis Hcell : forall x h,
  shape x = (B, I) -> wf x -> shape h = (B, H) -> wf h ->
  exists h', call cell x (Hidden h) = Ok (Hidden h') /\
             shape h' = (B, H) /\ wf h'.
Variable h0 : Tensor.
Hypothesis Hh0 : shape h0 = (B, H).
Hypothesis Hwf0 : wf h0.

Lemma select1_input t : shape (select1 input t) = (B, I) /\ wf (select1 input t).
Proof.
  apply shape3_inv in Hinput. destruct Hinput as (H0 & H1 & H2).
  split; [unfold select1, shape; simpl; congruence | apply wf_tabulate].
Qed.

Lemma unroll_invariant n :
  n <= T ->
  exists h buf,
    for_each (range 0 n) (BaseRNN.step cell (select1 input) setitem1)
      (h0, zeros3 B T H) = Ok (h, buf) /\
    shape3 buf = (B, T, H) /\ shape h = (B, H) /\ wf h /\
    h = entering h0 buf n /\
    (forall t, t < n ->
       call cell (select1 input t) (Hidden (entering h0 buf t)) =
       Ok (Hidden (select1 buf t))).
Proof.
  induction n as [|n IH]; intros Hn.
  - exists h0, (zeros3 B T H). repeat split; auto. intros t Ht. lia.
  - destruct IH as (h & buf & Hrun & Hbuf & Hh & Hwf & Hent & Hsteps); [lia|].
    destruct (select1_input n) as [Hx Hxwf].
    destruct (Hcell Hx Hxwf Hh Hwf) as (h' & Hcall & Hh' & Hwf').
    destruct (@select1_setitem1_same buf n h' B T H Hbuf Hh' Hwf')
      as (buf' & Hset & Hbuf' & Hsame & Hother); [lia|].
    exists h', buf'.
    assert (Hentering : forall t, t <= n -> entering h0 buf' t = entering h0 buf t).
    { intros [|t] Ht; simpl; [reflexivity|]. apply Hother; lia. }
    split.
    { rewrite range_S, for_each_app, Hrun. cbn [bind for_each].
      unfold BaseRNN.step. rewrite Hcall. cbn [bind]. rewrite Hset. reflexivity. }
    repeat split; auto.
    intros t Ht. rewrite Hentering by lia.
    destruct (Nat.eq_dec t n) as [->|Hne].
    + rewrite <- Hent, Hsame. exact Hcall.
    + rewrite Hother by lia. apply Hsteps. lia.
Qed.

End Unroll.

(** C4. For every single-state cell whose call on an input of shape
    [B, input_size] and a state of shape [B, hidden_size] returns a state of
    shape [B, hidden_size], and every batch-first input of shape
    [B, T, input_size]: the unroller without initial state returns an
    output sequence of shape [B, T, hidden_size]; the output of step 0 is
    the cell's result on [input[:,0,:]] and the zero state of shape
    [B, hidden_size], and the output of every later step [t] is the cell's
    result on [input[:,t,:]] and the output of step [t-1]. *)
Theorem unroll_batch_first (cell : C) (input : Tensor3) (B T I : nat) :
  String.eqb (cellType cell) "LSTMLR" = false ->
  shape3 input = (B, T, I) ->
  (forall x h,
     shape x = (B, I) -> wf x -> shape h = (B, output_size cell) -> wf h ->
     exists h', call cell x (Hidden h) = Ok (Hidden h') /\
                shape h' = (B, output_size cell) /\ wf h') ->
  exists out,
    BaseRNN.forward (BaseRNN.mk cell true) input None None = Ok (Out out) /\
    shape3 out = (B, T, output_size cell) /\
    (0 < T ->
     call cell (select1 input 0) (Hidden (zeros B (output_size cell))) =
     Ok (Hidden (select1 out 0))) /\
    (forall t, 0 < t < T ->
     call cell (select1 input t) (Hidden (select1 out (t - 1))) =
     Ok (Hidden (select1 out t))).
Proof.
  intros Htype Hinput Hcell.
  destruct (@unroll_invariant cell input B T I Hinput Hcell
              (zeros B (output_size cell)) eq_refl (wf_tabulate _ _ _) T (le_n T))
    as (h & buf & Hrun & Hbuf & Hh & Hwf & Hent & Hsteps).
  exists buf.
  pose proof (shape3_inv Hinput) as (H0 & H1 & H2).
  unfold BaseRNN.forward. cbn [BaseRNN._RNNCell BaseRNN._batch_first].
  rewrite Htype. cbn [BaseRNN.or_zeros]. rewrite H0, H1, Hrun.
  split; [reflexivity|]. split; [assumption|]. split.
  - intros HT. apply (Hsteps 0 HT).
  - intros t [Ht0 HtT]. specialize (Hsteps t HtT).
    destruct t as [|t]; [lia|]. simpl in *. now rewrite Nat.sub_0_r.
Qed.
End AnyCell.

























(** A well-shaped FastGRNN cell with entrywise nonlinearities is a cell as
    the unrolling theorem asks for. *)
Lemma FastGRNN_call_ok (c : FastGRNNCell.t) (gateNL updateNL : num -> num)
    (B : nat) (x h : Tensor) :
  FastGRNNCell.well_shaped c ->
  elementwise (FastGRNNCell.gate_nonlinearity c) gateNL ->
  elementwise (FastGRNNCell.update_nonlinearity c) updateNL ->
  shape x = (B, FastGRNNCell.input_size c) ->
  shape h = (B, FastGRNNCell.hidden_size c) ->
  exists h', call c x (Hidden h) = Ok (Hidden h') /\
             shape h' = (B, output_size c) /\ wf h'.
Proof.
  intros Hc Hg Hu Hx Hh.
  exists (FastGRNN_update c gateNL updateNL x h). split; [|split].
  - change (call c x (Hidden h)) with (fmap Hidden (FastGRNNCell.forward c x h)).
    now rewrite (FastGRNN_forward_update Hc Hx Hh Hg Hu).
  - apply shape_inv in Hx. destruct Hx as [Hx _].
    unfold FastGRNN_update, shape. simpl. now rewrite Hx.
  - apply wf_tabulate.
Qed.

End Unroller.

Lemma fastgrnn34_well_shaped : FastGRNNCell.well_shaped Samples.fastgrnn34.
Proof. repeat split. Qed.

Lemma unroll_batch_first_witness :
  exists out,
    BaseRNN.forward (BaseRNN.mk Samples.fastgrnn34 true) Samples.input253
      None None = Ok (Out out) /\
    shape3 out = (2, 5, output_size Samples.fastgrnn34) /\
    (0 < 5 ->
     call Samples.fastgrnn34 (select1 Samples.input253 0)
       (Hidden (zeros 2 (output_size Samples.fastgrnn34))) =
     Ok (Hidden (select1 out 0))) /\
    (forall t, 0 < t < 5 ->
     call Samples.fastgrnn34 (select1 Samples.input253 t)
       (Hidden (select1 out (t - 1))) =
     Ok (Hidden (select1 out t))).
Proof.
  apply unroll_batch_first with (I := 3).
  - reflexivity.
  - reflexivity.
  - intros x h Hx _ Hh _.
    exact (FastGRNN_call_ok fastgrnn34_well_shaped
             elementwise_sigmoid elementwise_tanh Hx Hh).
Defined.






(** * Model size, nonlinearities and the FastRNN wrapper *)

Section Remaining.
Context {SC : Scalar}.

(** C6. getModelSize of a FastGRNN cell, whatever its sparsities and so
    also with wSparsity = uSparsity = 1.0, returns no integer: after the
    weights are counted, [mats.len()] looks up the attribute [len] of a
    list and raises AttributeError. *)
Theorem getModelSize_raises (self : FastGRNNCell.t) :
  FastGRNNCell.getModelSize self = Raise AttributeError.
Proof.
  unfold FastGRNNCell.getModelSize, FastGRNNCell.getVars,
    FastGRNNCell.num_weight_matrices.
  destruct (FastGRNNCell.W self), (FastGRNNCell.U self); reflexivity.
Qed.

(** C7. For a selector that is none of the six recognized names,
    gen_nonlinearity returns [selector(A)] when the selector is callable;
    otherwise it raises TypeError, not ValueError: the message of the
    ValueError applies unary plus to a string. *)
Theorem gen_nonlinearity_unrecognized (A : Tensor) (nonlinearity : pyval) :
  is_recognized nonlinearity = false ->
  gen_nonlinearity A nonlinearity =
  match nonlinearity with
  | PCallable f => f A
  | _ => Raise TypeError
  end.
Proof.
  unfold is_recognized, recognized. cbn [existsb].
  rewrite !orb_false_iff. intros (H1 & H2 & H3 & H4 & H5 & H6 & _).
  unfold gen_nonlinearity. rewrite H1, H2, H3, H4, H5, H6.
  destruct nonlinearity; reflexivity.
Qed.

(** C8. For every tensor [A], gen_nonlinearity(A, "relu") raises TypeError:
    torch.relu is called with two arguments and takes one. *)
Theorem gen_nonlinearity_relu (A : Tensor) :
  gen_nonlinearity A (PStr "relu") = Raise TypeError.
Proof. reflexivity. Qed.

Lemma bind_positional_raises params args e :
  bind_positional params args = Raise e -> e = TypeError.
Proof.
  revert params. induction args as [|a args IH]; intros params; simpl.
  - congruence.
  - destruct params as [|[n d] params]; [congruence|].
    destruct (bind_positional params args) as [r|e'] eqn:E; simpl.
    + congruence.
    + intros H. inversion H; subst. eapply IH; eauto.
Qed.

Lemma bind_keywords_raises env0 rest kwargs e :
  bind_keywords env0 rest kwargs = Raise e -> e = TypeError.
Proof.
  revert env0. induction kwargs as [|[k v] kwargs IH]; intros env0; simpl.
  - congruence.
  - destruct (has_name k rest && negb (has_name k env0)); [apply IH|congruence].
Qed.

Lemma bind_defaults_raises env0 rest e :
  bind_defaults env0 rest = Raise e -> e = TypeError.
Proof.
  revert env0. induction rest as [|[n d] rest IH]; intros env0; simpl.
  - congruence.
  - destruct (has_name n env0); [apply IH|].
    destruct d as [v|]; [apply IH|congruence].
Qed.

Lemma bind_call_raises params args kwargs e :
  bind_call params args kwargs = Raise e -> e = TypeError.
Proof.
  unfold bind_call.
  destruct (bind_positional params args) as [r|e1] eqn:E1; simpl.
  - destruct (bind_keywords (fst r) (snd r) kwargs) as [env1|e2] eqn:E2; simpl.
    + apply bind_defaults_raises.
    + intros H. inversion H; subst. eapply bind_keywords_raises; eauto.
  - intros H. inversion H; subst. eapply bind_positional_raises; eauto.
Qed.

(** FastRNNCell.__init__ has no parameter [gate_nonlinearity]. *)
Lemma FastRNNCell_rejects_gate_nonlinearity noise a b v kwargs :
  FastRNNCellInit.__init__ noise [a; b] (("gate_nonlinearity"%string, v) :: kwargs) =
  Raise TypeError.
Proof. reflexivity. Qed.

Lemma FastRNN_init_raises noise args kwargs :
  FastRNN.__init__ noise args kwargs = Raise TypeError.
Proof.
  unfold FastRNN.__init__.
  destruct (bind_call FastRNN.params args kwargs) as [e|e] eqn:E; cbn [bind].
  - now rewrite FastRNNCell_rejects_gate_nonlinearity.
  - apply bind_call_raises in E. now subst.
Qed.

Lemma FastRNNCell_init_ok noise (input_size hidden_size : nat) :
  exists c,
    FastRNNCellInit.__init__ noise
      [PInt (Z.of_nat input_size); PInt (Z.of_nat hidden_size)] [] = Ok c /\
    FastRNNCell.well_shaped c /\
    FastRNNCell.input_size c = input_size /\
    FastRNNCell.hidden_size c = hidden_size.
Proof.
  unfold FastRNNCellInit.__init__.
  cbn [bind_call bind_positional FastRNNCellInit.params bind fst snd
       bind_keywords].
  cbn. unfold FastRNNCellInit.init_weight, torch_randn, torch_ones, as_size.
  assert (Hi : (Z.of_nat input_size <? 0)%Z = false) by (apply Z.ltb_ge; lia).
  assert (Hh : (Z.of_nat hidden_size <? 0)%Z = false) by (apply Z.ltb_ge; lia).
  rewrite Hi, Hh. cbn. rewrite !Nat2Z.id.
  eexists. split; [reflexivity|].
  repeat split.
Qed.

(** C10. Whatever the arguments, constructing the wrapper FastRNN raises
    TypeError: its __init__ passes the keyword [gate_nonlinearity] to
    FastRNNCell, whose __init__ has no such parameter; FastRNNCell itself
    is constructed without error from an input size and a hidden size. *)
Theorem FastRNN_unusable (noise : nat -> nat -> nat -> num) :
  (forall args kwargs, FastRNN.__init__ noise args kwargs = Raise TypeError) /\
  has_name "gate_nonlinearity" FastRNNCellInit.params = false /\
  (forall input_size hidden_size : nat,
     exists c,
       FastRNNCellInit.__init__ noise
         [PInt (Z.of_nat input_size); PInt (Z.of_nat hidden_size)] [] = Ok c /\
       FastRNNCell.well_shaped c).
Proof.
  split; [|split].
  - apply FastRNN_init_raises.
  - reflexivity.
  - intros i h. destruct (FastRNNCell_init_ok noise i h) as (c & H1 & H2 & _).
    now exists c.
Qed.

End Remaining.

Lemma gen_nonlinearity_unrecognized_witness :
  gen_nonlinearity Samples.x32 (PInt 3) = Raise TypeError.
Proof.
  exact (gen_nonlinearity_unrecognized Samples.x32 (PInt 3) eq_refl).
Defined.

(** * The update equations of FastRNN, UGRNN-LR and LSTM-LR *)

Section MoreUpdateEquations.
Context {SC : Scalar}.

Ltac row_shape :=
  first [now apply expandable_row
        | apply expandable_row; unfold shape; congruence].

Lemma weight_product_tab w (v : Tensor) B inp out :
  FastRNNCell.weight_shaped w inp out -> rows v = B -> cols v = inp ->
  match w with
  | Full W => matmul v W
  | LowRank W1 W2 => y <- matmul v W1 ;; matmul y W2
  end = Ok (tabulate B out (lin_weight w v)).
Proof.
  intros HW Hr Hc. destruct w as [W|W1 W2]; cbn [FastRNNCell.weight_shaped] in *.
  - apply shape_inv in HW. destruct HW as [H1 H2].
    rewrite (matmul_tab v W Hr Hc H1 H2). unfold lin_weight, lin.
    now rewrite H1.
  - destruct HW as (r & H1 & H2). apply shape_inv in H1, H2.
    destruct H1 as [H1r H1c], H2 as [H2r H2c].
    rewrite (matmul_tab v W1 Hr Hc H1r H1c). cbn [bind].
    erewrite matmul_tab; [|reflexivity|reflexivity|exact H2r|exact H2c].
    f_equal. unfold lin_weight, lin. cbn [rows cols tabulate].
    now rewrite Hr, H1r, H1c, H2r.
Qed.

Lemma broadcast2_scalar_l f (a b : Tensor) B H :
  shape a = (1, 1) -> shape b = (B, H) ->
  broadcast2 f a b =
  Ok (tabulate B H (fun i j => f (get a 0 0) (get b i j))).
Proof.
  intros Ha Hb. apply shape_inv in Ha, Hb.
  destruct Ha as [Ha1 Ha2], Hb as [Hb1 Hb2].
  rewrite (@broadcast2_shape _ f a b B H)
    by (rewrite ?Ha1, ?Ha2, ?Hb1, ?Hb2; apply bdim_1_l).
  f_equal. apply tabulate_ext. intros i j Hi Hj.
  rewrite (bget_scalar a i j Ha1 Ha2). now rewrite bget_get by lia.
Qed.

Lemma shape_tmap f (t : Tensor) : shape (tmap f t) = shape t.
Proof. reflexivity. Qed.

Lemma FastRNN_forward_update (self : FastRNNCell.t) (x h : Tensor)
    (B : nat) (updateNL : num -> num) :
  FastRNNCell.well_shaped self ->
  shape x = (B, FastRNNCell.input_size self) ->
  shape h = (B, FastRNNCell.hidden_size self) ->
  elementwise (FastRNNCell.update_nonlinearity self) updateNL ->
  FastRNNCell.forward self x h = Ok (FastRNN_update self updateNL x h).
Proof.
  intros (HW & HU & Hbu & Ha & Hb) Hx Hh Hu.
  set (H := FastRNNCell.hidden_size self) in *.
  set (I := FastRNNCell.input_size self) in *.
  unfold FastRNNCell.forward.
  pose proof (shape_inv Hx) as [Hx1 Hx2].
  pose proof (shape_inv Hh) as [Hh1 Hh2].
  rewrite (@weight_product_tab (FastRNNCell.W self) x B I H HW Hx1 Hx2). cbn [bind].
  rewrite (@weight_product_tab (FastRNNCell.U self) h B H H HU Hh1 Hh2). cbn [bind].
  unfold tadd, tmul.
  rewrite broadcast2_same. cbn [bind].
  rewrite broadcast2_tab_l by row_shape. cbn [bind].
  rewrite Hu, tmap_tab. cbn [bind].
  rewrite (@broadcast2_scalar_l rmul (tmap sigmoid (FastRNNCell.beta self)) h B H)
    by (rewrite ?shape_tmap; assumption).
  cbn [bind].
  rewrite broadcast2_tab_r
    by (apply expandable_scalar; rewrite shape_tmap; assumption).
  cbn [bind]. rewrite broadcast2_same. f_equal.
  unfold FastRNN_update. fold H. rewrite Hx1.
  apply shape_inv in Hbu, Ha, Hb.
  destruct Hbu as [Hbu1 Hbu2], Ha as [Ha1 Ha2], Hb as [Hb1 Hb2].
  apply tabulate_ext. intros b j Hb Hj.
  rewrite (bget_row (FastRNNCell.bias_update self)) by (try assumption; lia).
  rewrite (bget_scalar (tmap sigmoid (FastRNNCell.alpha self))) by assumption.
  unfold tmap. rewrite Ha1, Ha2, Hb1, Hb2, !get_tabulate by lia.
  reflexivity.
Qed.

Lemma UGRNNLR_forward_update (self : UGRNNLRCell.t) (x h : Tensor)
    (B : nat) (gateNL updateNL : num -> num) :
  UGRNNLRCell.well_shaped self ->
  shape x = (B, UGRNNLRCell.input_size self) ->
  shape h = (B, UGRNNLRCell.hidden_size self) ->
  elementwise (UGRNNLRCell.gate_nonlinearity self) gateNL ->
  elementwise (UGRNNLRCell.update_nonlinearity self) updateNL ->
  UGRNNLRCell.forward self x h = Ok (UGRNNLR_update self gateNL updateNL x h).
Proof.
  intros (HW1 & HW2 & HU1 & HU2 & Hbg & Hbu) Hx Hh Hg Hu.
  set (H := UGRNNLRCell.hidden_size self) in *.
  set (I := UGRNNLRCell.input_size self) in *.
  unfold UGRNNLRCell.forward.
  assert (Hhe := expandable_shape Hh).
  apply shape_inv in Hx, Hh, Hbg, Hbu.
  destruct Hbg as [Hbg1 Hbg2], Hbu as [Hbu1 Hbu2],
    Hx as [Hx1 Hx2], Hh as [Hh1 Hh2].
  rewrite (project_tab _ _ x _ HW1 Hx1 Hx2). cbn [bind].
  rewrite (project_tab _ _ x _ HW2 Hx1 Hx2). cbn [bind].
  rewrite (project_tab _ _ h _ HU1 Hh1 Hh2). cbn [bind].
  rewrite (project_tab _ _ h _ HU2 Hh1 Hh2). cbn [bind].
  unfold tadd, tmul, one_minus.
  rewrite !broadcast2_same. cbn [bind].
  rewrite broadcast2_tab_l by row_shape. cbn [bind].
  rewrite Hg, tmap_tab. cbn [bind].
  rewrite broadcast2_tab_l by row_shape. cbn [bind].
  rewrite Hu, tmap_tab. cbn [bind].
  rewrite broadcast2_tab_l by exact Hhe. cbn [bind].
  rewrite tmap_tab, broadcast2_same. cbn [bind].
  rewrite broadcast2_same. f_equal.
  unfold UGRNNLR_update. fold H. rewrite Hx1.
  apply tabulate_ext. intros b j Hb Hj.
  rewrite !(bget_row (UGRNNLRCell.bias_gate self)) by (try assumption; lia).
  rewrite !(bget_row (UGRNNLRCell.bias_update self)) by (try assumption; lia).
  rewrite !(bget_get h) by lia.
  reflexivity.
Qed.

Lemma LSTMLR_forward_update (self : LSTMLRCell.t) (x h c : Tensor)
    (B : nat) (gateNL updateNL : num -> num) :
  LSTMLRCell.well_shaped self ->
  shape x = (B, LSTMLRCell.input_size self) ->
  shape h = (B, LSTMLRCell.hidden_size self) ->
  shape c = (B, LSTMLRCell.hidden_size self) ->
  elementwise (LSTMLRCell.gate_nonlinearity self) gateNL ->
  elementwise (LSTMLRCell.update_nonlinearity self) updateNL ->
  LSTMLRCell.forward self x (h, c) =
  Ok (LSTMLR_new_h self gateNL updateNL x h c,
      LSTMLR_new_c self gateNL updateNL x h c).
Proof.
  intros (HW1 & HW2 & HW3 & HW4 & HU1 & HU2 & HU3 & HU4
          & Hbf & Hbi & Hbc & Hbo) Hx Hh Hc Hg Hu.
  set (H := LSTMLRCell.hidden_size self) in *.
  set (I := LSTMLRCell.input_size self) in *.
  unfold LSTMLRCell.forward.
  assert (Hce := expandable_shape Hc).
  apply shape_inv in Hx, Hh, Hc, Hbf, Hbi, Hbc, Hbo.
  destruct Hbf as [Hbf1 Hbf2], Hbi as [Hbi1 Hbi2], Hbc as [Hbc1 Hbc2],
    Hbo as [Hbo1 Hbo2], Hx as [Hx1 Hx2], Hh as [Hh1 Hh2], Hc as [Hc1 Hc2].
  rewrite (project_tab _ _ x _ HW1 Hx1 Hx2). cbn [bind].
  rewrite (project_tab _ _ x _ HW2 Hx1 Hx2). cbn [bind].
  rewrite (project_tab _ _ x _ HW3 Hx1 Hx2). cbn [bind].
  rewrite (project_tab _ _ x _ HW4 Hx1 Hx2). cbn [bind].
  rewrite (project_tab _ _ h _ HU1 Hh1 Hh2). cbn [bind].
  rewrite (project_tab _ _ h _ HU2 Hh1 Hh2). cbn [bind].
  rewrite (project_tab _ _ h _ HU3 Hh1 Hh2). cbn [bind].
  rewrite (project_tab _ _ h _ HU4 Hh1 Hh2). cbn [bind].
  unfold tadd, tmul.
  rewrite !broadcast2_same. cbn [bind].
  rewrite broadcast2_tab_l by row_shape. cbn [bind].
  rewrite Hg, tmap_tab. cbn [bind].
  rewrite broadcast2_tab_l by row_shape. cbn [bind].
  rewrite Hg, tmap_tab. cbn [bind].
  rewrite broadcast2_tab_l by row_shape. cbn [bind].
  rewrite Hg, tmap_tab. cbn [bind].
  rewrite broadcast2_tab_l by row_shape. cbn [bind].
  rewrite Hu, tmap_tab. cbn [bind].
  rewrite broadcast2_tab_l by exact Hce. cbn [bind].
  rewrite broadcast2_same. cbn [bind].
  rewrite broadcast2_same. cbn [bind].
  rewrite Hu, tmap_tab. cbn [bind].
  rewrite broadcast2_same. cbn [bind].
  f_equal. f_equal.
  - unfold LSTMLR_new_h, LSTMLR_new_c, LSTMLR_pre. fold H. rewrite Hx1.
    apply tabulate_ext. intros b j Hb Hj.
    rewrite get_tabulate by assumption.
    rewrite (bget_row (LSTMLRCell.bias_o self)) by (try assumption; lia).
    rewrite (bget_row (LSTMLRCell.bias_f self)) by (try assumption; lia).
    rewrite (bget_row (LSTMLRCell.bias_i self)) by (try assumption; lia).
    rewrite (bget_row (LSTMLRCell.bias_c self)) by (try assumption; lia).
    now rewrite (bget_get c) by lia.
  - unfold LSTMLR_new_c, LSTMLR_pre. fold H. rewrite Hx1.
    apply tabulate_ext. intros b j Hb Hj.
    rewrite (bget_row (LSTMLRCell.bias_f self)) by (try assumption; lia).
    rewrite (bget_row (LSTMLRCell.bias_i self)) by (try assumption; lia).
    rewrite (bget_row (LSTMLRCell.bias_c self)) by (try assumption; lia).
    now rewrite (bget_get c) by lia.
Qed.

End MoreUpdateEquations.

Section MoreCellTheorems.
Context {SC : Scalar}.

Lemma shape_tabulate r c f : shape (tabulate r c f) = (r, c).
Proof. reflexivity. Qed.

(** X1. The forward of a FastRNN cell (parameter shapes as __init__ gives
    them, update nonlinearity acting entry by entry) on a batch [x] of
    shape [B, I] and a state [h] of shape [B, H] returns the tensor of
    shape [B, H] with entries
    [sigmoid(beta)*h + sigmoid(alpha)*updateNL(W.x + U.h + b)], where a
    low-rank weight projects first by its factor [W1] and then by [W2]. *)
Theorem FastRNN_forward_equation (self : FastRNNCell.t) (x h : Tensor)
    (B : nat) (updateNL : num -> num) :
  FastRNNCell.well_shaped self ->
  shape x = (B, FastRNNCell.input_size self) ->
  shape h = (B, FastRNNCell.hidden_size self) ->
  elementwise (FastRNNCell.update_nonlinearity self) updateNL ->
  FastRNNCell.forward self x h = Ok (FastRNN_update self updateNL x h) /\
  shape (FastRNN_update self updateNL x h) = (B, FastRNNCell.hidden_size self).
Proof.
  intros Hc Hx Hh Hu. split.
  - now apply FastRNN_forward_update with (B := B).
  - apply shape_inv in Hx. destruct Hx as [Hx _].
    unfold FastRNN_update. now rewrite shape_tabulate, Hx.
Qed.

(** X2. The forward of a UGRNN-LR cell returns, for a batch of shape
    [B, I] and a state of shape [B, H], the tensor of shape [B, H] with
    [z = gateNL(W1.x + U1.h + b_g)], [c = updateNL(W2.x + U2.h + b_c)] and
    new state [z*h + (1-z)*c]. *)
Theorem UGRNNLR_forward_equation (self : UGRNNLRCell.t) (x h : Tensor)
    (B : nat) (gateNL updateNL : num -> num) :
  UGRNNLRCell.well_shaped self ->
  shape x = (B, UGRNNLRCell.input_size self) ->
  shape h = (B, UGRNNLRCell.hidden_size self) ->
  elementwise (UGRNNLRCell.gate_nonlinearity self) gateNL ->
  elementwise (UGRNNLRCell.update_nonlinearity self) updateNL ->
  UGRNNLRCell.forward self x h = Ok (UGRNNLR_update self gateNL updateNL x h) /\
  shape (UGRNNLR_update self gateNL updateNL x h) =
    (B, UGRNNLRCell.hidden_size self).
Proof.
  intros Hc Hx Hh Hg Hu. split.
  - now apply UGRNNLR_forward_update with (B := B).
  - apply shape_inv in Hx. destruct Hx as [Hx _].
    unfold UGRNNLR_update. now rewrite shape_tabulate, Hx.
Qed.

(** X3. The forward of an LSTM-LR cell on a batch of shape [B, I] and a
    pair of states [(h, c)] of shape [B, H] returns the pair
    [(o * updateNL(C'), C')] of tensors of shape [B, H], where
    [C' = f*c + i*c~]; the input gate [i] is computed from [W1], [U1] and
    [bias_i], the forget gate [f] from [W2], [U2] and [bias_f], the
    candidate [c~] from [W3], [U3] and [bias_c], the output gate [o] from
    [W4], [U4] and [bias_o]. *)
Theorem LSTMLR_forward_equation (self : LSTMLRCell.t) (x h c : Tensor)
    (B : nat) (gateNL updateNL : num -> num) :
  LSTMLRCell.well_shaped self ->
  shape x = (B, LSTMLRCell.input_size self) ->
  shape h = (B, LSTMLRCell.hidden_size self) ->
  shape c = (B, LSTMLRCell.hidden_size self) ->
  elementwise (LSTMLRCell.gate_nonlinearity self) gateNL ->
  elementwise (LSTMLRCell.update_nonlinearity self) updateNL ->
  LSTMLRCell.forward self x (h, c) =
    Ok (LSTMLR_new_h self gateNL updateNL x h c,
        LSTMLR_new_c self gateNL updateNL x h c) /\
  shape (LSTMLR_new_h self gateNL updateNL x h c) =
    (B, LSTMLRCell.hidden_size self) /\
  shape (LSTMLR_new_c self gateNL updateNL x h c) =
    (B, LSTMLRCell.hidden_size self).
Proof.
  intros Hc Hx Hh Hcs Hg Hu. split.
  - now apply LSTMLR_forward_update with (B := B).
  - apply shape_inv in Hx. destruct Hx as [Hx _].
    unfold LSTMLR_new_h, LSTMLR_new_c. now rewrite !shape_tabulate, Hx.
Qed.

(** Well-shaped cells are cells as the unrolling theorems ask for. *)
Lemma FastGRNN_steps_well (c : FastGRNNCell.t) (gateNL updateNL : num -> num)
    (B : nat) :
  FastGRNNCell.well_shaped c ->
  elementwise (FastGRNNCell.gate_nonlinearity c) gateNL ->
  elementwise (FastGRNNCell.update_nonlinearity c) updateNL ->
  steps_well c B (FastGRNNCell.input_size c).
Proof.
  intros Hc Hg Hu x h Hx _ Hh _.
  exact (FastGRNN_call_ok Hc Hg Hu Hx Hh).
Qed.

Lemma LSTMLR_steps_well2 (c : LSTMLRCell.t) (gateNL updateNL : num -> num)
    (B : nat) :
  LSTMLRCell.well_shaped c ->
  elementwise (LSTMLRCell.gate_nonlinearity c) gateNL ->
  elementwise (LSTMLRCell.update_nonlinearity c) updateNL ->
  steps_well2 c B (LSTMLRCell.input_size c).
Proof.
  intros Hc Hg Hu x h cs Hx _ Hh _ Hcs _.
  exists (LSTMLR_new_h c gateNL updateNL x h cs),
         (LSTMLR_new_c c gateNL updateNL x h cs).
  split.
  - change (call c x (HiddenCell h cs))
      with (fmap (fun hc => HiddenCell (fst hc) (snd hc))
              (LSTMLRCell.forward c x (h, cs))).
    now rewrite (LSTMLR_forward_update Hc Hx Hh Hcs Hg Hu).
  - apply shape_inv in Hx. destruct Hx as [Hx _].
    unfold LSTMLR_new_h, LSTMLR_new_c.
    rewrite !shape_tabulate, Hx. repeat split; apply wf_tabulate.
Qed.

End MoreCellTheorems.

Lemma fastrnn_well_shaped : FastRNNCell.well_shaped MoreSamples.fastrnn.
Proof. repeat split. exists 1. split; reflexivity. Qed.

Lemma ugrnnlr_well_shaped : UGRNNLRCell.well_shaped MoreSamples.ugrnnlr.
Proof. repeat split; exists 1; split; reflexivity. Qed.

Lemma lstmlr_well_shaped : LSTMLRCell.well_shaped MoreSamples.lstmlr.
Proof. repeat split; exists 1; split; reflexivity. Qed.

Lemma FastRNN_forward_equation_witness :
  FastRNNCell.forward MoreSamples.fastrnn Samples.x32 Samples.h32 =
    Ok (FastRNN_update MoreSamples.fastrnn tanh Samples.x32 Samples.h32) /\
  shape (FastRNN_update MoreSamples.fastrnn tanh Samples.x32 Samples.h32) =
    (3, 2).
Proof.
  apply FastRNN_forward_equation with (B := 3).
  - exact fastrnn_well_shaped.
  - reflexivity.
  - reflexivity.
  - apply elementwise_tanh.
Defined.

Lemma UGRNNLR_forward_equation_witness :
  UGRNNLRCell.forward MoreSamples.ugrnnlr Samples.x32 Samples.h32 =
    Ok (UGRNNLR_update MoreSamples.ugrnnlr sigmoid tanh Samples.x32 Samples.h32) /\
  shape (UGRNNLR_update MoreSamples.ugrnnlr sigmoid tanh Samples.x32 Samples.h32) =
    (3, 2).
Proof.
  apply UGRNNLR_forward_equation with (B := 3).
  - exact ugrnnlr_well_shaped.
  - reflexivity.
  - reflexivity.
  - apply elementwise_sigmoid.
  - apply elementwise_tanh.
Defined.

Lemma LSTMLR_forward_equation_witness :
  LSTMLRCell.forward MoreSamples.lstmlr Samples.x32 (Samples.h32, MoreSamples.c32) =
    Ok (LSTMLR_new_h MoreSamples.lstmlr sigmoid tanh Samples.x32 Samples.h32
          MoreSamples.c32,
        LSTMLR_new_c MoreSamples.lstmlr sigmoid tanh Samples.x32 Samples.h32
          MoreSamples.c32) /\
  shape (LSTMLR_new_h MoreSamples.lstmlr sigmoid tanh Samples.x32 Samples.h32
           MoreSamples.c32) = (3, 2) /\
  shape (LSTMLR_new_c MoreSamples.lstmlr sigmoid tanh Samples.x32 Samples.h32
           MoreSamples.c32) = (3, 2).
Proof.
  apply LSTMLR_forward_equation with (B := 3).
  - exact lstmlr_well_shaped.
  - reflexivity.
  - reflexivity.
  - reflexivity.
  - apply elementwise_sigmoid.
  - apply elementwise_tanh.
Defined.

(** * The rows of a batch do not interact *)

Section BatchRows.
Context {SC : Scalar}.

Lemma get_row (t : Tensor) (b k : nat) :
  k < cols t -> get (row t b) 0 k = get t b k.
Proof. intros Hk. unfold row. now rewrite get_tabulate by lia. Qed.

Lemma shape_row (t : Tensor) (b B n : nat) :
  shape t = (B, n) -> shape (row t b) = (1, n).
Proof.
  intros Ht. apply shape_inv in Ht. destruct Ht as [_ Hc].
  unfold row. now rewrite shape_tabulate, Hc.
Qed.

Lemma cols_dense (w : weight) (out inp : nat) :
  FastGRNNCell.weight_shaped w out inp -> cols (FastGRNNCell.dense w) = inp.
Proof.
  destruct w as [W|W1 W2]; cbn [FastGRNNCell.weight_shaped FastGRNNCell.dense].
  - intros HW. apply shape_inv in HW. tauto.
  - intros (r & H1 & H2). apply shape_inv in H1. unfold mm. simpl. tauto.
Qed.

(** X4. Row [b] of the state a FastGRNN cell returns for a batch is the state
    it returns for row [b] of the input and row [b] of the state alone. *)
Theorem FastGRNN_forward_rowwise (self : FastGRNNCell.t) (x h : Tensor)
    (B b : nat) (gateNL updateNL : num -> num) :
  FastGRNNCell.well_shaped self ->
  shape x = (B, FastGRNNCell.input_size self) ->
  shape h = (B, FastGRNNCell.hidden_size self) ->
  elementwise (FastGRNNCell.gate_nonlinearity self) gateNL ->
  elementwise (FastGRNNCell.update_nonlinearity self) updateNL ->
  b < B ->
  exists y yb,
    FastGRNNCell.forward self x h = Ok y /\
    FastGRNNCell.forward self (row x b) (row h b) = Ok yb /\
    row y b = yb.
Proof.
  intros Hc Hx Hh Hg Hu Hb.
  exists (FastGRNN_update self gateNL updateNL x h),
         (FastGRNN_update self gateNL updateNL (row x b) (row h b)).
  split; [exact (FastGRNN_forward_update Hc Hx Hh Hg Hu)|].
  split; [exact (FastGRNN_forward_update Hc (shape_row b Hx) (shape_row b Hh)
                   Hg Hu)|].
  destruct Hc as (HW & HU & _).
  apply cols_dense in HW, HU.
  apply shape_inv in Hx, Hh. destruct Hx as [Hx1 Hx2], Hh as [Hh1 Hh2].
  unfold row at 1, FastGRNN_update. cbn [rows cols tabulate].
  change (rows (row x b)) with 1.
  apply tabulate_ext. intros i j Hi Hj.
  assert (i = 0) by lia. subst i.
  rewrite get_tabulate by lia.
  assert (Ea : affine (FastGRNNCell.dense (FastGRNNCell.W self))
                 (FastGRNNCell.dense (FastGRNNCell.U self)) x h b j =
               affine (FastGRNNCell.dense (FastGRNNCell.W self))
                 (FastGRNNCell.dense (FastGRNNCell.U self))
                 (row x b) (row h b) 0 j).
  { unfold affine. f_equal; apply rsum_ext; intros k Hk;
      now rewrite get_row by lia. }
  rewrite Ea, (get_row h b) by lia. reflexivity.
Qed.

End BatchRows.

(** * More about the unroller *)

Section MoreUnroller.
Context {SC : Scalar} {C : Type} {cell_ops : RNNCell C}.

Lemma unroll_single (cell : C) (input : Tensor3) (B T I : nat)
    (hiddenState cellState : option Tensor) :
  String.eqb (cellType cell) "LSTMLR" = false ->
  shape3 input = (B, T, I) ->
  steps_well cell B I ->
  shape (BaseRNN.or_zeros hiddenState B (output_size cell)) =
    (B, output_size cell) ->
  wf (BaseRNN.or_zeros hiddenState B (output_size cell)) ->
  exists out,
    BaseRNN.forward (BaseRNN.mk cell true) input hiddenState cellState =
      Ok (Out out) /\
    shape3 out = (B, T, output_size cell) /\
    (forall t, t < T ->
       call cell (select1 input t)
         (Hidden (entering (BaseRNN.or_zeros hiddenState B (output_size cell))
                    out t)) =
       Ok (Hidden (select1 out t))).
Proof.
  intros Htype Hinput Hcell Hh0 Hwf0.
  destruct (@unroll_invariant SC C cell_ops cell input B T I Hinput Hcell
              _ Hh0 Hwf0 T (le_n T))
    as (h & buf & Hrun & Hbuf & Hh & Hwf & Hent & Hsteps).
  exists buf.
  pose proof (shape3_inv Hinput) as (H0 & H1 & H2).
  unfold BaseRNN.forward. cbn [BaseRNN._RNNCell BaseRNN._batch_first].
  rewrite Htype, H0, H1, Hrun. auto.
Qed.

Lemma or_zeros_None B H :
  shape (BaseRNN.or_zeros None B H) = (B, H) /\ wf (BaseRNN.or_zeros None B H).
Proof. split; [reflexivity | apply wf_tabulate]. Qed.

Lemma Ok_Hidden_inj (a b : Tensor) : Ok (Hidden a) = Ok (Hidden b) -> a = b.
Proof. intros H. now inversion H. Qed.

(** X5. Batch-first unrolling of a single-state cell from a supplied
    initial state [h0] of shape [B, hidden_size]: the result has shape
    [B, T, hidden_size]; step 0 is the cell's call on the first input and
    [h0] itself (no zero state is made), and every later step is the call
    on the input of that step and the output of the step before. *)
Theorem unroll_from_state (cell : C) (input : Tensor3) (B T I : nat)
    (h0 : Tensor) :
  String.eqb (cellType cell) "LSTMLR" = false ->
  shape3 input = (B, T, I) ->
  steps_well cell B I ->
  shape h0 = (B, output_size cell) -> wf h0 ->
  exists out,
    BaseRNN.forward (BaseRNN.mk cell true) input (Some h0) None = Ok (Out out) /\
    shape3 out = (B, T, output_size cell) /\
    (0 < T ->
     call cell (select1 input 0) (Hidden h0) = Ok (Hidden (select1 out 0))) /\
    (forall t, 0 < t < T ->
     call cell (select1 input t) (Hidden (select1 out (t - 1))) =
     Ok (Hidden (select1 out t))).
Proof.
  intros Htype Hinput Hcell Hh0 Hwf0.
  destruct (@unroll_single cell input B T I (Some h0) None Htype Hinput Hcell
              Hh0 Hwf0) as (out & Hrun & Hout & Hsteps).
  exists out. repeat split; try assumption.
  - intros HT. apply (Hsteps 0 HT).
  - intros t [Ht0 HtT]. specialize (Hsteps t HtT).
    destruct t as [|t]; [lia|]. simpl in *. now rewrite Nat.sub_0_r.
Qed.

Lemma select1_take_steps n (input : Tensor3) t :
  t < Nat.min n (dim1 input) ->
  select1 (take_steps n input) t = select1 input t.
Proof.
  intros Ht. unfold select1, take_steps. simpl.
  apply tabulate_ext. intros b k Hb Hk. now rewrite get3_tabulate3.
Qed.

Lemma select1_drop_steps n (input : Tensor3) s :
  s < dim1 input - n ->
  select1 (drop_steps n input) s = select1 input (n + s).
Proof.
  intros Hs. unfold select1, drop_steps. simpl.
  apply tabulate_ext. intros b k Hb Hk. now rewrite get3_tabulate3.
Qed.

(** X6. Unrolling composes: for [0 < n <= T], unrolling a sequence of [T]
    steps from the zero state gives, in its first [n] steps, what unrolling
    the first [n] steps alone gives, and in its remaining steps what
    unrolling the rest of the sequence gives when the last output of the
    first part is passed as [hiddenState]. *)
Theorem unroll_in_two_parts (cell : C) (input : Tensor3) (B T I n : nat) :
  String.eqb (cellType cell) "LSTMLR" = false ->
  shape3 input = (B, T, I) ->
  steps_well cell B I ->
  0 < n <= T ->
  exists out out1 out2,
    BaseRNN.forward (BaseRNN.mk cell true) input None None = Ok (Out out) /\
    BaseRNN.forward (BaseRNN.mk cell true) (take_steps n input) None None =
      Ok (Out out1) /\
    BaseRNN.forward (BaseRNN.mk cell true) (drop_steps n input)
      (Some (select1 out1 (n - 1))) None = Ok (Out out2) /\
    (forall s, s < n -> select1 out s = select1 out1 s) /\
    (forall s, s < T - n -> select1 out (n + s) = select1 out2 s).
Proof.
  intros Htype Hinput Hcell [Hn0 HnT].
  pose proof (shape3_inv Hinput) as (H0 & H1 & H2).
  set (H := output_size cell) in *.
  destruct (or_zeros_None B H) as [Hz Hzwf].
  destruct (@unroll_single cell input B T I None None Htype Hinput Hcell
              Hz Hzwf) as (out & Hrun & Hout & Hsteps).
  assert (Htake : shape3 (take_steps n input) = (B, n, I)).
  { unfold take_steps, shape3. simpl. rewrite H0, H1, H2.
    now rewrite Nat.min_l by lia. }
  destruct (@unroll_single cell (take_steps n input) B n I None None Htype
              Htake Hcell Hz Hzwf) as (out1 & Hrun1 & Hout1 & Hsteps1).
  pose proof (shape3_inv Hout1) as (Ho0 & Ho1 & Ho2).
  assert (Hh0 : shape (select1 out1 (n - 1)) = (B, H))
    by (unfold select1, shape; simpl; now rewrite Ho0, Ho2).
  assert (Hdrop : shape3 (drop_steps n input) = (B, T - n, I)).
  { unfold drop_steps, shape3. simpl. now rewrite H0, H1, H2. }
  destruct (@unroll_single cell (drop_steps n input) B (T - n) I
              (Some (select1 out1 (n - 1))) None Htype Hdrop Hcell
              Hh0 (wf_tabulate _ _ _)) as (out2 & Hrun2 & Hout2 & Hsteps2).
  assert (Hpre : forall s, s < n -> select1 out s = select1 out1 s).
  { intros s Hs.
    assert (Hp : forall k, k < n ->
              forall t, t <= k -> select1 out t = select1 out1 t).
    { induction k as [|k IH]; intros Hk t Ht.
      - assert (t = 0) by lia. subst t.
        specialize (Hsteps 0 ltac:(lia)). specialize (Hsteps1 0 ltac:(lia)).
        rewrite select1_take_steps in Hsteps1 by (rewrite H1; lia).
        simpl in Hsteps, Hsteps1. rewrite Hsteps in Hsteps1.
        now apply Ok_Hidden_inj.
      - destruct (Nat.eq_dec t (S k)) as [->|Hne]; [|apply IH; lia].
        specialize (Hsteps (S k) ltac:(lia)).
        specialize (Hsteps1 (S k) ltac:(lia)).
        rewrite select1_take_steps in Hsteps1 by (rewrite H1; lia).
        simpl in Hsteps, Hsteps1.
        rewrite (IH ltac:(lia) k (le_n k)) in Hsteps.
        rewrite Hsteps in Hsteps1. now apply Ok_Hidden_inj. }
    apply (Hp s Hs s (le_n s)). }
  assert (Hpost : forall s, s < T - n ->
            forall t, t <= s -> select1 out (n + t) = select1 out2 t).
  { induction s as [|s IH]; intros Hs t Ht.
    - assert (t = 0) by lia. subst t.
      specialize (Hsteps (n + 0) ltac:(lia)).
      specialize (Hsteps2 0 ltac:(lia)).
      rewrite select1_drop_steps in Hsteps2 by (rewrite H1; lia).
      replace (n + 0) with (S (n - 1)) in Hsteps at 2 by lia.
      simpl in Hsteps, Hsteps2.
      rewrite (Hpre (n - 1) ltac:(lia)) in Hsteps.
      rewrite Hsteps in Hsteps2. now apply Ok_Hidden_inj.
    - destruct (Nat.eq_dec t (S s)) as [->|Hne]; [|apply IH; lia].
      specialize (Hsteps (n + S s) ltac:(lia)).
      specialize (Hsteps2 (S s) ltac:(lia)).
      rewrite select1_drop_steps in Hsteps2 by (rewrite H1; lia).
      replace (n + S s) with (S (n + s)) in Hsteps at 2 by lia.
      simpl in Hsteps, Hsteps2.
      rewrite (IH ltac:(lia) s (le_n s)) in Hsteps.
      rewrite Hsteps in Hsteps2. now apply Ok_Hidden_inj. }
  exists out, out1, out2. repeat split; try assumption.
  intros s Hs. apply (Hpost s Hs s (le_n s)).
Qed.

End MoreUnroller.

Section DualUnroller.
Context {SC : Scalar} {C : Type} {cell_ops : RNNCell C}.

Section Unroll2.
Variable cell : C.
Variable input : Tensor3.
Variables B T I : nat.
Hypothesis Hinput : shape3 input = (B, T, I).
Let H := output_size cell.
Hypothesis Hcell : steps_well2 cell B I.
Variables h0 c0 : Tensor.
Hypothesis Hh0 : shape h0 = (B, H).
Hypothesis Hwfh0 : wf h0.
Hypothesis Hc0 : shape c0 = (B, H).
Hypothesis Hwfc0 : wf c0.

Lemma unroll_invariant2 n :
  n <= T ->
  exists h c hs cs,
    for_each (range 0 n) (BaseRNN.step2 cell (select1 input) setitem1)
      (h0, c0, zeros3 B T H, zeros3 B T H) = Ok (h, c, hs, cs) /\
    shape3 hs = (B, T, H) /\ shape3 cs = (B, T, H) /\
    shape h = (B, H) /\ wf h /\ shape c = (B, H) /\ wf c /\
    h = entering h0 hs n /\ c = entering c0 cs n /\
    (forall t, t < n ->
       call cell (select1 input t)
         (HiddenCell (entering h0 hs t) (entering c0 cs t)) =
       Ok (HiddenCell (select1 hs t) (select1 cs t))).
Proof.
  induction n as [|n IH]; intros Hn.
  - exists h0, c0, (zeros3 B T H), (zeros3 B T H).
    repeat split; auto. intros t Ht. lia.
  - destruct IH as (h & c & hs & cs & Hrun & Hhs & Hcs & Hh & Hwfh & Hc & Hwfc
                    & Henth & Hentc & Hsteps); [lia|].
    pose proof (shape3_inv Hinput) as (Hi0 & Hi1 & Hi2).
    assert (Hx : shape (select1 input n) = (B, I))
      by (unfold select1, shape; simpl; congruence).
    destruct (Hcell Hx (wf_tabulate _ _ _) Hh Hwfh Hc Hwfc)
      as (h' & c' & Hcall & Hh' & Hwfh' & Hc' & Hwfc').
    destruct (@select1_setitem1_same SC hs n h' B T H Hhs Hh' Hwfh')
      as (hs' & Hset & Hhs' & Hsame & Hother); [lia|].
    destruct (@select1_setitem1_same SC cs n c' B T H Hcs Hc' Hwfc')
      as (cs' & Hsetc & Hcs' & Hsamec & Hotherc); [lia|].
    exists h', c', hs', cs'.
    assert (He : forall t, t <= n -> entering h0 hs' t = entering h0 hs t).
    { intros [|t] Ht; simpl; [reflexivity|]. apply Hother; lia. }
    assert (Hec : forall t, t <= n -> entering c0 cs' t = entering c0 cs t).
    { intros [|t] Ht; simpl; [reflexivity|]. apply Hotherc; lia. }
    split.
    { rewrite range_S, for_each_app, Hrun. cbn [bind for_each].
      unfold BaseRNN.step2. rewrite Hcall. cbn [bind].
      rewrite Hset. cbn [bind]. rewrite Hsetc. reflexivity. }
    repeat split; auto.
    intros t Ht. rewrite He, Hec by lia.
    destruct (Nat.eq_dec t n) as [->|Hne].
    + rewrite <- Henth, <- Hentc, Hsame, Hsamec. exact Hcall.
    + rewrite Hother, Hotherc by lia. apply Hsteps. lia.
Qed.

End Unroll2.

(** X7. Batch-first unrolling of a cell whose [cellType] is ["LSTMLR"]:
    the unroller returns the pair [(hiddenStates, cellStates)], both of
    shape [B, T, hidden_size]; step 0 calls the cell on the first input and
    the pair of zero states, and every later step calls it on the input of
    that step and the pair of outputs of the step before. *)
Theorem unroll_dual_state (cell : C) (input : Tensor3) (B T I : nat) :
  String.eqb (cellType cell) "LSTMLR" = true ->
  shape3 input = (B, T, I) ->
  steps_well2 cell B I ->
  exists hs cs,
    BaseRNN.forward (BaseRNN.mk cell true) input None None =
      Ok (OutPair hs cs) /\
    shape3 hs = (B, T, output_size cell) /\
    shape3 cs = (B, T, output_size cell) /\
    (0 < T ->
     call cell (select1 input 0)
       (HiddenCell (zeros B (output_size cell)) (zeros B (output_size cell))) =
     Ok (HiddenCell (select1 hs 0) (select1 cs 0))) /\
    (forall t, 0 < t < T ->
     call cell (select1 input t)
       (HiddenCell (select1 hs (t - 1)) (select1 cs (t - 1))) =
     Ok (HiddenCell (select1 hs t) (select1 cs t))).
Proof.
  intros Htype Hinput Hcell.
  destruct (@unroll_invariant2 cell input B T I Hinput Hcell
              (zeros B (output_size cell)) (zeros B (output_size cell))
              eq_refl (wf_tabulate _ _ _) eq_refl (wf_tabulate _ _ _)
              T (le_n T))
    as (h & c & hs & cs & Hrun & Hhs & Hcs & _ & _ & _ & _ & _ & _ & Hsteps).
  exists hs, cs.
  pose proof (shape3_inv Hinput) as (H0 & H1 & H2).
  unfold BaseRNN.forward. cbn [BaseRNN._RNNCell BaseRNN._batch_first].
  rewrite Htype. cbn [BaseRNN.or_zeros]. rewrite H0, H1, Hrun.
  split; [reflexivity|]. repeat split; try assumption.
  - intros HT. apply (Hsteps 0 HT).
  - intros t [Ht0 HtT]. specialize (Hsteps t HtT).
    destruct t as [|t]; [lia|]. simpl in *. now rewrite Nat.sub_0_r.
Qed.

(** *** What a failing step does *)

Lemma range_split t T : t <= T -> range 0 T = range 0 t ++ range t T.
Proof.
  intros H. unfold range. rewrite !Nat.sub_0_r.
  replace T with (t + (T - t)) at 1 by lia. now rewrite seq_app.
Qed.

Lemma range_first t T : t < T -> range t T = t :: range (S t) T.
Proof.
  intros H. unfold range. replace (T - t) with (S (T - S t)) by lia.
  reflexivity.
Qed.

Lemma setitem1_dims buf i v buf' :
  setitem1 buf i v = Ok buf' -> shape3 buf' = shape3 buf.
Proof.
  unfold setitem1. destruct (expandable v (dim0 buf) (dim2 buf)); [|discriminate].
  intros E. inversion E. reflexivity.
Qed.

Lemma prefix_runs (cell : C) (input buf0 : Tensor3) (B T H : nat)
    (states : nat -> Tensor) t :
  shape3 buf0 = (B, T, H) ->
  (forall s, s < t ->
     call cell (select1 input s) (Hidden (states s)) =
       Ok (Hidden (states (S s))) /\
     expandable (states (S s)) B H = true) ->
  exists buf,
    for_each (range 0 t) (BaseRNN.step cell (select1 input) setitem1)
      (states 0, buf0) = Ok (states t, buf) /\
    shape3 buf = (B, T, H).
Proof.
  intros Hbuf0. induction t as [|t IH]; intros Hs.
  - exists buf0. split; [reflexivity | assumption].
  - destruct IH as (buf & Hrun & Hbuf); [intros s Hlt; apply Hs; lia|].
    destruct (Hs t (Nat.lt_succ_diag_r t)) as [Hcall Hexp].
    pose proof (shape3_inv Hbuf) as (H0 & H1 & H2).
    assert (Hset : exists buf', setitem1 buf t (states (S t)) = Ok buf')
      by (unfold setitem1; rewrite H0, H2, Hexp; eauto).
    destruct Hset as (buf' & Hset). exists buf'. split.
    + rewrite range_S, for_each_app, Hrun. cbn [bind for_each].
      unfold BaseRNN.step. rewrite Hcall. cbn [bind]. now rewrite Hset.
    + rewrite (setitem1_dims _ _ _ Hset). exact Hbuf.
Qed.

(** X8. An exception of the cell ends the unrolling: if the calls of steps
    [0 .. t-1] return states that fit the output buffer and the call of
    step [t] raises [e], then the unroller raises [e], whatever the later
    inputs are. *)
Theorem unroll_raises (cell : C) (input : Tensor3)
    (hiddenState cellState : option Tensor) (states : nat -> Tensor)
    (t : nat) (e : exn) :
  String.eqb (cellType cell) "LSTMLR" = false ->
  states 0 = BaseRNN.or_zeros hiddenState (dim0 input) (output_size cell) ->
  t < dim1 input ->
  (forall s, s < t ->
     call cell (select1 input s) (Hidden (states s)) =
       Ok (Hidden (states (S s))) /\
     expandable (states (S s)) (dim0 input) (output_size cell) = true) ->
  call cell (select1 input t) (Hidden (states t)) = Raise e ->
  BaseRNN.forward (BaseRNN.mk cell true) input hiddenState cellState = Raise e.
Proof.
  intros Htype H0 Ht Hs Hfail.
  destruct (@prefix_runs cell input
              (zeros3 (dim0 input) (dim1 input) (output_size cell))
              (dim0 input) (dim1 input) (output_size cell) states t
              eq_refl Hs) as (buf & Hrun & _).
  unfold BaseRNN.forward. cbn [BaseRNN._RNNCell BaseRNN._batch_first].
  rewrite Htype, <- H0.
  rewrite (range_split (t := t) (T := dim1 input)) by lia.
  rewrite for_each_app, Hrun. cbn [bind].
  rewrite range_first by assumption. cbn [for_each].
  unfold BaseRNN.step. rewrite Hfail. reflexivity.
Qed.

End DualUnroller.

(** * Construction, and the wrappers end to end *)

Section Sizes.
Context {SC : Scalar}.

Ltac row_shape :=
  first [now apply expandable_row
        | apply expandable_row; unfold shape; congruence].

Lemma as_size_nat (n : nat) : as_size (PInt (Z.of_nat n)) = Ok n.
Proof.
  unfold as_size.
  replace (Z.of_nat n <? 0)%Z with false by (symmetry; apply Z.ltb_ge; lia).
  now rewrite Nat2Z.id.
Qed.

Lemma init_weight_shape noise k (r c : nat) (a b : pyval) :
  as_size a = Ok r -> as_size b = Ok c ->
  exists W, FastRNNCellInit.init_weight noise k a b = Ok W /\ shape W = (r, c).
Proof.
  intros Ha Hb. unfold FastRNNCellInit.init_weight, torch_randn.
  rewrite Ha, Hb. cbn [bind]. eexists. split; reflexivity.
Qed.

Lemma torch_ones_shape (r c : nat) (a b : pyval) :
  as_size a = Ok r -> as_size b = Ok c ->
  torch_ones a b = Ok (ones r c).
Proof. intros Ha Hb. unfold torch_ones. now rewrite Ha, Hb. Qed.

Lemma as_size_1 : as_size (PInt 1) = Ok 1.
Proof. reflexivity. Qed.

Lemma GRULR_forward_update (self : GRULRCell.t) (x h : Tensor)
    (B : nat) (gateNL updateNL : num -> num) :
  GRULRCell.well_shaped self ->
  shape x = (B, GRULRCell.input_size self) ->
  shape h = (B, GRULRCell.hidden_size self) ->
  elementwise (GRULRCell.gate_nonlinearity self) gateNL ->
  elementwise (GRULRCell.update_nonlinearity self) updateNL ->
  GRULRCell.forward self x h = Ok (GRULR_update self gateNL updateNL x h).
Proof.
  intros (HW1 & HW2 & HW3 & HU1 & HU2 & HU3 & Hbr & Hbg & Hbu) Hx Hh Hg Hu.
  set (H := GRULRCell.hidden_size self) in *.
  set (I := GRULRCell.input_size self) in *.
  unfold GRULRCell.forward.
  assert (Hhe := expandable_shape Hh).
  apply shape_inv in Hx, Hh, Hbr, Hbg, Hbu.
  destruct Hbr as [Hbr1 Hbr2], Hbg as [Hbg1 Hbg2], Hbu as [Hbu1 Hbu2],
    Hx as [Hx1 Hx2], Hh as [Hh1 Hh2].
  rewrite (project_tab _ _ x _ HW1 Hx1 Hx2). cbn [bind].
  rewrite (project_tab _ _ x _ HW2 Hx1 Hx2). cbn [bind].
  rewrite (project_tab _ _ x _ HW3 Hx1 Hx2). cbn [bind].
  rewrite (project_tab _ _ h _ HU1 Hh1 Hh2). cbn [bind].
  rewrite (project_tab _ _ h _ HU2 Hh1 Hh2). cbn [bind].
  unfold tadd, tmul, one_minus.
  rewrite !broadcast2_same. cbn [bind].
  rewrite broadcast2_tab_l by row_shape. cbn [bind].
  rewrite Hg, tmap_tab. cbn [bind].
  rewrite broadcast2_tab_l by row_shape. cbn [bind].
  rewrite Hg, tmap_tab. cbn [bind].
  rewrite broadcast2_tab_l by exact Hhe. cbn [bind].
  match goal with
  | |- context [project _ _ ?t] =>
      assert (Erh : t = GRULR_rh self gateNL x h); [|rewrite Erh; clear Erh]
  end.
  { unfold GRULR_rh, GRULR_r. fold H. rewrite Hx1.
    apply tabulate_ext. intros b k Hb Hk.
    rewrite (bget_row (GRULRCell.bias_r self)) by (try assumption; lia).
    now rewrite (bget_get h) by lia. }
  rewrite (project_tab _ _ (GRULR_rh self gateNL x h) _ (B := B) HU3)
    by (first [exact Hx1 | reflexivity]).
  cbn [bind].
  rewrite broadcast2_same. cbn [bind].
  rewrite broadcast2_tab_l by row_shape. cbn [bind].
  rewrite Hu, tmap_tab. cbn [bind].
  rewrite broadcast2_tab_l by exact Hhe. cbn [bind].
  rewrite tmap_tab, broadcast2_same. cbn [bind].
  rewrite broadcast2_same. f_equal.
  unfold GRULR_update, GRULR_z, GRULR_c. fold H. rewrite Hx1.
  apply tabulate_ext. intros b j Hb Hj.
  rewrite !(bget_row (GRULRCell.bias_gate self)) by (try assumption; lia).
  rewrite !(bget_row (GRULRCell.bias_update self)) by (try assumption; lia).
  rewrite !(bget_get h) by lia.
  reflexivity.
Qed.

End Sizes.

Section Constructors.
Context {SC : Scalar}.

(** The sizes a constructor reads: the hidden size, and each rank that is
    not None. *)
Ltac init_weights noise :=
  repeat match goal with
  | |- context [FastRNNCellInit.init_weight noise ?k ?a ?b] =>
      let W := fresh "W" in
      let E := fresh "E" in
      let HW := fresh "HW" in
      destruct (@init_weight_shape SC noise k _ _ a b
                  ltac:(first [apply as_size_nat | eassumption])
                  ltac:(first [apply as_size_nat | eassumption]))
        as (W & E & HW);
      rewrite E; clear E; cbn [bind]
  end.

Lemma LSTMLRCell_init_ok noise (I H : nat) (wRank uRank : option nat)
    (g u : pyval) :
  exists c,
    LSTMLRCellInit.__init__ noise [PInt (Z.of_nat I); PInt (Z.of_nat H)]
      [("gate_nonlinearity", g); ("update_nonlinearity", u);
       ("wRank", rank_arg wRank); ("uRank", rank_arg uRank)]%string = Ok c /\
    LSTMLRCell.well_shaped c /\
    LSTMLRCell.input_size c = I /\ LSTMLRCell.hidden_size c = H /\
    LSTMLRCell.gate_nonlinearity c = g /\
    LSTMLRCell.update_nonlinearity c = u.
Proof.
  unfold LSTMLRCellInit.__init__.
  assert (Hbind : exists e,
    bind_call LSTMLRCellInit.params [PInt (Z.of_nat I); PInt (Z.of_nat H)]
      [("gate_nonlinearity", g); ("update_nonlinearity", u);
       ("wRank", rank_arg wRank); ("uRank", rank_arg uRank)]%string = Ok e /\
    getv e "input_size" = PInt (Z.of_nat I) /\
    getv e "hidden_size" = PInt (Z.of_nat H) /\
    getv e "gate_nonlinearity" = g /\ getv e "update_nonlinearity" = u /\
    getv e "wRank" = rank_arg wRank /\ getv e "uRank" = rank_arg uRank).
  { eexists. split; [reflexivity|]. repeat split. }
  destruct Hbind as (e & He & Hi & Hh & Hg & Hu & Hwr & Hur).
  rewrite He. cbn [bind]. rewrite Hi, Hh, Hg, Hu, Hwr, Hur.
  destruct wRank as [wr|], uRank as [ur|]; cbn [rank_arg is_None];
    init_weights noise;
    rewrite !(@torch_ones_shape SC 1 H _ _ as_size_1 (as_size_nat H)), !as_size_nat;
    cbn [bind]; eexists; (split; [reflexivity|]);
    unfold LSTMLRCell.well_shaped; cbn; repeat split;
    first [assumption | eexists; split; eassumption].
Qed.

Lemma GRULRCell_init_ok noise (I H : nat) (wRank uRank : option nat)
    (g u : pyval) :
  exists c,
    GRULRCellInit.__init__ noise [PInt (Z.of_nat I); PInt (Z.of_nat H)]
      [("gate_nonlinearity", g); ("update_nonlinearity", u);
       ("wRank", rank_arg wRank); ("uRank", rank_arg uRank)]%string = Ok c /\
    GRULRCell.well_shaped c /\
    GRULRCell.input_size c = I /\ GRULRCell.hidden_size c = H /\
    GRULRCell.gate_nonlinearity c = g /\
    GRULRCell.update_nonlinearity c = u.
Proof.
  unfold GRULRCellInit.__init__.
  assert (Hbind : exists e,
    bind_call GRULRCellInit.params [PInt (Z.of_nat I); PInt (Z.of_nat H)]
      [("gate_nonlinearity", g); ("update_nonlinearity", u);
       ("wRank", rank_arg wRank); ("uRank", rank_arg uRank)]%string = Ok e /\
    getv e "input_size" = PInt (Z.of_nat I) /\
    getv e "hidden_size" = PInt (Z.of_nat H) /\
    getv e "gate_nonlinearity" = g /\ getv e "update_nonlinearity" = u /\
    getv e "wRank" = rank_arg wRank /\ getv e "uRank" = rank_arg uRank).
  { eexists. split; [reflexivity|]. repeat split. }
  destruct Hbind as (e & He & Hi & Hh & Hg & Hu & Hwr & Hur).
  rewrite He. cbn [bind]. rewrite Hi, Hh, Hg, Hu, Hwr, Hur.
  destruct wRank as [wr|], uRank as [ur|]; cbn [rank_arg is_None];
    init_weights noise;
    rewrite !(@torch_ones_shape SC 1 H _ _ as_size_1 (as_size_nat H)), !as_size_nat;
    cbn [bind]; eexists; (split; [reflexivity|]);
    unfold GRULRCell.well_shaped; cbn; repeat split;
    first [assumption | eexists; split; eassumption].
Qed.

Lemma UGRNNLRCell_init_ok noise (I H : nat) (wRank uRank : option nat)
    (g u : pyval) :
  exists c,
    UGRNNLRCellInit.__init__ noise [PInt (Z.of_nat I); PInt (Z.of_nat H)]
      [("gate_nonlinearity", g); ("update_nonlinearity", u);
       ("wRank", rank_arg wRank); ("uRank", rank_arg uRank)]%string = Ok c /\
    UGRNNLRCell.well_shaped c /\
    UGRNNLRCell.input_size c = I /\ UGRNNLRCell.hidden_size c = H /\
    UGRNNLRCell.gate_nonlinearity c = g /\
    UGRNNLRCell.update_nonlinearity c = u.
Proof.
  unfold UGRNNLRCellInit.__init__.
  assert (Hbind : exists e,
    bind_call UGRNNLRCellInit.params [PInt (Z.of_nat I); PInt (Z.of_nat H)]
      [("gate_nonlinearity", g); ("update_nonlinearity", u);
       ("wRank", rank_arg wRank); ("uRank", rank_arg uRank)]%string = Ok e /\
    getv e "input_size" = PInt (Z.of_nat I) /\
    getv e "hidden_size" = PInt (Z.of_nat H) /\
    getv e "gate_nonlinearity" = g /\ getv e "update_nonlinearity" = u /\
    getv e "wRank" = rank_arg wRank /\ getv e "uRank" = rank_arg uRank).
  { eexists. split; [reflexivity|]. repeat split. }
  destruct Hbind as (e & He & Hi & Hh & Hg & Hu & Hwr & Hur).
  rewrite He. cbn [bind]. rewrite Hi, Hh, Hg, Hu, Hwr, Hur.
  destruct wRank as [wr|], uRank as [ur|]; cbn [rank_arg is_None];
    init_weights noise;
    rewrite !(@torch_ones_shape SC 1 H _ _ as_size_1 (as_size_nat H)), !as_size_nat;
    cbn [bind]; eexists; (split; [reflexivity|]);
    unfold UGRNNLRCell.well_shaped; cbn; repeat split;
    first [assumption | eexists; split; eassumption].
Qed.

Lemma snapshot_float (w : weight) (s : num) old old1 old2 :
  exists r, FastGRNNCellSnap.snapshot w (PFloat s) old old1 old2 = Ok r.
Proof.
  unfold FastGRNNCellSnap.snapshot.
  destruct w; cbn [lt_float bind]; destruct (rlt s r1); eauto.
Qed.

Lemma FastGRNNCell_init_ok noise (I H : nat) (wRank uRank : option nat)
    (g u : pyval) (wSparsity uSparsity zetaInit nuInit : num) :
  exists s,
    FastGRNNCellSnap.__init__ noise [PInt (Z.of_nat I); PInt (Z.of_nat H)]
      [("gate_nonlinearity", g); ("update_nonlinearity", u);
       ("wRank", rank_arg wRank); ("uRank", rank_arg uRank);
       ("wSparsity", PFloat wSparsity); ("uSparsity", PFloat uSparsity);
       ("zetaInit", PFloat zetaInit); ("nuInit", PFloat nuInit)]%string
      = Ok s /\
    FastGRNNCell.well_shaped (FastGRNNCellSnap.cell s) /\
    FastGRNNCell.input_size (FastGRNNCellSnap.cell s) = I /\
    FastGRNNCell.hidden_size (FastGRNNCellSnap.cell s) = H /\
    FastGRNNCell.gate_nonlinearity (FastGRNNCellSnap.cell s) = g /\
    FastGRNNCell.update_nonlinearity (FastGRNNCellSnap.cell s) = u.
Proof.
  unfold FastGRNNCellSnap.__init__.
  assert (Hbind : exists e,
    bind_call FastGRNNCellSnap.params [PInt (Z.of_nat I); PInt (Z.of_nat H)]
      [("gate_nonlinearity", g); ("update_nonlinearity", u);
       ("wRank", rank_arg wRank); ("uRank", rank_arg uRank);
       ("wSparsity", PFloat wSparsity); ("uSparsity", PFloat uSparsity);
       ("zetaInit", PFloat zetaInit); ("nuInit", PFloat nuInit)]%string
      = Ok e /\
    getv e "input_size" = PInt (Z.of_nat I) /\
    getv e "hidden_size" = PInt (Z.of_nat H) /\
    getv e "gate_nonlinearity" = g /\ getv e "update_nonlinearity" = u /\
    getv e "wRank" = rank_arg wRank /\ getv e "uRank" = rank_arg uRank /\
    getv e "wSparsity" = PFloat wSparsity /\
    getv e "uSparsity" = PFloat uSparsity /\
    getv e "zetaInit" = PFloat zetaInit /\ getv e "nuInit" = PFloat nuInit).
  { eexists. split; [reflexivity|]. repeat split. }
  destruct Hbind as (e & He & Hi & Hh & Hg & Hu & Hwr & Hur & Hws & Hus & Hz & Hn).
  rewrite He. cbn [bind]. rewrite Hi, Hh, Hg, Hu, Hwr, Hur, Hws, Hus, Hz, Hn.
  destruct wRank as [wr|], uRank as [ur|]; cbn [rank_arg is_None];
    init_weights noise;
    match goal with
    | |- context [FastGRNNCellSnap.snapshot ?w (PFloat wSparsity) ?a ?b ?c] =>
        destruct (snapshot_float w wSparsity a b c) as ([[? ?] ?] & ->)
    end;
    cbn [bind];
    match goal with
    | |- context [FastGRNNCellSnap.snapshot ?w (PFloat uSparsity) ?a ?b ?c] =>
        destruct (snapshot_float w uSparsity a b c) as ([[? ?] ?] & ->)
    end;
    cbn [bind];
    rewrite !(@torch_ones_shape SC 1 H _ _ as_size_1 (as_size_nat H)), !as_size_nat;
    cbn [bind]; eexists; (split; [reflexivity|]);
    unfold FastGRNNCell.well_shaped; cbn; repeat split;
    first [assumption | eexists; split; eassumption].
Qed.

End Constructors.

Section Wrappers.
Context {SC : Scalar}.

Lemma entering_shape (h0 : Tensor) (buf : Tensor3) (B T H t : nat) :
  shape h0 = (B, H) -> shape3 buf = (B, T, H) ->
  shape (entering h0 buf t) = (B, H).
Proof.
  intros Hh0 Hbuf. destruct t as [|t]; [exact Hh0|].
  apply shape3_inv in Hbuf. destruct Hbuf as (H0 & _ & H2).
  unfold entering, select1, shape. simpl. now rewrite H0, H2.
Qed.

Lemma Ok_HiddenCell_inj (a b a' b' : Tensor) :
  Ok (HiddenCell a b) = Ok (HiddenCell a' b') -> a = a' /\ b = b'.
Proof. intros E. inversion E. auto. Qed.

(** The unrolling of a single-state cell whose call computes [update]. *)
Lemma unroll_update {C : Type} {cell_ops : RNNCell C} (cell : C)
    (update : Tensor -> Tensor -> Tensor) (input : Tensor3) (B T I : nat) :
  String.eqb (cellType cell) "LSTMLR" = false ->
  shape3 input = (B, T, I) ->
  (forall x h, shape x = (B, I) -> shape h = (B, output_size cell) ->
     call cell x (Hidden h) = Ok (Hidden (update x h)) /\
     shape (update x h) = (B, output_size cell) /\ wf (update x h)) ->
  exists out,
    BaseRNN.forward (BaseRNN.mk cell true) input None None = Ok (Out out) /\
    shape3 out = (B, T, output_size cell) /\
    (forall t, t < T ->
       select1 out t =
       update (select1 input t)
         (entering (zeros B (output_size cell)) out t)).
Proof.
  intros Htype Hinput Hupd.
  assert (Hcell : steps_well cell B I).
  { intros x h Hx _ Hh _. exists (update x h). now apply Hupd. }
  destruct (@unroll_single SC C cell_ops cell input B T I None None Htype
              Hinput Hcell eq_refl (wf_tabulate _ _ _))
    as (out & Hrun & Hout & Hsteps).
  exists out. split; [exact Hrun|]. split; [exact Hout|].
  intros t Ht. specialize (Hsteps t Ht). cbn [BaseRNN.or_zeros] in Hsteps.
  pose proof (shape3_inv Hinput) as (H0 & H1 & H2).
  assert (Hx : shape (select1 input t) = (B, I))
    by (unfold select1, shape; simpl; congruence).
  destruct (Hupd (select1 input t)
              (entering (zeros B (output_size cell)) out t) Hx
              (@entering_shape (zeros B (output_size cell)) out B T
                 (output_size cell) t eq_refl Hout)) as (Hcall & _).
  rewrite Hcall in Hsteps. now inversion Hsteps.
Qed.

Lemma wrapper_bind (I H : nat) (wRank uRank : option nat) :
  exists e,
    bind_call LSTM.params [PInt (Z.of_nat I); PInt (Z.of_nat H)]
      [("wRank", rank_arg wRank); ("uRank", rank_arg uRank)]%string = Ok e /\
    getv e "input_size" = PInt (Z.of_nat I) /\
    getv e "hidden_size" = PInt (Z.of_nat H) /\
    getv e "gate_nonlinearity" = PStr "sigmoid" /\
    getv e "update_nonlinearity" = PStr "tanh" /\
    getv e "wRank" = rank_arg wRank /\ getv e "uRank" = rank_arg uRank /\
    getv e "batch_first" = PBool true.
Proof. eexists. split; [reflexivity|]. repeat split. Qed.

(** X9. [LSTM(I, H, wRank=.., uRank=..)] end to end: for sizes [I], [H] and
    ranks that are None or a size, the constructor returns a model, and
    its forward on an input of shape [B, T, I] returns the pair of the
    hidden and the cell states, both of shape [B, T, H], where the states
    of step [t] are the LSTM-LR update (sigmoid gates, tanh update) of the
    input of step [t] and the states of step [t-1], zeros at step 0. *)
Theorem LSTM_constructed_unrolls noise (I H : nat) (wRank uRank : option nat)
    (input : Tensor3) (B T : nat) :
  shape3 input = (B, T, I) ->
  exists m hs cs,
    LSTM.__init__ noise [PInt (Z.of_nat I); PInt (Z.of_nat H)]
      [("wRank", rank_arg wRank); ("uRank", rank_arg uRank)]%string = Ok m /\
    LSTM.forward m input None None = Ok (OutPair hs cs) /\
    shape3 hs = (B, T, H) /\ shape3 cs = (B, T, H) /\
    (forall t, t < T ->
       select1 hs t =
         LSTMLR_new_h (LSTM.cell m) sigmoid tanh (select1 input t)
           (entering (zeros B H) hs t) (entering (zeros B H) cs t) /\
       select1 cs t =
         LSTMLR_new_c (LSTM.cell m) sigmoid tanh (select1 input t)
           (entering (zeros B H) hs t) (entering (zeros B H) cs t)).
Proof.
  intros Hinput.
  destruct (LSTMLRCell_init_ok noise I H wRank uRank (PStr "sigmoid") (PStr "tanh"))
    as (c & Hinit & Hc & Hi & Hh & Hg & Hu).
  destruct (wrapper_bind I H wRank uRank)
    as (e & He & Ei & Eh & Eg & Eu & Ewr & Eur & Ebf).
  unfold LSTM.__init__. rewrite He. cbn [bind].
  rewrite Ei, Eh, Eg, Eu, Ewr, Eur, Ebf, Hinit. cbn [bind FastRNN.is_True].
  assert (Hsig : elementwise (LSTMLRCell.gate_nonlinearity c) sigmoid)
    by (rewrite Hg; apply elementwise_sigmoid).
  assert (Htanh : elementwise (LSTMLRCell.update_nonlinearity c) tanh)
    by (rewrite Hu; apply elementwise_tanh).
  subst I H.
  destruct (@unroll_invariant2 SC LSTMLRCell.t LSTMLRCell_RNNCell c input B T _
              Hinput
              (LSTMLR_steps_well2 (B := B) Hc Hsig Htanh)
              (zeros B (LSTMLRCell.hidden_size c))
              (zeros B (LSTMLRCell.hidden_size c))
              eq_refl (wf_tabulate _ _ _) eq_refl (wf_tabulate _ _ _)
              T (le_n T))
    as (h & cs0 & hs & cs & Hrun & Hhs & Hcs & _ & _ & _ & _ & _ & _ & Hsteps).
  change (output_size c) with (LSTMLRCell.hidden_size c) in *.
  exists (LSTM.mk c (BaseRNN.mk c true)), hs, cs.
  split; [reflexivity|].
  pose proof (shape3_inv Hinput) as (H0 & H1 & H2).
  split.
  { unfold LSTM.forward, BaseRNN.forward.
    cbn [LSTM.unrollRNN BaseRNN._RNNCell BaseRNN._batch_first].
    change (String.eqb (cellType c) "LSTMLR") with true. cbv iota.
    cbn [BaseRNN.or_zeros].
    change (output_size c) with (LSTMLRCell.hidden_size c).
    rewrite H0, H1, Hrun. reflexivity. }
  split; [exact Hhs|]. split; [exact Hcs|].
  intros t Ht. specialize (Hsteps t Ht). cbn [LSTM.cell].
  assert (Hx : shape (select1 input t) = (B, LSTMLRCell.input_size c))
    by (unfold select1, shape; simpl; congruence).
  set (h1 := entering (zeros B (LSTMLRCell.hidden_size c)) hs t) in *.
  set (c1 := entering (zeros B (LSTMLRCell.hidden_size c)) cs t) in *.
  assert (Hh1 : shape h1 = (B, LSTMLRCell.hidden_size c))
    by exact (@entering_shape (zeros B (LSTMLRCell.hidden_size c)) hs B T
                (LSTMLRCell.hidden_size c) t eq_refl Hhs).
  assert (Hc1 : shape c1 = (B, LSTMLRCell.hidden_size c))
    by exact (@entering_shape (zeros B (LSTMLRCell.hidden_size c)) cs B T
                (LSTMLRCell.hidden_size c) t eq_refl Hcs).
  change (call c (select1 input t) (HiddenCell h1 c1))
    with (fmap (fun hc => HiddenCell (fst hc) (snd hc))
            (LSTMLRCell.forward c (select1 input t) (h1, c1)))
    in Hsteps.
  rewrite (LSTMLR_forward_update Hc Hx Hh1 Hc1 Hsig Htanh) in Hsteps.
  cbv [fmap bind fst snd] in Hsteps. apply Ok_HiddenCell_inj in Hsteps.
  destruct Hsteps as [E1 E2]. split; symmetry; assumption.
Qed.


(** X10. [GRU(I, H, wRank=.., uRank=..)] end to end: the constructor
    returns a model, and its forward on an input of shape [B, T, I]
    returns a tensor of shape [B, T, H] whose step [t] is the GRU-LR
    update (sigmoid gates, tanh update) of the input of step [t] and the
    output of step [t-1], zeros at step 0. *)
Theorem GRU_constructed_unrolls noise (I H : nat) (wRank uRank : option nat)
    (input : Tensor3) (B T : nat) :
  shape3 input = (B, T, I) ->
  exists m out,
    GRU.__init__ noise [PInt (Z.of_nat I); PInt (Z.of_nat H)]
      [("wRank", rank_arg wRank); ("uRank", rank_arg uRank)]%string = Ok m /\
    GRU.forward m input None None = Ok (Out out) /\
    shape3 out = (B, T, H) /\
    (forall t, t < T ->
       select1 out t =
         GRULR_update (GRU.cell m) sigmoid tanh (select1 input t)
           (entering (zeros B H) out t)).
Proof.
  intros Hinput.
  destruct (GRULRCell_init_ok noise I H wRank uRank (PStr "sigmoid") (PStr "tanh"))
    as (c & Hinit & Hc & Hi & Hh & Hg & Hu).
  destruct (wrapper_bind I H wRank uRank)
    as (e & He & Ei & Eh & Eg & Eu & Ewr & Eur & Ebf).
  unfold GRU.__init__. change GRU.params with LSTM.params.
  rewrite He. cbn [bind].
  rewrite Ei, Eh, Eg, Eu, Ewr, Eur, Ebf, Hinit. cbn [bind FastRNN.is_True].
  assert (Hsig : elementwise (GRULRCell.gate_nonlinearity c) sigmoid)
    by (rewrite Hg; apply elementwise_sigmoid).
  assert (Htanh : elementwise (GRULRCell.update_nonlinearity c) tanh)
    by (rewrite Hu; apply elementwise_tanh).
  subst I H.
  destruct (@unroll_update GRULRCell.t GRULRCell_RNNCell c
              (GRULR_update c sigmoid tanh) input B T
              (GRULRCell.input_size c) eq_refl Hinput)
    as (out & Hrun & Hout & Hsteps).
  { intros x h Hx Hh.
    change (call c x (Hidden h)) with (fmap Hidden (GRULRCell.forward c x h)).
    rewrite (GRULR_forward_update Hc Hx Hh Hsig Htanh).
    repeat split.
    - apply shape_inv in Hx. destruct Hx as [Hx _].
      unfold GRULR_update. now rewrite shape_tabulate, Hx.
    - apply wf_tabulate. }
  eexists _, out. split; [reflexivity|].
  split; [exact Hrun|]. split; [exact Hout|]. exact Hsteps.
Qed.

(** X11. [UGRNN(I, H, wRank=.., uRank=..)] end to end: the constructor
    returns a model, and its forward on an input of shape [B, T, I]
    returns a tensor of shape [B, T, H] whose step [t] is the UGRNN-LR
    update (sigmoid gate, tanh update) of the input of step [t] and the
    output of step [t-1], zeros at step 0. *)
Theorem UGRNN_constructed_unrolls noise (I H : nat) (wRank uRank : option nat)
    (input : Tensor3) (B T : nat) :
  shape3 input = (B, T, I) ->
  exists m out,
    UGRNN.__init__ noise [PInt (Z.of_nat I); PInt (Z.of_nat H)]
      [("wRank", rank_arg wRank); ("uRank", rank_arg uRank)]%string = Ok m /\
    UGRNN.forward m input None None = Ok (Out out) /\
    shape3 out = (B, T, H) /\
    (forall t, t < T ->
       select1 out t =
         UGRNNLR_update (UGRNN.cell m) sigmoid tanh (select1 input t)
           (entering (zeros B H) out t)).
Proof.
  intros Hinput.
  destruct (UGRNNLRCell_init_ok noise I H wRank uRank (PStr "sigmoid") (PStr "tanh"))
    as (c & Hinit & Hc & Hi & Hh & Hg & Hu).
  destruct (wrapper_bind I H wRank uRank)
    as (e & He & Ei & Eh & Eg & Eu & Ewr & Eur & Ebf).
  unfold UGRNN.__init__. change UGRNN.params with LSTM.params.
  rewrite He. cbn [bind].
  rewrite Ei, Eh, Eg, Eu, Ewr, Eur, Ebf, Hinit. cbn [bind FastRNN.is_True].
  assert (Hsig : elementwise (UGRNNLRCell.gate_nonlinearity c) sigmoid)
    by (rewrite Hg; apply elementwise_sigmoid).
  assert (Htanh : elementwise (UGRNNLRCell.update_nonlinearity c) tanh)
    by (rewrite Hu; apply elementwise_tanh).
  subst I H.
  destruct (@unroll_update UGRNNLRCell.t UGRNNLRCell_RNNCell c
              (UGRNNLR_update c sigmoid tanh) input B T
              (UGRNNLRCell.input_size c) eq_refl Hinput)
    as (out & Hrun & Hout & Hsteps).
  { intros x h Hx Hh.
    change (call c x (Hidden h)) with (fmap Hidden (UGRNNLRCell.forward c x h)).
    rewrite (UGRNNLR_forward_update Hc Hx Hh Hsig Htanh).
    repeat split.
    - apply shape_inv in Hx. destruct Hx as [Hx _].
      unfold UGRNNLR_update. now rewrite shape_tabulate, Hx.
    - apply wf_tabulate. }
  eexists _, out. split; [reflexivity|].
  split; [exact Hrun|]. split; [exact Hout|]. exact Hsteps.
Qed.

Lemma FastGRNN_bind (I H : nat) (wRank uRank : option nat) :
  exists e,
    bind_call FastGRNN.params [PInt (Z.of_nat I); PInt (Z.of_nat H)]
      [("wRank", rank_arg wRank); ("uRank", rank_arg uRank)]%string = Ok e /\
    getv e "input_size" = PInt (Z.of_nat I) /\
    getv e "hidden_size" = PInt (Z.of_nat H) /\
    getv e "gate_nonlinearity" = PStr "sigmoid" /\
    getv e "update_nonlinearity" = PStr "tanh" /\
    getv e "wRank" = rank_arg wRank /\ getv e "uRank" = rank_arg uRank /\
    getv e "wSparsity" = PFloat r1 /\ getv e "uSparsity" = PFloat r1 /\
    getv e "zetaInit" = PFloat r1 /\ getv e "nuInit" = PFloat (ropp r4) /\
    getv e "batch_first" = PBool true.
Proof. eexists. split; [reflexivity|]. repeat split. Qed.

(** X12. [FastGRNN(I, H, wRank=.., uRank=..)] end to end, with the default
    sparsities, [zetaInit] and [nuInit]: the constructor returns a model
    (unlike [FastRNN], whose constructor always raises), and its forward on
    an input of shape [B, T, I] returns a tensor of shape [B, T, H] whose
    step [t] is the FastGRNN update (sigmoid gate, tanh update) of the
    input of step [t] and the output of step [t-1], zeros at step 0. *)
Theorem FastGRNN_constructed_unrolls noise (I H : nat)
    (wRank uRank : option nat) (input : Tensor3) (B T : nat) :
  shape3 input = (B, T, I) ->
  exists m out,
    FastGRNN.__init__ noise [PInt (Z.of_nat I); PInt (Z.of_nat H)]
      [("wRank", rank_arg wRank); ("uRank", rank_arg uRank)]%string = Ok m /\
    FastGRNN.forward m input None None = Ok (Out out) /\
    shape3 out = (B, T, H) /\
    (forall t, t < T ->
       select1 out t =
         FastGRNN_update (FastGRNNCellSnap.cell (FastGRNN.cell m)) sigmoid tanh
           (select1 input t) (entering (zeros B H) out t)).
Proof.
  intros Hinput.
  destruct (FastGRNNCell_init_ok noise I H wRank uRank (PStr "sigmoid")
              (PStr "tanh") r1 r1 r1 (ropp r4))
    as (s & Hinit & Hc & Hi & Hh & Hg & Hu).
  destruct (FastGRNN_bind I H wRank uRank)
    as (e & He & Ei & Eh & Eg & Eu & Ewr & Eur & Ews & Eus & Ez & En & Ebf).
  unfold FastGRNN.__init__. rewrite He. cbn [bind].
  rewrite Ei, Eh, Eg, Eu, Ewr, Eur, Ews, Eus, Ez, En, Ebf, Hinit.
  cbn [bind FastRNN.is_True].
  set (c := FastGRNNCellSnap.cell s) in *.
  assert (Hsig : elementwise (FastGRNNCell.gate_nonlinearity c) sigmoid)
    by (rewrite Hg; apply elementwise_sigmoid).
  assert (Htanh : elementwise (FastGRNNCell.update_nonlinearity c) tanh)
    by (rewrite Hu; apply elementwise_tanh).
  subst I H.
  destruct (@unroll_update FastGRNNCell.t FastGRNNCell_RNNCell c
              (FastGRNN_update c sigmoid tanh) input B T
              (FastGRNNCell.input_size c) eq_refl Hinput)
    as (out & Hrun & Hout & Hsteps).
  { intros x h Hx Hh.
    change (call c x (Hidden h)) with (fmap Hidden (FastGRNNCell.forward c x h)).
    rewrite (FastGRNN_forward_update Hc Hx Hh Hsig Htanh).
    repeat split.
    - apply shape_inv in Hx. destruct Hx as [Hx _].
      unfold FastGRNN_update. now rewrite shape_tabulate, Hx.
    - apply wf_tabulate. }
  eexists _, out. split; [reflexivity|].
  split; [exact Hrun|]. split; [exact Hout|]. exact Hsteps.
Qed.

End Wrappers.

Section FastRNNByHand.
Context {SC : Scalar}.

Ltac init_weights noise :=
  repeat match goal with
  | |- context [FastRNNCellInit.init_weight noise ?k ?a ?b] =>
      let W := fresh "W" in
      let E := fresh "E" in
      let HW := fresh "HW" in
      destruct (@init_weight_shape SC noise k _ _ a b
                  ltac:(first [apply as_size_nat | eassumption])
                  ltac:(first [apply as_size_nat | eassumption]))
        as (W & E & HW);
      rewrite E; clear E; cbn [bind]
  end.

Lemma FastRNNCell_init_ranks_ok noise (I H : nat) (wRank uRank : option nat) :
  exists c,
    FastRNNCellInit.__init__ noise [PInt (Z.of_nat I); PInt (Z.of_nat H)]
      [("wRank", rank_arg wRank); ("uRank", rank_arg uRank)]%string = Ok c /\
    FastRNNCell.well_shaped c /\
    FastRNNCell.input_size c = I /\ FastRNNCell.hidden_size c = H /\
    FastRNNCell.update_nonlinearity c = PStr "tanh".
Proof.
  unfold FastRNNCellInit.__init__.
  assert (Hbind : exists e,
    bind_call FastRNNCellInit.params [PInt (Z.of_nat I); PInt (Z.of_nat H)]
      [("wRank", rank_arg wRank); ("uRank", rank_arg uRank)]%string = Ok e /\
    getv e "input_size" = PInt (Z.of_nat I) /\
    getv e "hidden_size" = PInt (Z.of_nat H) /\
    getv e "update_nonlinearity" = PStr "tanh" /\
    getv e "wRank" = rank_arg wRank /\ getv e "uRank" = rank_arg uRank /\
    getv e "alphaInit" = PFloat (ropp r3) /\ getv e "betaInit" = PFloat r3).
  { eexists. split; [reflexivity|]. repeat split. }
  destruct Hbind as (e & He & Hi & Hh & Hu & Hwr & Hur & Ha & Hb).
  rewrite He. cbn [bind]. rewrite Hi, Hh, Hu, Hwr, Hur, Ha, Hb.
  destruct wRank as [wr|], uRank as [ur|]; cbn [rank_arg is_None];
    init_weights noise;
    rewrite !(@torch_ones_shape SC 1 H _ _ as_size_1 (as_size_nat H)),
            !(@torch_ones_shape SC 1 1 _ _ as_size_1 as_size_1),
            !as_size_nat;
    cbn [bind scale]; eexists; (split; [reflexivity|]);
    unfold FastRNNCell.well_shaped; cbn; repeat split;
    first [assumption | eexists; split; eassumption].
Qed.

(** X19. The way to a FastRNN that works: [FastRNNCell(I, H, wRank=..,
    uRank=..)] constructs a cell, and [BaseRNN(cell)] on an input of shape
    [B, T, I] returns a tensor of shape [B, T, H] whose step [t] is the
    FastRNN update (tanh) of the input of step [t] and the output of step
    [t-1], zeros at step 0. *)
Theorem FastRNNCell_constructed_unrolls noise (I H : nat)
    (wRank uRank : option nat) (input : Tensor3) (B T : nat) :
  shape3 input = (B, T, I) ->
  exists c out,
    FastRNNCellInit.__init__ noise [PInt (Z.of_nat I); PInt (Z.of_nat H)]
      [("wRank", rank_arg wRank); ("uRank", rank_arg uRank)]%string = Ok c /\
    BaseRNN.forward (BaseRNN.mk c true) input None None = Ok (Out out) /\
    shape3 out = (B, T, H) /\
    (forall t, t < T ->
       select1 out t =
         FastRNN_update c tanh (select1 input t) (entering (zeros B H) out t)).
Proof.
  intros Hinput.
  destruct (FastRNNCell_init_ranks_ok noise I H wRank uRank)
    as (c & Hinit & Hc & Hi & Hh & Hu).
  assert (Htanh : elementwise (FastRNNCell.update_nonlinearity c) tanh)
    by (rewrite Hu; apply elementwise_tanh).
  subst I H.
  destruct (@unroll_update SC FastRNNCell.t FastRNNCell_RNNCell c
              (FastRNN_update c tanh) input B T
              (FastRNNCell.input_size c) eq_refl Hinput)
    as (out & Hrun & Hout & Hsteps).
  { intros x h Hx Hh.
    change (call c x (Hidden h)) with (fmap Hidden (FastRNNCell.forward c x h)).
    rewrite (FastRNN_forward_update Hc Hx Hh Htanh).
    repeat split.
    - apply shape_inv in Hx. destruct Hx as [Hx _].
      unfold FastRNN_update. now rewrite shape_tabulate, Hx.
    - apply wf_tabulate. }
  exists c, out. split; [exact Hinit|].
  split; [exact Hrun|]. split; [exact Hout|]. exact Hsteps.
Qed.

End FastRNNByHand.

Lemma FastRNNCell_constructed_unrolls_witness :
  exists c out,
    FastRNNCellInit.__init__ MoreSamples.noise1
      [PInt (Z.of_nat 3); PInt (Z.of_nat 4)]
      [("wRank", rank_arg (Some 2)); ("uRank", rank_arg None)]%string = Ok c /\
    BaseRNN.forward (BaseRNN.mk c true) Samples.input253 None None =
      Ok (Out out) /\
    shape3 out = (2, 5, 4) /\
    (forall t, t < 5 ->
       select1 out t =
         FastRNN_update c tanh (select1 Samples.input253 t)
           (entering (zeros 2 4) out t)).
Proof.
  apply FastRNNCell_constructed_unrolls. reflexivity.
Defined.

(** * Sparsification *)

Section Sparsification.
Context {SC : Scalar}.
Variable hardThreshold : Tensor -> pyval -> result Tensor.
Variable supportBasedThreshold : Tensor -> Tensor -> result Tensor.

Import FastGRNNCellSnap.

Ltac bind_inv H :=
  match type of H with
  | bind ?m _ = Ok _ =>
      let E := fresh "E" in
      destruct m eqn:E; cbn [bind] in H; [|discriminate H]
  end.

Lemma snapshot_not_below (w : weight) (s : pyval) old old1 old2 :
  lt_float s r1 = Ok false ->
  snapshot w s old old1 old2 = Ok (old, old1, old2).
Proof. intros E. unfold snapshot. destruct w; now rewrite E. Qed.

Lemma snapshot_below (w : weight) (s : pyval) old old1 old2 :
  lt_float s r1 = Ok true ->
  snapshot w s old old1 old2 =
  Ok match w with
     | Full W => (Some W, old1, old2)
     | LowRank W1 W2 => (old, Some W1, Some W2)
     end.
Proof. intros E. unfold snapshot. destruct w; now rewrite E. Qed.

Lemma init_fields noise args kwargs self :
  __init__ noise args kwargs = Ok self ->
  exists r,
    snapshot (FastGRNNCell.W (cell self)) (FastGRNNCell.wSparsity (cell self))
      None None None = Ok r /\
    r = (W_old self, W1_old self, W2_old self).
Proof.
  unfold __init__. intros E.
  do 5 bind_inv E.
  repeat match goal with x : (_ * _)%type |- _ => destruct x end.
  cbv beta iota in E.
  repeat bind_inv E.
  inversion E; subst; clear E. cbn [cell W_old W1_old W2_old
    FastGRNNCell.W FastGRNNCell.wSparsity].
  eexists. split; [eassumption | reflexivity].
Qed.

Lemma support_needs_snapshot (self : t) :
  W_old self = None -> W1_old self = None ->
  sparsifyWithSupport supportBasedThreshold self = Raise AttributeError.
Proof.
  intros H0 H1. unfold sparsifyWithSupport, support_weight.
  rewrite H0, H1. now destruct (FastGRNNCell.W (cell self)).
Qed.

Lemma threshold_weight_inv (w : weight) (s : pyval) (w' : weight) :
  threshold_weight hardThreshold w s = Ok w' ->
  match w, w' with
  | Full W, Full W' => hardThreshold W s = Ok W'
  | LowRank W1 W2, LowRank W1' W2' =>
      hardThreshold W1 s = Ok W1' /\ hardThreshold W2 s = Ok W2'
  | _, _ => False
  end.
Proof.
  unfold threshold_weight. destruct w as [W|W1 W2]; intros E.
  - bind_inv E. now inversion E.
  - bind_inv E. bind_inv E. inversion E. auto.
Qed.

Lemma sparsify_inv (self s' : t) :
  sparsify hardThreshold self = Ok s' ->
  exists W U,
    threshold_weight hardThreshold (FastGRNNCell.W (cell self))
      (FastGRNNCell.wSparsity (cell self)) = Ok W /\
    threshold_weight hardThreshold (FastGRNNCell.U (cell self))
      (FastGRNNCell.uSparsity (cell self)) = Ok U /\
    cell s' = with_weights (cell self) W U /\
    snapshot W (FastGRNNCell.wSparsity (cell self))
      (W_old self) (W1_old self) (W2_old self) =
      Ok (W_old s', W1_old s', W2_old s') /\
    snapshot U (FastGRNNCell.uSparsity (cell self))
      (U_old self) (U1_old self) (U2_old self) =
      Ok (U_old s', U1_old s', U2_old s').
Proof.
  unfold sparsify, copy_previous_state. intros E.
  bind_inv E. bind_inv E.
  cbn [cell with_weights FastGRNNCell.W FastGRNNCell.U FastGRNNCell.wSparsity
       FastGRNNCell.uSparsity W_old W1_old W2_old U_old U1_old U2_old] in E.
  bind_inv E. bind_inv E.
  repeat match goal with x : (_ * _)%type |- _ => destruct x end.
  cbv beta iota in E.
  inversion E; subst; clear E. do 2 eexists. cbn. eauto.
Qed.

(** X13. A FastGRNN cell constructed with a [wSparsity] that is not below
    1.0 (the default is 1.0) has no attribute [W_old] (nor [W1_old],
    [W2_old]): copy_previous_state assigns them only under
    [wSparsity < 1.0].  On such a cell sparsifyWithSupport raises
    AttributeError, and it still does after a sparsify, whatever
    hardThreshold and supportBasedThreshold do. *)
Theorem sparsifyWithSupport_without_snapshot noise args kwargs (self : t) :
  __init__ noise args kwargs = Ok self ->
  lt_float (FastGRNNCell.wSparsity (cell self)) r1 = Ok false ->
  sparsifyWithSupport supportBasedThreshold self = Raise AttributeError /\
  (forall s', sparsify hardThreshold self = Ok s' ->
     sparsifyWithSupport supportBasedThreshold s' = Raise AttributeError).
Proof.
  intros Hinit Hlt.
  apply init_fields in Hinit. destruct Hinit as (r & Hr & ->).
  rewrite snapshot_not_below in Hr by exact Hlt.
  inversion Hr as [[E0 E1 E2]]. symmetry in E0, E1, E2.
  split; [now apply support_needs_snapshot|].
  intros s' Hs. apply sparsify_inv in Hs.
  destruct Hs as (W & U & _ & _ & _ & HW & _).
  rewrite snapshot_not_below in HW by exact Hlt.
  inversion HW as [[F0 F1 F2]].
  apply support_needs_snapshot; congruence.
Qed.

(** X14. When both sparsities are below 1.0, a sparsify that returns
    leaves in [W_old] (or [W1_old], [W2_old]) and [U_old] (or [U1_old],
    [U2_old]) the thresholded weights themselves: the snapshot is taken
    after the thresholding, so a following sparsifyWithSupport thresholds
    each weight by its own support. *)
Theorem sparsify_snapshots_current (self s' : t) :
  sparsify hardThreshold self = Ok s' ->
  lt_float (FastGRNNCell.wSparsity (cell self)) r1 = Ok true ->
  lt_float (FastGRNNCell.uSparsity (cell self)) r1 = Ok true ->
  match FastGRNNCell.W (cell s') with
  | Full W => W_old s' = Some W
  | LowRank W1 W2 => W1_old s' = Some W1 /\ W2_old s' = Some W2
  end /\
  match FastGRNNCell.U (cell s') with
  | Full U => U_old s' = Some U
  | LowRank U1 U2 => U1_old s' = Some U1 /\ U2_old s' = Some U2
  end.
Proof.
  intros Hs Hw Hu.
  apply sparsify_inv in Hs.
  destruct Hs as (W & U & _ & _ & Hc & HW & HU).
  rewrite snapshot_below in HW by exact Hw.
  rewrite snapshot_below in HU by exact Hu.
  rewrite Hc. cbn [with_weights FastGRNNCell.W FastGRNNCell.U].
  split.
  - destruct W; inversion HW; auto.
  - destruct U; inversion HU; auto.
Qed.

Section ShapePreserving.
Hypothesis hardThreshold_shape :
  forall W s, exists W', hardThreshold W s = Ok W' /\ shape W' = shape W.

Lemma threshold_weight_shape (w : weight) (s : pyval) :
  exists w',
    threshold_weight hardThreshold w s = Ok w' /\
    match w, w' with
    | Full W, Full W' => shape W' = shape W
    | LowRank W1 W2, LowRank W1' W2' =>
        shape W1' = shape W1 /\ shape W2' = shape W2
    | _, _ => False
    end.
Proof.
  unfold threshold_weight. destruct w as [W|W1 W2].
  - destruct (hardThreshold_shape W s) as (W' & -> & HW).
    cbn [bind]. eexists. split; [reflexivity | exact HW].
  - destruct (hardThreshold_shape W1 s) as (W1' & -> & HW1).
    destruct (hardThreshold_shape W2 s) as (W2' & -> & HW2).
    cbn [bind]. eexists. split; [reflexivity | split; assumption].
Qed.

(** X15. If hardThreshold returns a tensor of the shape it was given and
    the two sparsities compare with 1.0, FastGRNNCell.sparsify returns,
    and the cell still has the parameter shapes __init__ gave it, with the
    same input and hidden sizes. *)
Theorem FastGRNN_sparsify_keeps_shapes (self : t) (bw bu : bool) :
  lt_float (FastGRNNCell.wSparsity (cell self)) r1 = Ok bw ->
  lt_float (FastGRNNCell.uSparsity (cell self)) r1 = Ok bu ->
  FastGRNNCell.well_shaped (cell self) ->
  exists s',
    sparsify hardThreshold self = Ok s' /\
    FastGRNNCell.well_shaped (cell s') /\
    FastGRNNCell.input_size (cell s') = FastGRNNCell.input_size (cell self) /\
    FastGRNNCell.hidden_size (cell s') = FastGRNNCell.hidden_size (cell self).
Proof.
  intros Hw Hu (HW & HU & Hrest).
  unfold sparsify, copy_previous_state.
  destruct (threshold_weight_shape (FastGRNNCell.W (cell self))
              (FastGRNNCell.wSparsity (cell self))) as (W' & -> & HW').
  destruct (threshold_weight_shape (FastGRNNCell.U (cell self))
              (FastGRNNCell.uSparsity (cell self))) as (U' & -> & HU').
  cbn [bind cell with_weights FastGRNNCell.W FastGRNNCell.U
       FastGRNNCell.wSparsity FastGRNNCell.uSparsity
       W_old W1_old W2_old U_old U1_old U2_old].
  unfold snapshot. rewrite Hw, Hu.
  assert (HWs : FastGRNNCell.weight_shaped W'
                  (FastGRNNCell.hidden_size (cell self))
                  (FastGRNNCell.input_size (cell self))).
  { destruct (FastGRNNCell.W (cell self)) as [W|W1 W2], W' as [V|V1 V2];
      try contradiction; cbn [FastGRNNCell.weight_shaped] in *.
    - congruence.
    - destruct HW as (r & H1 & H2), HW' as [E1 E2]. exists r. split; congruence. }
  assert (HUs : FastGRNNCell.weight_shaped U'
                  (FastGRNNCell.hidden_size (cell self))
                  (FastGRNNCell.hidden_size (cell self))).
  { destruct (FastGRNNCell.U (cell self)) as [W|W1 W2], U' as [V|V1 V2];
      try contradiction; cbn [FastGRNNCell.weight_shaped] in *.
    - congruence.
    - destruct HU as (r & H1 & H2), HU' as [E1 E2]. exists r. split; congruence. }
  destruct W', bw, U', bu; cbn [bind]; eexists; (split; [reflexivity|]);
    (split; [split; [exact HWs | split; [exact HUs | exact Hrest]]
            | split; reflexivity]).
Qed.

(** X16. If hardThreshold returns a tensor of the shape it was given,
    FastRNNCell.sparsify returns, and the cell still has the parameter
    shapes __init__ gave it, with the same input and hidden sizes. *)
Theorem FastRNN_sparsify_keeps_shapes (self : FastRNNCell.t) :
  FastRNNCell.well_shaped self ->
  exists s',
    FastRNNCellMethods.sparsify hardThreshold self = Ok s' /\
    FastRNNCell.well_shaped s' /\
    FastRNNCell.input_size s' = FastRNNCell.input_size self /\
    FastRNNCell.hidden_size s' = FastRNNCell.hidden_size self.
Proof.
  intros (HW & HU & Hrest).
  unfold FastRNNCellMethods.sparsify.
  destruct (threshold_weight_shape (FastRNNCell.W self)
              (FastRNNCell.wSparsity self)) as (W' & -> & HW').
  destruct (threshold_weight_shape (FastRNNCell.U self)
              (FastRNNCell.uSparsity self)) as (U' & -> & HU').
  cbn [bind]. eexists. split; [reflexivity|].
  split; [|split; reflexivity].
  split; [|split; [|exact Hrest]];
    cbn [FastRNNCellMethods.with_weights FastRNNCell.W FastRNNCell.U
         FastRNNCell.input_size FastRNNCell.hidden_size].
  - destruct (FastRNNCell.W self) as [W|W1 W2], W' as [V|V1 V2];
      try contradiction; cbn [FastRNNCell.weight_shaped] in *.
    + congruence.
    + destruct HW as (r & H1 & H2), HW' as [E1 E2]. exists r. split; congruence.
  - destruct (FastRNNCell.U self) as [W|W1 W2], U' as [V|V1 V2];
      try contradiction; cbn [FastRNNCell.weight_shaped] in *.
    + congruence.
    + destruct HU as (r & H1 & H2), HU' as [E1 E2]. exists r. split; congruence.
Qed.

End ShapePreserving.

End Sparsification.

(** * The clipped nonlinearities over the real numbers *)

Section RealNonlinearities.
Import Reals Lra.
Local Open Scope R_scope.

Lemma Rclip_range (v lo hi : R) :
  lo <= hi -> lo <= Rmax (Rmin v hi) lo <= hi.
Proof.
  intros H. unfold Rmax, Rmin.
  destruct (Rle_dec v hi); destruct (Rle_dec _ lo); lra.
Qed.

Lemma Rclip_inside (v lo hi : R) :
  lo <= v <= hi -> Rmax (Rmin v hi) lo = v.
Proof.
  intros H. unfold Rmax, Rmin.
  destruct (Rle_dec v hi); destruct (Rle_dec _ lo); lra.
Qed.

(** X17. Over the real numbers, [gen_nonlinearity(A, "quantTanh")] returns
    a tensor of the shape of [A] whose entries lie in [-1, 1], and an
    entry of [A] that already lies in [-1, 1] is returned unchanged. *)
Theorem quantTanh_range (A : @Tensor RealScalar.RScalar) :
  exists A' : @Tensor RealScalar.RScalar,
    @gen_nonlinearity RealScalar.RScalar A (PStr "quantTanh") = Ok A' /\
    shape A' = shape A /\
    (forall i j, (i < rows A)%nat -> (j < cols A)%nat ->
       -1 <= @get RealScalar.RScalar A' i j <= 1 /\
       (-1 <= @get RealScalar.RScalar A i j <= 1 -> @get RealScalar.RScalar A' i j = @get RealScalar.RScalar A i j)).
Proof.
  exists (@tmap RealScalar.RScalar (@quantTanh RealScalar.RScalar) A).
  split; [apply (@elementwise_quantTanh RealScalar.RScalar)|]. split; [reflexivity|].
  intros i j Hi Hj. unfold tmap. rewrite get_tabulate by assumption.
  unfold quantTanh. cbn.
  replace (-(1) * 1) with (-1) by lra. split.
  - apply Rclip_range. lra.
  - apply Rclip_inside.
Qed.

(** X18. Over the real numbers, [gen_nonlinearity(A, "quantSigm")] and
    [gen_nonlinearity(A, "quantSigm4")] return tensors of the shape of [A]
    whose entries lie in [0, 1]; on entries in [-1, 1] quantSigm is
    [(a + 1) / 2], on entries in [-2, 2] quantSigm4 is [(a + 2) / 4]. *)
Theorem quantSigm_range (A : @Tensor RealScalar.RScalar) :
  exists A2 A4 : @Tensor RealScalar.RScalar,
    @gen_nonlinearity RealScalar.RScalar A (PStr "quantSigm") = Ok A2 /\
    @gen_nonlinearity RealScalar.RScalar A (PStr "quantSigm4") = Ok A4 /\
    shape A2 = shape A /\ shape A4 = shape A /\
    (forall i j, (i < rows A)%nat -> (j < cols A)%nat ->
       0 <= @get RealScalar.RScalar A2 i j <= 1 /\ 0 <= @get RealScalar.RScalar A4 i j <= 1 /\
       (-1 <= @get RealScalar.RScalar A i j <= 1 ->
          @get RealScalar.RScalar A2 i j = (@get RealScalar.RScalar A i j + 1) / 2) /\
       (-2 <= @get RealScalar.RScalar A i j <= 2 ->
          @get RealScalar.RScalar A4 i j = (@get RealScalar.RScalar A i j + 2) / 4)).
Proof.
  exists (@tmap RealScalar.RScalar (@quantSigm RealScalar.RScalar) A), (@tmap RealScalar.RScalar (@quantSigm4 RealScalar.RScalar) A).
  split; [apply (@elementwise_quantSigm RealScalar.RScalar)|].
  split; [apply (@elementwise_quantSigm4 RealScalar.RScalar)|].
  split; [reflexivity|]. split; [reflexivity|].
  intros i j Hi Hj. unfold tmap. rewrite !get_tabulate by assumption.
  unfold quantSigm, quantSigm4, r4, r2. cbn.
  repeat split; try (apply Rclip_range; lra).
  - intros H. rewrite Rclip_inside; lra.
  - intros H. rewrite Rclip_inside; lra.
Qed.

End RealNonlinearities.

Lemma fastgrnn34_steps_well :
  steps_well Samples.fastgrnn34 2 3.
Proof.
  exact (FastGRNN_steps_well (B := 2) fastgrnn34_well_shaped
           elementwise_sigmoid elementwise_tanh).
Qed.

Lemma unroll_from_state_witness :
  exists out,
    BaseRNN.forward (BaseRNN.mk Samples.fastgrnn34 true) MoreSamples.input243
      (Some MoreSamples.h24) None = Ok (Out out) /\
    shape3 out = (2, 4, output_size Samples.fastgrnn34) /\
    (0 < 4 ->
     call Samples.fastgrnn34 (select1 MoreSamples.input243 0)
       (Hidden MoreSamples.h24) = Ok (Hidden (select1 out 0))) /\
    (forall t, 0 < t < 4 ->
     call Samples.fastgrnn34 (select1 MoreSamples.input243 t)
       (Hidden (select1 out (t - 1))) = Ok (Hidden (select1 out t))).
Proof.
  apply unroll_from_state with (I := 3).
  - reflexivity.
  - reflexivity.
  - exact fastgrnn34_steps_well.
  - reflexivity.
  - reflexivity.
Defined.

Lemma unroll_in_two_parts_witness :
  exists out out1 out2,
    BaseRNN.forward (BaseRNN.mk Samples.fastgrnn34 true) MoreSamples.input243
      None None = Ok (Out out) /\
    BaseRNN.forward (BaseRNN.mk Samples.fastgrnn34 true)
      (take_steps 1 MoreSamples.input243) None None = Ok (Out out1) /\
    BaseRNN.forward (BaseRNN.mk Samples.fastgrnn34 true)
      (drop_steps 1 MoreSamples.input243)
      (Some (select1 out1 (1 - 1))) None = Ok (Out out2) /\
    (forall s, s < 1 -> select1 out s = select1 out1 s) /\
    (forall s, s < 4 - 1 -> select1 out (1 + s) = select1 out2 s).
Proof.
  apply unroll_in_two_parts with (B := 2) (I := 3).
  - reflexivity.
  - reflexivity.
  - exact fastgrnn34_steps_well.
  - lia.
Defined.

Lemma unroll_dual_state_witness :
  exists hs cs,
    BaseRNN.forward (BaseRNN.mk MoreSamples.lstmlr true) MoreSamples.input232
      None None = Ok (OutPair hs cs) /\
    shape3 hs = (2, 3, output_size MoreSamples.lstmlr) /\
    shape3 cs = (2, 3, output_size MoreSamples.lstmlr) /\
    (0 < 3 ->
     call MoreSamples.lstmlr (select1 MoreSamples.input232 0)
       (HiddenCell (zeros 2 (output_size MoreSamples.lstmlr))
                   (zeros 2 (output_size MoreSamples.lstmlr))) =
     Ok (HiddenCell (select1 hs 0) (select1 cs 0))) /\
    (forall t, 0 < t < 3 ->
     call MoreSamples.lstmlr (select1 MoreSamples.input232 t)
       (HiddenCell (select1 hs (t - 1)) (select1 cs (t - 1))) =
     Ok (HiddenCell (select1 hs t) (select1 cs t))).
Proof.
  apply unroll_dual_state with (I := 2).
  - reflexivity.
  - reflexivity.
  - exact (LSTMLR_steps_well2 (B := 2) lstmlr_well_shaped
             elementwise_sigmoid elementwise_tanh).
Defined.

Lemma unroll_raises_witness :
  BaseRNN.forward (BaseRNN.mk MoreSamples.fastgrnn_guard true)
    MoreSamples.input121 None None = Raise ValueError.
Proof.
  apply unroll_raises with (states := MoreSamples.guard_states) (t := 1).
  - reflexivity.
  - reflexivity.
  - simpl. lia.
  - intros s Hs. assert (s = 0) by lia. subst s. split; reflexivity.
  - reflexivity.
Defined.

Lemma LSTM_constructed_unrolls_witness :
  exists m hs cs,
    LSTM.__init__ MoreSamples.noise1 [PInt (Z.of_nat 3); PInt (Z.of_nat 4)]
      [("wRank", rank_arg (Some 2)); ("uRank", rank_arg None)]%string = Ok m /\
    LSTM.forward m Samples.input253 None None = Ok (OutPair hs cs) /\
    shape3 hs = (2, 5, 4) /\ shape3 cs = (2, 5, 4) /\
    (forall t, t < 5 ->
       select1 hs t =
         LSTMLR_new_h (LSTM.cell m) sigmoid tanh (select1 Samples.input253 t)
           (entering (zeros 2 4) hs t) (entering (zeros 2 4) cs t) /\
       select1 cs t =
         LSTMLR_new_c (LSTM.cell m) sigmoid tanh (select1 Samples.input253 t)
           (entering (zeros 2 4) hs t) (entering (zeros 2 4) cs t)).
Proof.
  apply LSTM_constructed_unrolls. reflexivity.
Defined.

Lemma GRU_constructed_unrolls_witness :
  exists m out,
    GRU.__init__ MoreSamples.noise1 [PInt (Z.of_nat 3); PInt (Z.of_nat 4)]
      [("wRank", rank_arg None); ("uRank", rank_arg (Some 1))]%string = Ok m /\
    GRU.forward m Samples.input253 None None = Ok (Out out) /\
    shape3 out = (2, 5, 4) /\
    (forall t, t < 5 ->
       select1 out t =
         GRULR_update (GRU.cell m) sigmoid tanh (select1 Samples.input253 t)
           (entering (zeros 2 4) out t)).
Proof.
  apply GRU_constructed_unrolls. reflexivity.
Defined.

Lemma UGRNN_constructed_unrolls_witness :
  exists m out,
    UGRNN.__init__ MoreSamples.noise1 [PInt (Z.of_nat 3); PInt (Z.of_nat 4)]
      [("wRank", rank_arg (Some 2)); ("uRank", rank_arg (Some 1))]%string
      = Ok m /\
    UGRNN.forward m Samples.input253 None None = Ok (Out out) /\
    shape3 out = (2, 5, 4) /\
    (forall t, t < 5 ->
       select1 out t =
         UGRNNLR_update (UGRNN.cell m) sigmoid tanh (select1 Samples.input253 t)
           (entering (zeros 2 4) out t)).
Proof.
  apply UGRNN_constructed_unrolls. reflexivity.
Defined.

Lemma FastGRNN_constructed_unrolls_witness :
  exists m out,
    FastGRNN.__init__ MoreSamples.noise1 [PInt (Z.of_nat 3); PInt (Z.of_nat 4)]
      [("wRank", rank_arg None); ("uRank", rank_arg None)]%string = Ok m /\
    FastGRNN.forward m Samples.input253 None None = Ok (Out out) /\
    shape3 out = (2, 5, 4) /\
    (forall t, t < 5 ->
       select1 out t =
         FastGRNN_update (FastGRNNCellSnap.cell (FastGRNN.cell m)) sigmoid tanh
           (select1 Samples.input253 t) (entering (zeros 2 4) out t)).
Proof.
  apply FastGRNN_constructed_unrolls. reflexivity.
Defined.

Lemma sparsifyWithSupport_without_snapshot_witness :
  FastGRNNCellSnap.sparsifyWithSupport MoreSamples.keep_support
    MoreSamples.fastgrnn_fresh = Raise AttributeError /\
  (forall s',
     FastGRNNCellSnap.sparsify MoreSamples.keep MoreSamples.fastgrnn_fresh = Ok s' ->
     FastGRNNCellSnap.sparsifyWithSupport MoreSamples.keep_support s' =
     Raise AttributeError).
Proof.
  apply sparsifyWithSupport_without_snapshot
    with (noise := MoreSamples.noise1) (args := [PInt 2; PInt 3])
         (kwargs := []).
  - reflexivity.
  - reflexivity.
Defined.

Lemma sparsify_snapshots_current_witness :
  FastGRNNCellSnap.W_old MoreSamples.fastgrnn_sparse =
    Some (MoreSamples.fresh_weight 0 3 2) /\
  FastGRNNCellSnap.U_old MoreSamples.fastgrnn_sparse =
    Some (MoreSamples.fresh_weight 2 3 3).
Proof.
  apply (@sparsify_snapshots_current ZScalar MoreSamples.keep
           (FastGRNNCellSnap.mk
              (FastGRNNCellSnap.cell MoreSamples.fastgrnn_sparse)
              None None None None None None)
           MoreSamples.fastgrnn_sparse).
  - reflexivity.
  - reflexivity.
  - reflexivity.
Defined.

Lemma keep_shape (W : @Tensor ZScalar) (s : pyval) :
  exists W', MoreSamples.keep W s = Ok W' /\ shape W' = shape W.
Proof. exists W. split; reflexivity. Qed.

Lemma fastgrnn_fresh_well_shaped :
  FastGRNNCell.well_shaped (FastGRNNCellSnap.cell MoreSamples.fastgrnn_fresh).
Proof. repeat split. Qed.

Lemma FastGRNN_sparsify_keeps_shapes_witness :
  exists s',
    FastGRNNCellSnap.sparsify MoreSamples.keep MoreSamples.fastgrnn_fresh = Ok s' /\
    FastGRNNCell.well_shaped (FastGRNNCellSnap.cell s') /\
    FastGRNNCell.input_size (FastGRNNCellSnap.cell s') = 2 /\
    FastGRNNCell.hidden_size (FastGRNNCellSnap.cell s') = 3.
Proof.
  apply (@FastGRNN_sparsify_keeps_shapes ZScalar MoreSamples.keep keep_shape
           MoreSamples.fastgrnn_fresh false false).
  - reflexivity.
  - reflexivity.
  - exact fastgrnn_fresh_well_shaped.
Defined.

Lemma FastRNN_sparsify_keeps_shapes_witness :
  exists s',
    FastRNNCellMethods.sparsify MoreSamples.keep MoreSamples.fastrnn = Ok s' /\
    FastRNNCell.well_shaped s' /\
    FastRNNCell.input_size s' = 2 /\
    FastRNNCell.hidden_size s' = 2.
Proof.
  apply (@FastRNN_sparsify_keeps_shapes ZScalar MoreSamples.keep keep_shape
           MoreSamples.fastrnn).
  exact fastrnn_well_shaped.
Defined.

Lemma FastGRNN_forward_rowwise_witness :
  exists y yb,
    FastGRNNCell.forward Samples.fastgrnn Samples.x32 Samples.h32 = Ok y /\
    FastGRNNCell.forward Samples.fastgrnn (row Samples.x32 1)
      (row Samples.h32 1) = Ok yb /\
    row y 1 = yb.
Proof.
  apply FastGRNN_forward_rowwise
    with (B := 3) (gateNL := sigmoid) (updateNL := tanh).
  - exact fastgrnn_well_shaped.
  - reflexivity.
  - reflexivity.
  - apply elementwise_sigmoid.
  - apply elementwise_tanh.
  - lia.
Defined.
